(** * damu_1c: shallow embedding of the helper routines and their properties

    The repository drives a desktop ERP client through UI automation.  The
    parts that carry checkable behaviour are small: the polling helper
    [wait_for] and the text conversions of [utils/automation.py], the record
    constructors of [main.py] and [data.py], the retry loops of
    [utils/app.py], the schema set-up of [utils/db_manager.py] and the
    catch-log-notify glue of [notification.py].

    Part I embeds each of them as an executable definition, one module per
    source file.  Calls into third-party libraries (pywinauto, smtplib,
    requests, difflib, the datetime parsers) are parameters of a section or
    oracles of an explicit environment; what a routine writes to the log, to
    standard output or to the network is collected in a trace.  A text that
    the code strips or reads character by character is a list of code points;
    a time span is a rational number of seconds or one of [inf], [-inf] and
    [nan].  Part II states and proves the properties. *)

From Stdlib Require Import ZArith QArith Qround Lqa Lia Bool List Ascii String PrimFloat.
From stdpp Require Import gmap strings list pretty.

Import ListNotations.
Local Open Scope string_scope.
Local Open Scope Z_scope.

(** * Part I: the embedding *)

(** ** Python exceptions, results and stateful programs *)

Module Py.

(** The exception classes the embedded code raises, catches or lets pass. *)
Inductive exc_class : Type :=
| BaseException
| KeyboardInterrupt
| SystemExit
| Exception
| ValueError
| TypeError
| IndexError
| AttributeError
| AssertionError
| ArithmeticError
| OverflowError
| OSError
| FileNotFoundError
| RequestException
| RequestsConnectionError
| SSLError
| HTTPError
| SMTPException
| SMTPRecipientsRefused
| SMTPResponseException
| ElementNotFoundError
| SqliteError
| SqliteDatabaseError
| SqliteIntegrityError.

#[global] Instance exc_class_eq_dec : EqDecision exc_class.
Proof. solve_decision. Defined.

(** The direct base class, as the libraries declare it. *)
Definition base_of (c : exc_class) : option exc_class :=
  match c with
  | BaseException => None
  | KeyboardInterrupt | SystemExit | Exception => Some BaseException
  | ValueError | TypeError | IndexError | AttributeError | AssertionError
  | ArithmeticError | OSError | ElementNotFoundError | SqliteError => Some Exception
  | OverflowError => Some ArithmeticError
  | SqliteDatabaseError => Some SqliteError
  | SqliteIntegrityError => Some SqliteDatabaseError
  | FileNotFoundError | RequestException | SMTPException => Some OSError
  | RequestsConnectionError | HTTPError => Some RequestException
  | SSLError => Some RequestsConnectionError
  | SMTPRecipientsRefused | SMTPResponseException => Some SMTPException
  end.

Fixpoint issubclass_upto (depth : nat) (c target : exc_class) : bool :=
  bool_decide (c = target)
  || match depth, base_of c with
     | S d, Some b => issubclass_upto d b target
     | _, _ => false
     end.

(** [issubclass(c, target)]; no chain of [base_of] is longer than six. *)
Definition issubclass (c target : exc_class) : bool := issubclass_upto 6 c target.

Record exn : Type := mkExn { exn_class : exc_class; exn_msg : string }.

(** [isinstance(e, target)], which is what an [except target] clause tests. *)
Definition caught_by (e : exn) (target : exc_class) : bool :=
  issubclass (exn_class e) target.

(** The plain values the embedded code handles; a [bytes] object is kept
    as the string of its bytes. *)
Inductive value : Type :=
| VNone
| VBool (b : bool)
| VInt (n : Z)
| VFloat (f : float)
| VStr (s : string)
| VBytes (b : string).

(** A call either returns a value or raises. *)
Inductive result (A : Type) : Type :=
| Ok (a : A)
| Raise (e : exn).
Arguments Ok {A} a.
Arguments Raise {A} e.

Definition bind {A B : Type} (m : result A) (k : A -> result B) : result B :=
  match m with
  | Ok a => k a
  | Raise e => Raise e
  end.

Definition is_ok {A : Type} (m : result A) : bool :=
  match m with Ok _ => true | Raise _ => false end.

(** A program over a state [S]: the state survives an exception, as the
    side effects of a Python call do. *)
Definition prog (S A : Type) : Type := S -> result A * S.

Definition ret {S A : Type} (a : A) : prog S A := fun s => (Ok a, s).

Definition raise {S A : Type} (e : exn) : prog S A := fun s => (Raise e, s).

Definition pbind {S A B : Type} (m : prog S A) (k : A -> prog S B) : prog S B :=
  fun s =>
    match m s with
    | (Ok a, s') => k a s'
    | (Raise e, s') => (Raise e, s')
    end.

(** Lift a stateless call. *)
Definition lift {S A : Type} (r : result A) : prog S A := fun s => (r, s).

(** Append one entry to a trace kept as the whole state. *)
Definition emit {E : Type} (e : E) : prog (list E) unit :=
  fun tr => (Ok tt, (tr ++ [e])%list).

End Py.

Import Py.

Notation "'let?' x ':=' m 'in' k" := (Py.bind m (fun x => k))
  (at level 10, x name, m at level 100, k at level 200).
Notation "'let*' x ':=' m 'in' k" := (Py.pbind m (fun x => k))
  (at level 10, x name, m at level 100, k at level 200).
Notation "m ';;' k" := (Py.pbind m (fun _ => k))
  (at level 100, k at level 200, right associativity).

(** ** Strings *)

(** A Python [str] whose characters the code copies, compares, or cuts at
    an ASCII character is embedded as a [string], the bytes of its UTF-8
    encoding; for the texts the code indexes, dates and numbers, a byte is a
    character.  A [str] that the code strips or reads character by character
    is embedded as the list of its code points, in [Unicode] below. *)
Module Str.

Definition comma : ascii := ","%char.
Definition dot : ascii := "."%char.
Definition semicolon : ascii := ";"%char.

(** [s.replace(old, new)] for one-character [old] and [new]. *)
Fixpoint replace (old new : ascii) (s : string) : string :=
  match s with
  | EmptyString => EmptyString
  | String c rest =>
      String (if Ascii.eqb c old then new else c) (replace old new rest)
  end.

(** [s[i]] for a non-negative index: [IndexError] past the end. *)
Definition index (s : string) (i : nat) : result ascii :=
  match String.get i s with
  | Some c => Ok c
  | None => Raise (mkExn IndexError "string index out of range")
  end.

Definition is_empty (s : string) : bool :=
  match s with EmptyString => true | _ => false end.

(** [s.split(sep)] for a one-character separator: the pieces between
    separators, empty pieces included. *)
Fixpoint split (sep : ascii) (s : string) : list string :=
  match s with
  | EmptyString => [EmptyString]
  | String c rest =>
      if Ascii.eqb c sep then EmptyString :: split sep rest
      else match split sep rest with
           | piece :: pieces => String c piece :: pieces
           | [] => [String c EmptyString]
           end
  end.

Fixpoint repeat (n : nat) (s : string) : string :=
  match n with
  | O => EmptyString
  | S m => s ++ repeat m s
  end.

End Str.

(** ** Texts as code points *)

Module Unicode.

(** A character is its code point; a text is the list of its characters. *)
Definition text : Type := list N.

(** [c.isspace()], the characters [str.strip()] removes: U+0009 to U+000D,
    U+001C to U+0020, U+0085, U+00A0, U+1680, U+2000 to U+200A, U+2028,
    U+2029, U+202F, U+205F and U+3000. *)
Definition is_space (c : N) : bool :=
  (((9 <=? c) && (c <=? 13)) || ((28 <=? c) && (c <=? 32))
   || (c =? 133) || (c =? 160) || (c =? 5760)
   || ((8192 <=? c) && (c <=? 8202))
   || (c =? 8232) || (c =? 8233) || (c =? 8239) || (c =? 8287) || (c =? 12288))%N.

Fixpoint lstrip (s : text) : text :=
  match s with
  | [] => []
  | c :: rest => if is_space c then lstrip rest else s
  end.

(** Drop trailing blanks: a character is kept when it is no blank or when
    something that is kept follows it. *)
Fixpoint rstrip (s : text) : text :=
  match s with
  | [] => []
  | c :: rest =>
      match rstrip rest with
      | [] => if is_space c then [] else [c]
      | kept => c :: kept
      end
  end.

(** [s.strip()]. *)
Definition strip (s : text) : text := rstrip (lstrip s).

(** The truth value of a text is that it is not empty. *)
Definition is_empty (s : text) : bool :=
  match s with [] => true | _ => false end.

(** [a == b]. *)
Fixpoint eqb (a b : text) : bool :=
  match a, b with
  | [], [] => true
  | x :: a', y :: b' => (x =? y)%N && eqb a' b'
  | _, _ => false
  end.

(** [sep.join(items)]. *)
Fixpoint join (sep : text) (items : list text) : text :=
  match items with
  | [] => []
  | [item] => item
  | item :: rest => (item ++ sep ++ join sep rest)%list
  end.

(** The text of a literal written in ASCII. *)
Fixpoint of_string (s : string) : text :=
  match s with
  | EmptyString => []
  | String c rest => N_of_ascii c :: of_string rest
  end.

(** The literal [" "]. *)
Definition space : text := [32%N].

End Unicode.

(** ** datetime objects and [strftime] *)

Module Datetime.

(** A [datetime.datetime]; the library keeps [1 <= year <= 9999],
    [1 <= month <= 12], [1 <= day <= 31], [hour < 24], [minute < 60] and
    [second < 60]. *)
Record datetime : Type := mkDatetime {
  year : Z;
  month : Z;
  day : Z;
  hour : Z;
  minute : Z;
  second : Z
}.

Definition in_range (d : datetime) : bool :=
  (1 <=? year d) && (year d <=? 9999) && (1 <=? month d) && (month d <=? 12)
  && (1 <=? day d) && (day d <=? 31) && (0 <=? hour d) && (hour d <=? 23)
  && (0 <=? minute d) && (minute d <=? 59) && (0 <=? second d) && (second d <=? 59).

(** The decimal digit of [n]'s units. *)
Definition digit (n : Z) : ascii := ascii_of_nat (48 + Z.to_nat (n mod 10)).

(** Zero-padded decimal rendering in two and in four places, exact for
    [0 <= n < 100] and [0 <= n < 10000]: the ranges [in_range] leaves. *)
Definition two_digits (n : Z) : string :=
  String (digit (n / 10)) (String (digit n) EmptyString).

Definition four_digits (n : Z) : string :=
  String (digit (n / 1000)) (String (digit (n / 100)) (two_digits n)).

(** One [%c] directive.  Those the repository uses are [%d], [%m], [%Y]
    and [%y]; an unknown directive is copied. *)
Definition directive (c : ascii) (d : datetime) : string :=
  if Ascii.eqb c "d" then two_digits (day d)
  else if Ascii.eqb c "m" then two_digits (month d)
  else if Ascii.eqb c "Y" then four_digits (year d)
  else if Ascii.eqb c "y" then two_digits (year d mod 100)
  else if Ascii.eqb c "H" then two_digits (hour d)
  else if Ascii.eqb c "M" then two_digits (minute d)
  else if Ascii.eqb c "S" then two_digits (second d)
  else if Ascii.eqb c "%" then "%"
  else String "%" (String c EmptyString).

(** [d.strftime(fmt)]. *)
Fixpoint strftime (d : datetime) (fmt : string) : string :=
  match fmt with
  | EmptyString => EmptyString
  | String c rest =>
      if Ascii.eqb c "%" then
        match rest with
        | EmptyString => "%"
        | String k rest' => directive k d ++ strftime d rest'
        end
      else String c (strftime d rest)
  end.

End Datetime.

Import Datetime.

(** ** utils/automation.py *)

Module Automation.

(** *** Time spans and [time.sleep] *)

(** A Python [float] that stands for a time span: a rational number of
    seconds, or one of the three floats that are not finite. *)
Inductive seconds : Type :=
| Finite (q : Q)
| Infinity
| MinusInfinity
| NaN.

(** [time.sleep] keeps its argument as a count of nanoseconds in 64 bits. *)
Definition sleepable (q : Q) : bool :=
  Qle_bool (inject_Z (- 2 ^ 63)) (q * inject_Z (10 ^ 9))
  && Qle_bool (q * inject_Z (10 ^ 9)) (inject_Z (2 ^ 63 - 1)).

(** What [time.sleep(d)] does with its argument before it sleeps: the
    seconds it is going to sleep, or the error it raises. *)
Definition sleep_arg (d : seconds) : result Q :=
  match d with
  | NaN => Raise (mkExn ValueError "Invalid value NaN (not a number)")
  | Infinity | MinusInfinity =>
      Raise (mkExn OverflowError "timestamp too large to convert to C _PyTime_t")
  | Finite q =>
      if sleepable q then
        if Qle_bool 0 q then Ok q
        else Raise (mkExn ValueError "sleep length must be non-negative")
      else Raise (mkExn OverflowError "timestamp too large to convert to C _PyTime_t")
  end.

(** [elapsed > timeout] for a clock difference [elapsed]. *)
Definition exceeds (elapsed : Q) (timeout : seconds) : bool :=
  match timeout with
  | Finite t => negb (Qle_bool elapsed t)
  | MinusInfinity => true
  | Infinity | NaN => false
  end.

(** *** wait_for *)

Inductive wait_event : Type :=
| Poll (found : bool)
| Slept (d : seconds).

Section WaitFor.

(** The state of the machine the routine runs on. *)
Context {W : Type}.
(** [time()]: the clock reading, in seconds, in a state. *)
Variable time : W -> Q.
(** What a sleep of so many seconds does to the state. *)
Variable sleep : Q -> W -> W.
(** The polled condition: it may change the state and it may raise. *)
Variable condition : prog W bool.

(** [sleep(d)]. *)
Definition py_sleep (d : seconds) : prog W unit :=
  fun w =>
    match sleep_arg d with
    | Ok q => (Ok tt, sleep q w)
    | Raise e => (Raise e, w)
    end.

(** The [while] loop of [wait_for]; [fuel] bounds the number of polls and
    [None] means that it ran out.  The trace lists the polls and the sleeps
    in the order they happen. *)
Fixpoint wait_loop (fuel : nat) (start : Q) (timeout interval : seconds) (w : W)
  : option (result bool * W * list wait_event) :=
  match fuel with
  | O => None
  | S fuel' =>
      match condition w with
      | (Raise e, w1) => Some (Raise e, w1, [])
      | (Ok true, w1) => Some (Ok true, w1, [Poll true])
      | (Ok false, w1) =>
          if exceeds (time w1 - start) timeout
          then Some (Ok false, w1, [Poll false])
          else
            match py_sleep interval w1 with
            | (Raise e, w2) => Some (Raise e, w2, [Poll false])
            | (Ok _, w2) =>
                match wait_loop fuel' start timeout interval w2 with
                | Some (r, w', tr) => Some (r, w', Poll false :: Slept interval :: tr)
                | None => None
                end
            end
      end
  end.

Definition wait_for (fuel : nat) (timeout interval : seconds) (w : W)
  : option (result bool * W * list wait_event) :=
  let start := time w in
  wait_loop fuel start timeout interval w.

(** The state in which poll number [k] begins when the polls before it
    found nothing and were each followed by a sleep of [interval] seconds. *)
Fixpoint before_poll (k : nat) (interval : Q) (w : W) : W :=
  match k with
  | O => w
  | S k' => sleep interval (snd (condition (before_poll k' interval w)))
  end.

End WaitFor.

(** The default [interval=0.1]. *)
Definition default_interval : Q := 1 # 10.

(** Polls that always suffice: one more than the sleeps that fit in the
    timeout, and one for the poll that finds the time up. *)
Definition polls_needed (timeout interval : Q) : nat :=
  S (S (Z.to_nat (Qfloor (timeout / interval)))).

(** The trace of [k] polls that find nothing, each followed by a sleep. *)
Fixpoint failed_polls (k : nat) (interval : seconds) : list wait_event :=
  match k with
  | O => []
  | S k' => Poll false :: Slept interval :: failed_polls k' interval
  end.

(** The trace of [k] polls that find nothing, each followed by a sleep,
    and of a last poll. *)
Fixpoint polling_trace (k : nat) (interval : seconds) (last : bool) : list wait_event :=
  match k with
  | O => [Poll last]
  | S k' => Poll false :: Slept interval :: polling_trace k' interval last
  end.

(** *** text_to_float *)

Section TextToFloat.

(** Python's [float(str)]: [None] stands for the [ValueError] it raises on
    text that is no float literal. *)
Variable float_of_str : string -> option float.

Definition float_error (s : string) : exn :=
  mkExn ValueError ("could not convert string to float: " ++ s).

Definition py_float (s : string) : result float :=
  match float_of_str s with
  | Some f => Ok f
  | None => Raise (float_error s)
  end.

(** [isinstance(default, float)]: an [int], a [bool] or [None] is no float. *)
Definition isinstance_float (v : value) : bool :=
  match v with VFloat _ => true | _ => false end.

Definition text_to_float (txt : string) (default : value) : result value :=
  match py_float (Str.replace Str.comma Str.dot txt) with
  | Ok res => Ok (VFloat res)
  | Raise err =>
      if caught_by err ValueError then
        if isinstance_float default then Ok default else Raise err
      else Raise err
  end.

End TextToFloat.

End Automation.

(** ** data.py *)

Module Data.

Record Date : Type := mkDate {
  dt : datetime;
  long : string;
  short : string
}.

(** [Date.to_date]. *)
Definition to_date (d : datetime) : Date :=
  mkDate d (strftime d "%d.%m.%Y") (strftime d "%d.%m.%y").

(** What an attribute of an order can hold: a [Date], a [datetime], the
    pair of names, or a plain value. *)
Inductive field_value : Type :=
| FDate (d : Date)
| FDatetime (d : datetime)
| FNames (first last : string)
| FPlain (v : value).

(** An instance of a dataclass with slots: its attributes by name. *)
Abbreviation object := (gmap string field_value).

Section ConvertDate.

(** [datetime.strptime(text, format)]; it raises [ValueError] on text
    that does not match. *)
Variable strptime : string -> string -> result datetime.
(** The text [f"{type(v)} {v}"] of a value. *)
Variable describe : field_value -> string.

Definition no_attribute (name : string) : exn :=
  mkExn AttributeError ("object has no attribute " ++ name).

(** [convert_date(obj, field_name, date_format)]: the state is the list of
    messages passed to [logging.error]; the object is returned as the call
    leaves it. *)
Definition convert_date (obj : object) (field_name date_format : string)
  : prog (list string) object :=
  match obj !! field_name with
  | None => raise (no_attribute field_name)
  | Some (FDate _) => ret obj
  | Some (FDatetime d) => ret (<[field_name := FDate (to_date d)]> obj)
  | Some (FPlain (VStr s)) =>
      let* date := lift (strptime s date_format) in
      ret (<[field_name := FDate (to_date date)]> obj)
  | Some other =>
      let error_msg :=
        "Unknown type for a field " ++ field_name ++ " - " ++ describe other in
      emit error_msg;;
      raise (mkExn ValueError error_msg)
  end.

(** The [__post_init__] of the eight order classes. *)

Definition BusinessTripOrder_post_init (self : object) : prog (list string) object :=
  let* self := convert_date self "start_date" "%d.%m.%y" in
  let* self := convert_date self "end_date" "%d.%m.%y" in
  convert_date self "main_order_start_date" "%d.%m.%y".

Definition VacationOrder_post_init (self : object) : prog (list string) object :=
  let* self := convert_date self "start_date" "%d.%m.%y" in
  convert_date self "end_date" "%d.%m.%y".

Definition VacationWithdrawOrder_post_init (self : object) : prog (list string) object :=
  convert_date self "withdraw_date" "%d.%m.%y".

Definition FiringOrder_post_init (self : object) : prog (list string) object :=
  convert_date self "firing_date" "%d.%m.%y".

Definition MentorshipOrder_post_init (self : object) : prog (list string) object :=
  let* self := convert_date self "start_date" "%d.%m.%y" in
  convert_date self "end_date" "%d.%m.%y".

Definition VNDOrder_post_init (self : object) : prog (list string) object :=
  let* self := convert_date self "start_date" "%d.%m.%y" in
  convert_date self "end_date" "%d.%m.%y".

Definition TripAddPayOrder_post_init (self : object) : prog (list string) object :=
  let* self := convert_date self "start_date" "%d.%m.%y" in
  convert_date self "end_date" "%d.%m.%y".

Definition VacationAddPayOrder_post_init (self : object) : prog (list string) object :=
  let* self := convert_date self "start_date" "%d.%m.%y" in
  convert_date self "end_date" "%d.%m.%y".

End ConvertDate.

(** The annotation of a field in the class body. *)
Inductive annotation : Type :=
| AStr            (* str *)
| AOptStr         (* str | None *)
| ANames          (* tuple[str, str] *)
| ABool           (* bool *)
| ADateLike       (* Date | str | datetime *)
| ADate.          (* Date *)

Definition is_date_annotation (a : annotation) : bool :=
  match a with ADateLike | ADate => true | _ => false end.

(** A dataclass as declared: its fields in order, those with the default
    [None] last, and its [__post_init__]. *)
Record dataclass : Type := mkDataclass {
  cls_name : string;
  cls_fields : list (string * annotation);
  cls_defaults : list (string * annotation);
  cls_post_init :
    (string -> string -> result datetime) -> (field_value -> string) ->
    object -> prog (list string) object
}.

Definition trailing_defaults : list (string * annotation) :=
  [("employee_status", AOptStr); ("branch_num", AOptStr); ("tab_num", AOptStr)].

Definition BusinessTripOrder : dataclass :=
  mkDataclass "BusinessTripOrder"
    [("employee_fullname", AStr); ("employee_names", ANames);
     ("order_number", AStr); ("start_date", ADateLike); ("end_date", ADateLike);
     ("trip_place", AStr); ("trip_code", AStr); ("trip_reason", AStr);
     ("main_order_start_date", ADateLike); ("was_done_previously", ABool);
     ("screenshot_path", AStr)]
    trailing_defaults BusinessTripOrder_post_init.

Definition VacationOrder : dataclass :=
  mkDataclass "VacationOrder"
    [("employee_fullname", AStr); ("employee_names", ANames);
     ("order_type", AStr); ("start_date", ADateLike); ("end_date", ADateLike);
     ("order_number", AStr); ("was_done_previously", ABool);
     ("screenshot_path", AStr)]
    trailing_defaults VacationOrder_post_init.

Definition VacationWithdrawOrder : dataclass :=
  mkDataclass "VacationWithdrawOrder"
    [("employee_fullname", AStr); ("employee_names", ANames);
     ("order_number", AStr); ("withdraw_date", ADateLike);
     ("was_done_previously", ABool); ("screenshot_path", AStr)]
    trailing_defaults VacationWithdrawOrder_post_init.

Definition FiringOrder : dataclass :=
  mkDataclass "FiringOrder"
    [("employee_fullname", AStr); ("employee_names", ANames);
     ("order_number", AStr); ("compensation", AStr); ("firing_date", ADateLike);
     ("main_article", AStr); ("extra_article", AStr);
     ("was_done_previously", ABool); ("screenshot_path", AStr)]
    trailing_defaults FiringOrder_post_init.

Definition MentorshipOrder : dataclass :=
  mkDataclass "MentorshipOrder"
    [("mentee_fullname", AStr); ("employee_fullname", AStr);
     ("employee_names", ANames); ("start_date", ADateLike);
     ("end_date", ADateLike); ("order_number", AStr);
     ("was_done_previously", ABool); ("screenshot_path", AStr)]
    trailing_defaults MentorshipOrder_post_init.

Definition VNDOrder : dataclass :=
  mkDataclass "VNDOrder"
    [("employee_fullname", AStr); ("employee_names", ANames);
     ("order_number", AStr); ("doplata", AOptStr); ("start_date", ADate);
     ("end_date", ADate); ("was_done_previously", ABool);
     ("screenshot_path", AStr)]
    trailing_defaults VNDOrder_post_init.

Definition TripAddPayOrder : dataclass :=
  mkDataclass "TripAddPayOrder"
    [("substitutee_fullname", AStr); ("employee_fullname", AStr);
     ("employee_names", ANames); ("order_number", AStr); ("doplata", AStr);
     ("start_date", ADate); ("end_date", ADate);
     ("was_done_previously", ABool); ("screenshot_path", AStr)]
    trailing_defaults TripAddPayOrder_post_init.

Definition VacationAddPayOrder : dataclass :=
  mkDataclass "VacationAddPayOrder"
    [("substitutee_fullname", AStr); ("employee_fullname", AStr);
     ("employee_names", ANames); ("order_number", AStr); ("doplata", AStr);
     ("start_date", ADate); ("end_date", ADate);
     ("was_done_previously", ABool); ("screenshot_path", AStr)]
    trailing_defaults VacationAddPayOrder_post_init.

(** The classes of the [Order] union. *)
Definition order_classes : list dataclass :=
  [BusinessTripOrder; VacationOrder; VacationWithdrawOrder; FiringOrder;
   MentorshipOrder; VNDOrder; TripAddPayOrder; VacationAddPayOrder].

(** The names of the fields annotated with a date type. *)
Definition date_fields (cls : dataclass) : list string :=
  map fst (List.filter (fun f => is_date_annotation (snd f)) (cls_fields cls)).

(** Bind the remaining positional arguments to the fields that have a
    default; a field that gets no argument holds [None]. *)
Fixpoint bind_optional (optional : list (string * annotation))
  (args : list field_value) : option object :=
  match optional, args with
  | (name, _) :: optional', a :: args' =>
      option_map (insert name a) (bind_optional optional' args')
  | (name, _) :: optional', [] =>
      option_map (insert name (FPlain VNone)) (bind_optional optional' [])
  | [], [] => Some ∅
  | [], _ :: _ => None
  end.

(** Bind positional arguments to the fields in their order. *)
Fixpoint bind_args (required optional : list (string * annotation))
  (args : list field_value) : option object :=
  match required, args with
  | (name, _) :: required', a :: args' =>
      option_map (insert name a) (bind_args required' optional args')
  | _ :: _, [] => None
  | [], _ => bind_optional optional args
  end.

(** The generated constructor: [__init__] and then [__post_init__]. *)
Definition construct (strptime : string -> string -> result datetime)
  (describe : field_value -> string) (cls : dataclass)
  (args : list field_value) : prog (list string) object :=
  match bind_args (cls_fields cls) (cls_defaults cls) args with
  | None => raise (mkExn TypeError ("__init__() got the wrong number of arguments"))
  | Some self => cls_post_init cls strptime describe self
  end.

(** The conversions of [convert_date] on a list of fields in turn. *)
Fixpoint convert_all (strptime : string -> string -> result datetime)
  (describe : field_value -> string) (fields : list string)
  (date_format : string) (self : object) : prog (list string) object :=
  match fields with
  | [] => ret self
  | field :: rest =>
      let* self := convert_date strptime describe self field date_format in
      convert_all strptime describe rest date_format self
  end.

(** The [Date] a value stands for: itself, the date of a [datetime], or
    the date a text parses to. *)
Definition normalized (strptime : string -> string -> result datetime)
  (date_format : string) (v : field_value) : option Date :=
  match v with
  | FDate d => Some d
  | FDatetime d => Some (to_date d)
  | FPlain (VStr s) =>
      match strptime s date_format with
      | Ok d => Some (to_date d)
      | Raise _ => None
      end
  | _ => None
  end.

(** Is the value a [Date], a [datetime] or a [str]? *)
Definition is_date_like (v : field_value) : bool :=
  match v with
  | FDate _ | FDatetime _ | FPlain (VStr _) => true
  | _ => false
  end.

End Data.

(** ** main.py *)

Module Main.

(** *** iso_to_standard *)

Section IsoToStandard.

(** [datetime.fromisoformat(text)]; it raises [ValueError] on text that is
    no ISO 8601 date. *)
Variable fromisoformat : string -> result datetime.

(** [dt[2] == "." and dt[5] == "."]: the second index is read only when
    the first test holds. *)
Definition has_dots (dt : string) : result bool :=
  let? c2 := Str.index dt 2 in
  if Ascii.eqb c2 Str.dot then
    let? c5 := Str.index dt 5 in
    Ok (Ascii.eqb c5 Str.dot)
  else Ok false.

Definition iso_to_standard (dt : string) : result string :=
  let? dotted := has_dots dt in
  if dotted then Ok dt
  else
    let? parsed := fromisoformat dt in
    Ok (strftime parsed "%d.%m.%Y").

End IsoToStandard.

(** *** InterestRate *)

(** The attributes hold whatever the database row holds: the annotations
    are not enforced. *)
Record InterestRate : Type := mkInterestRate {
  contract_id : value;
  subsid_term : value;
  nominal_rate : value;
  rate_one_two_three_year : value;
  rate_four_year : value;
  rate_five_year : value;
  rate_six_seven_year : value;
  rate_fee_one_two_three_year : value;
  rate_fee_four_year : value;
  rate_fee_five_year : value;
  rate_fee_six_seven_year : value;
  start_date_one_two_three_year : value;
  end_date_one_two_three_year : value;
  start_date_four_year : value;
  end_date_four_year : value;
  start_date_five_year : value;
  end_date_five_year : value;
  start_date_six_seven_year : value;
  end_date_six_seven_year : value
}.

Definition hundred : float := 100%float.

(** [x * 100] as the interpreter computes it for each type of [x]. *)
Definition times_100 (x : value) : result value :=
  match x with
  | VFloat f => Ok (VFloat (f * hundred)%float)
  | VInt n => Ok (VInt (n * 100))
  | VBool b => Ok (VInt ((if b then 1 else 0) * 100))
  | VStr s => Ok (VStr (Str.repeat 100 s))
  | VBytes b => Ok (VBytes (Str.repeat 100 b))
  | VNone =>
      Raise (mkExn TypeError "unsupported operand type(s) for *=: 'NoneType' and 'int'")
  end.

Definition InterestRate_post_init (self : InterestRate) : result InterestRate :=
  let? r1 := times_100 (nominal_rate self) in
  let? r2 := times_100 (rate_one_two_three_year self) in
  let? r3 := times_100 (rate_four_year self) in
  let? r4 := times_100 (rate_five_year self) in
  let? r5 := times_100 (rate_six_seven_year self) in
  let? r6 := times_100 (rate_fee_one_two_three_year self) in
  let? r7 := times_100 (rate_fee_four_year self) in
  let? r8 := times_100 (rate_fee_five_year self) in
  let? r9 := times_100 (rate_fee_six_seven_year self) in
  Ok (mkInterestRate
        (contract_id self) (subsid_term self)
        r1 r2 r3 r4 r5 r6 r7 r8 r9
        (start_date_one_two_three_year self) (end_date_one_two_three_year self)
        (start_date_four_year self) (end_date_four_year self)
        (start_date_five_year self) (end_date_five_year self)
        (start_date_six_seven_year self) (end_date_six_seven_year self)).

(** The constructor applied to an unpacked row: nineteen positional
    arguments bound in the order of the fields, then
    [__post_init__]. *)
Definition InterestRate_new (args : list value) : result InterestRate :=
  match args with
  | [a1; a2; a3; a4; a5; a6; a7; a8; a9; a10; a11; a12; a13; a14; a15; a16;
     a17; a18; a19] =>
      InterestRate_post_init
        (mkInterestRate a1 a2 a3 a4 a5 a6 a7 a8 a9 a10 a11 a12 a13 a14 a15
           a16 a17 a18 a19)
  | _ => Raise (mkExn TypeError "__init__() got the wrong number of arguments")
  end.

(** A row of a table: the cell of each column, [VNone] for [NULL]. *)
Definition row : Type := string -> value.

(** The columns of the [SELECT] in [InterestRate.load], in its order. *)
Definition load_columns : list string :=
  ["id"; "subsid_term"; "nominal_rate"; "rate_one_two_three_year";
   "rate_four_year"; "rate_five_year"; "rate_six_seven_year";
   "rate_fee_one_two_three_year"; "rate_fee_four_year"; "rate_fee_five_year";
   "rate_fee_six_seven_year"; "start_date_one_two_three_year";
   "end_date_one_two_three_year"; "start_date_four_year"; "end_date_four_year";
   "start_date_five_year"; "end_date_five_year"; "start_date_six_seven_year";
   "end_date_six_seven_year"].

(** [WHERE id = ?] with a text parameter: [NULL] and cells of another
    type compare unequal. *)
Definition id_is (contract : string) (r : row) : bool :=
  match r "id" with
  | VStr s => String.eqb s contract
  | _ => false
  end.

(** The rows [db.execute] fetches for the query of [InterestRate.load],
    each as the tuple of the selected cells. *)
Definition select_rates (interest_rates : list row) (contract : string)
  : list (list value) :=
  map (fun r => map r load_columns) (List.filter (id_is contract) interest_rates).

(** The nine columns of the rates, which are declared [REAL] and may hold
    [NULL]. *)
Definition rate_columns : list string :=
  ["nominal_rate"; "rate_one_two_three_year"; "rate_four_year"; "rate_five_year";
   "rate_six_seven_year"; "rate_fee_one_two_three_year"; "rate_fee_four_year";
   "rate_fee_five_year"; "rate_fee_six_seven_year"].

(** What [DatabaseManager.execute] passes to [logging.error]. *)
Inductive db_log_record : Type :=
| LoggedQuery (contract : string)      (* the query on one line, with its parameters *)
| LoggedDatabaseError (err : exn).     (* "Database error: " with the error and the query *)

(** [db.execute(query, (contract_id,))] for the query of
    [InterestRate.load].  [interest_rates] is what the block under
    [with self.connect()] comes to: the rows of the table as the engine reads
    them, or the exception raised while the file is opened, the statement is
    run, and the connection is committed and closed.  An
    [sqlite3.IntegrityError] and any other [sqlite3.Error] are logged, each in
    its own way, and raised again; another exception passes unlogged. *)
Definition db_execute (interest_rates : result (list row)) (contract : string)
  : prog (list db_log_record) (list (list value)) :=
  fun log =>
    match interest_rates with
    | Ok table => (Ok (select_rates table contract), log)
    | Raise err =>
        if caught_by err SqliteIntegrityError then
          (Raise err, (log ++ [LoggedQuery contract])%list)
        else if caught_by err SqliteError then
          (Raise err, (log ++ [LoggedDatabaseError err])%list)
        else (Raise err, log)
    end.

(** [InterestRate.load(db, contract_id)]. *)
Definition InterestRate_load (interest_rates : result (list row)) (contract : string)
  : prog (list db_log_record) InterestRate :=
  let* raw_rate := db_execute interest_rates contract in
  match raw_rate with
  | [] => Py.raise (mkExn IndexError "list index out of range")
  | first :: _ => Py.lift (InterestRate_new first)
  end.

(** *** find_row and find_project *)

(** A window specification as [child_win] builds it: nothing is looked up
    until a method is called on it. *)
Inductive widget : Type :=
| TopWindow
| Child (parent : widget) (ctrl : string) (title : option string) (idx : nat).

Definition child_win (parent : widget) (ctrl : string) (title : option string)
  (idx : nat) : widget := Child parent ctrl title idx.

(** A row of an on-screen list, with the text [window_text()] gives. *)
Record list_item : Type := mkItem {
  item_id : nat;
  window_text : Unicode.text
}.

(** The calls into pywinauto, pyperclip and the keyboard made for their
    effect, and those made for a verdict. *)
Inductive ui_call : Type :=
| ClickInput (w : widget)
| DoubleClickInput (item : list_item)
| WrapperObject (w : widget)
| SetFocus (w : widget)
| WaitActiveVisible (w : widget)
| SendKeys (keys : string)
| TypeKeys (w : widget) (keys : string)
| ClipboardCopy (text : string).

Inductive ui_test : Type :=
| IsActive (w : widget)
| IsEnabled (w : widget)
| Exists (w : widget).

(** The lines written to standard output:
    [f"{len(rows)=}, {txt=}, {score=}"] and [f"{contract.contract_id=} not found"]. *)
Inductive print_line : Type :=
| FoundLine (n_rows : nat) (txt : Unicode.text) (score : float)
| NotFoundLine (contract_id : string).

(** The attributes of a [Contract] that [find_project] reads. *)
Record Contract : Type := mkContract {
  c_contract_id : string;
  c_contragent : string;
  c_project : Unicode.text
}.

(** The literal [0.8]: the double nearest to four fifths. *)
Definition threshold : float := 0x1.999999999999ap-1%float.

Section FindProject.

(** The desktop the program drives. *)
Context {W : Type}.
Variable call : ui_call -> prog W unit.
Variable test : ui_test -> prog W bool.
(** [children(parent)]. *)
Variable children : widget -> prog W (list list_item).
Variable time : W -> Q.
Variable sleep : Q -> W -> W.
(** [SequenceMatcher(None, a, b).ratio()]. *)
Variable ratio : Unicode.text -> Unicode.text -> float.
(** [prepare_query(contragent)]: the text of the query, in Cyrillic. *)
Variable prepare_query : string -> string.

(** The desktop and what was printed so far. *)
Definition state : Type := W * list print_line.

Definition on_world {A : Type} (p : prog W A) : prog state A :=
  fun s => let (r, w') := p (fst s) in (r, (w', snd s)).

Definition print (line : print_line) : prog state unit :=
  fun s => (Ok tt, (fst s, (snd s ++ [line])%list)).

(** The loop of [find_row] over the rows already listed: the row it
    returns, with the line it prints on the way. *)
Fixpoint scan_rows (n_rows : nat) (rows : list list_item) (project : Unicode.text)
  : option (list_item * print_line) :=
  match rows with
  | [] => None
  | row :: rest =>
      let txt := Unicode.strip (window_text row) in
      if Unicode.is_empty txt then scan_rows n_rows rest project
      else
        let score := ratio project txt in
        if (threshold <=? score)%float
        then Some (row, FoundLine n_rows txt score)
        else scan_rows n_rows rest project
  end.

(** Is the row one that [find_row] returns when it comes to it: not
    blank, and similar enough to the project? *)
Definition qualifies (project : Unicode.text) (row : list_item) : bool :=
  let txt := Unicode.strip (window_text row) in
  negb (Unicode.is_empty txt) && (threshold <=? ratio project txt)%float.

Definition find_row (parent : widget) (project : Unicode.text)
  : prog state (option list_item) :=
  let* rows := on_world (children parent) in
  match scan_rows (length rows) rows project with
  | Some (row, line) => print line;; ret (Some row)
  | None => ret None
  end.

(** The helper [a]: focus the main window unless it is active, then act. *)
Definition a {A : Type} (main_win : widget) (action : prog W A) : prog W A :=
  let* active := test (IsActive main_win) in
  (if active then ret tt
   else call (SetFocus main_win);; call (WaitActiveVisible main_win));;
  action.

(** [find_project] up to the click on the run button: the query box and
    the delete button it goes on with. *)
Definition run_query (top_win : widget) (contract : Contract)
  : prog W (widget * widget) :=
  a top_win (call (ClickInput (child_win top_win "Button" (Some "Консоль запросов и обработчик") 0)));;
  let query_document_box := child_win top_win "Document" None 0 in
  call (WrapperObject query_document_box);;
  let delete_button := child_win top_win "Button" (Some "Delete") 1 in
  let query := prepare_query (c_contragent contract) in
  call (ClipboardCopy query);;
  a top_win (call (ClickInput query_document_box));;
  a top_win (call (SendKeys "^a^v"));;
  a top_win (call (ClickInput (child_win top_win "Button" (Some "Выполнить") 0)));;
  ret (query_document_box, delete_button).

(** [find_project] from the double click on the row that was found. *)
Definition open_row (top_win query_document_box : widget) (row : list_item)
  : prog W unit :=
  a top_win (call (DoubleClickInput row));;
  a top_win (call (ClickInput query_document_box));;
  call (TypeKeys query_document_box "{ESC}");;
  let close_button :=
    child_win (child_win top_win "Pane" None 18) "Button" (Some "Close") 0 in
  let* shown := test (Exists close_button) in
  if shown then a top_win (call (ClickInput close_button)) else ret tt.

(** [find_project(top_win, contract)]; [fuel] bounds the polls of its
    [wait_for], and [None] means that it ran out. *)
Definition find_project (fuel : nat) (top_win : widget) (contract : Contract)
  (s : state) : option (result unit * state) :=
  match on_world (run_query top_win contract) s with
  | (Raise e, s1) => Some (Raise e, s1)
  | (Ok (query_document_box, delete_button), s1) =>
      match
        Automation.wait_for time sleep (test (IsEnabled delete_button))
          fuel (Automation.Finite 10) (Automation.Finite Automation.default_interval)
          (fst s1)
      with
      | None => None
      | Some (Raise e, w2, _) => Some (Raise e, (w2, snd s1))
      | Some (Ok false, w2, _) =>
          Some (print (NotFoundLine (c_contract_id contract)) (w2, snd s1))
      | Some (Ok true, w2, _) =>
          Some
            ((let* row :=
                find_row (child_win top_win "List" None 1) (c_project contract) in
              match row with
              | None => print (NotFoundLine (c_contract_id contract))
              | Some row => on_world (open_row top_win query_document_box row)
              end) (w2, snd s1))
      end
  end.

End FindProject.

End Main.

(** ** utils/app.py *)

Module App.

(** A connected [pywinauto.Application]: its process and the name of its
    backend, which [set_focus] overwrites. *)
Record application : Type := mkApplication {
  process : nat;
  backend_name : string
}.

(** *** AppUtils.set_focus *)

Inductive focus_event : Type :=
| FocusWin32            (* AppUtils.set_focus_win32(win) *)
| FocusUia              (* if not win.has_focus(): win.set_focus() *)
| FocusSleep (seconds : Z).

(** [self.app] of the [AppUtils] and what was done so far. *)
Record focus_state : Type := mkFocusState {
  utils_app : option application;
  focus_trace : list focus_event
}.

Definition set_backend_name (name : string) : prog focus_state unit :=
  fun st =>
    match utils_app st with
    | Some app =>
        (Ok tt, mkFocusState (Some (mkApplication (process app) name)) (focus_trace st))
    | None =>
        (Raise (mkExn AttributeError "'NoneType' object has no attribute 'backend'"), st)
    end.

Definition get_backend_name : prog focus_state string :=
  fun st =>
    match utils_app st with
    | Some app => (Ok (backend_name app), st)
    | None =>
        (Raise (mkExn AttributeError "'NoneType' object has no attribute 'backend'"), st)
    end.

Definition focus_emit (e : focus_event) : prog focus_state unit :=
  fun st => (Ok tt, mkFocusState (utils_app st) (focus_trace st ++ [e])%list).

(** [if backend:] holds for a name that is given and not empty. *)
Definition given (backend : option string) : bool :=
  match backend with
  | Some name => negb (Str.is_empty name)
  | None => false
  end.

Definition when {S : Type} (b : bool) (p : prog S unit) : prog S unit :=
  if b then p else ret tt.

Section SetFocus.

(** What the focus attempt made while [retries] has a given value does:
    [None] when it completes, the exception when it raises. *)
Variable attempt : Z -> option exn.

(** The [while retries > 0] loop, entered with [retries = n]; it returns
    the value of [retries] it leaves. *)
Fixpoint set_focus_loop (n : nat) (backend : option string) (old_backend : string)
  : prog focus_state Z :=
  match n with
  | O => ret 0
  | S m =>
      let retries := Z.of_nat n in
      focus_emit (if Z.eqb (retries mod 2) 0 then FocusWin32 else FocusUia);;
      match attempt retries with
      | None =>
          when (given backend) (set_backend_name old_backend);;
          ret retries
      | Some _ =>
          focus_emit (FocusSleep 5);;
          set_focus_loop m backend old_backend
      end
  end.

(** [AppUtils.set_focus(win, backend, retries)]. *)
Definition set_focus (backend : option string) (retries : Z)
  : prog focus_state unit :=
  let* old_backend := get_backend_name in
  when (given backend) (set_backend_name (default "" backend));;
  let* retries :=
    (if 0 <? retries
     then set_focus_loop (Z.to_nat retries) backend old_backend
     else ret retries) in
  if retries <=? 0 then
    when (given backend) (set_backend_name old_backend);;
    raise (mkExn Exception "Failed to set focus")
  else ret tt.

(** The largest [r <= n] whose attempt completes, if there is one: the
    value of [retries] at which a loop entered with [retries = n] stops. *)
Fixpoint first_success (n : nat) : option nat :=
  match n with
  | O => None
  | S m => match attempt (Z.of_nat n) with
           | None => Some n
           | Some _ => first_success m
           end
  end.

End SetFocus.

(** The state the loop is entered in: the client with the name of the
    backend as the override, if any, left it. *)
Definition entered (app : application) (backend : option string)
  (tr : list focus_event) : focus_state :=
  mkFocusState
    (Some (if given backend
           then mkApplication (process app) (default "" backend)
           else app))
    tr.

(** The default [retries=20]. *)
Definition default_retries : Z := 20.

(** Which of the two ways to focus is tried while [retries] is [r]. *)
Definition attempt_event (r : Z) : focus_event :=
  if Z.eqb (r mod 2) 0 then FocusWin32 else FocusUia.

(** The trace of [k] attempts that fail, the first made while [retries]
    is [from]: each is followed by the sleep of five seconds. *)
Fixpoint failed_attempts (from k : nat) : list focus_event :=
  match k with
  | O => []
  | S k' =>
      attempt_event (Z.of_nat from) :: FocusSleep 5 :: failed_attempts (from - 1) k'
  end.

Definition is_attempt (e : focus_event) : bool :=
  match e with FocusSleep _ => false | _ => true end.

(** *** App.open_app *)

Inductive open_event : Type :=
| StartFile (path : string)
| OpenSleep (seconds : Z)
| Connect
| LogException (e : exn)
| KillAllProcesses (name : string).

(** [self.app], [self.utils.app] and what was done so far. *)
Record app_state : Type := mkAppState {
  self_app : option application;
  self_utils_app : option application;
  open_trace : list open_event
}.

Definition open_emit (e : open_event) : prog app_state unit :=
  fun st =>
    (Ok tt, mkAppState (self_app st) (self_utils_app st) (open_trace st ++ [e])%list).

Definition set_app (app : application) : prog app_state unit :=
  fun st => (Ok tt, mkAppState (Some app) (Some app) (open_trace st)).

Section OpenApp.

Variable app_path : string.
(** [os.startfile] in the attempt of a given number: [None] when it
    returns. *)
Variable startfile : nat -> option exn.
(** [pywinauto.Desktop] and [Application(backend="uia").connect] in the
    attempt of a given number. *)
Variable connect : nat -> result application.

(** The [except] clause: log, kill the client, go on.
    [kill_all_processes] skips the processes it may not touch and those
    that are gone; it is taken to return. *)
Definition recover (err : exn) : prog app_state unit :=
  open_emit (LogException err);;
  open_emit (KillAllProcesses "1cv8.exe").

(** The [for _ in range(10)] loop from the attempt numbered [k], with
    [left] attempts to go. *)
Fixpoint open_loop (left k : nat) : prog app_state unit :=
  match left with
  | O => ret tt
  | S left' =>
      open_emit (StartFile app_path);;
      match startfile k with
      | Some err => recover err;; open_loop left' (S k)
      | None =>
          open_emit (OpenSleep 2);;
          open_emit Connect;;
          match connect k with
          | Raise err => recover err;; open_loop left' (S k)
          | Ok app => set_app app
          end
      end
  end.

(** Does the attempt of a given number end in the [except] clause? *)
Definition attempt_fails (k : nat) : bool :=
  match startfile k with
  | Some _ => true
  | None => negb (is_ok (connect k))
  end.

Definition open_app : prog app_state unit :=
  open_loop 10 0;;
  fun st =>
    match self_app st with
    | None => (Raise (mkExn AssertionError "max_retries exceeded"), st)
    | Some app => (Ok tt, mkAppState (Some app) (Some app) (open_trace st))
    end.

End OpenApp.

(** Every attempt starts with [os.startfile]. *)
Definition is_start (e : open_event) : bool :=
  match e with StartFile _ => true | _ => false end.

Definition starts (tr : list open_event) : nat := length (List.filter is_start tr).

End App.

(** ** utils/db_manager.py *)

Module DbManager.

Inductive sql_type : Type := TEXT | INTEGER | REAL | BLOB.

Inductive constraint : Type :=
| NotNull
| Unique
| PrimaryKey
| DefaultNow.           (* DEFAULT (datetime('now','localtime')) *)

Record column : Type := mkColumn {
  col_name : string;
  col_type : sql_type;
  col_constraints : list constraint
}.

(** [FOREIGN KEY (fk_column) REFERENCES fk_table (fk_target)]. *)
Record foreign_key : Type := mkForeignKey {
  fk_column : string;
  fk_table : string;
  fk_target : string
}.

#[global] Instance foreign_key_eq_dec : EqDecision foreign_key.
Proof. solve_decision. Defined.

Record table_def : Type := mkTableDef {
  t_name : string;
  t_columns : list column;
  t_foreign_keys : list foreign_key
}.

Inductive statement : Type :=
| Pragma (name setting : string)
| CreateTable (if_not_exists : bool) (def : table_def).

(** A table of the database file: its declaration and its rows. *)
Record table : Type := mkTable {
  declared : table_def;
  rows : list (list value)
}.

(** The database file, with what was passed to [logging.error]. *)
Record db_state : Type := mkDb {
  tables : gmap string table;
  journal_mode : string;
  db_log : list string
}.

(** What the engine does with a statement: the rows it returns and the
    file it leaves, or the [sqlite3] error it raises. *)
Definition run (stmt : statement) (db : db_state) : result (list (list value) * db_state) :=
  match stmt with
  | Pragma "journal_mode" setting =>
      Ok ([[VStr setting]], mkDb (tables db) setting (db_log db))
  | Pragma _ _ => Ok ([], db)
  | CreateTable if_not_exists def =>
      match tables db !! t_name def with
      | Some _ =>
          if if_not_exists then Ok ([], db)
          else Raise (mkExn SqliteError ("table " ++ t_name def ++ " already exists"))
      | None =>
          Ok ([], mkDb (<[t_name def := mkTable def []]> (tables db))
                    (journal_mode db) (db_log db))
      end
  end.

(** [DatabaseManager.execute]: an error is logged and raised again. *)
Definition execute (stmt : statement) : prog db_state (list (list value)) :=
  fun db =>
    match run stmt db with
    | Ok (fetched, db') => (Ok fetched, db')
    | Raise err =>
        (Raise err,
         mkDb (tables db) (journal_mode db)
           (db_log db ++ [("Database error: " ++ exn_msg err)%string])%list)
    end.

Definition modified : column := mkColumn "modified" TEXT [DefaultNow].

Definition banks : table_def :=
  mkTableDef "banks"
    [mkColumn "bank_id" TEXT [NotNull; PrimaryKey];
     mkColumn "bank" TEXT [];
     mkColumn "year_count" INTEGER []]
    [].

Definition contracts : table_def :=
  mkTableDef "contracts"
    [mkColumn "id" TEXT [NotNull; Unique; PrimaryKey];
     modified;
     mkColumn "ds_id" TEXT [NotNull];
     mkColumn "ds_date" TEXT [NotNull];
     mkColumn "file_name" TEXT [];
     mkColumn "contragent" TEXT [NotNull];
     mkColumn "sed_number" TEXT [];
     mkColumn "protocol_id" TEXT [];
     mkColumn "protocol_date" TEXT [];
     mkColumn "start_date" TEXT [];
     mkColumn "end_date" TEXT [];
     mkColumn "loan_amount" REAL [];
     mkColumn "subsid_amount" REAL [];
     mkColumn "investment_amount" REAL [];
     mkColumn "pos_amount" REAL [];
     mkColumn "vypiska_date" TEXT [];
     mkColumn "iban" TEXT [];
     mkColumn "df" BLOB [];
     mkColumn "credit_purpose" TEXT [];
     mkColumn "repayment_procedure" TEXT [];
     mkColumn "dbz_id" TEXT [];
     mkColumn "dbz_date" TEXT [];
     mkColumn "request_number" INTEGER [];
     mkColumn "project_id" TEXT [];
     mkColumn "project" TEXT [];
     mkColumn "customer" TEXT [];
     mkColumn "customer_id" TEXT [];
     mkColumn "bank_id" TEXT []]
    [mkForeignKey "bank_id" "banks" "bank_id"].

Definition interest_rates : table_def :=
  mkTableDef "interest_rates"
    [mkColumn "id" TEXT [PrimaryKey];
     modified;
     mkColumn "subsid_term" INTEGER [];
     mkColumn "nominal_rate" REAL [];
     mkColumn "rate_one_two_three_year" REAL [];
     mkColumn "rate_four_year" REAL [];
     mkColumn "rate_five_year" REAL [];
     mkColumn "rate_six_seven_year" REAL [];
     mkColumn "rate_fee_one_two_three_year" REAL [];
     mkColumn "rate_fee_four_year" REAL [];
     mkColumn "rate_fee_five_year" REAL [];
     mkColumn "rate_fee_six_seven_year" REAL [];
     mkColumn "start_date_one_two_three_year" TEXT [];
     mkColumn "end_date_one_two_three_year" TEXT [];
     mkColumn "start_date_four_year" TEXT [];
     mkColumn "end_date_four_year" TEXT [];
     mkColumn "start_date_five_year" TEXT [];
     mkColumn "end_date_five_year" TEXT [];
     mkColumn "start_date_six_seven_year" TEXT [];
     mkColumn "end_date_six_seven_year" TEXT []]
    [mkForeignKey "id" "contracts" "id"].

Definition macros : table_def :=
  mkTableDef "macros"
    [mkColumn "id" TEXT [NotNull; PrimaryKey];
     modified;
     mkColumn "macro" BLOB [];
     mkColumn "shifted_macro" BLOB [];
     mkColumn "df" BLOB []]
    [mkForeignKey "id" "contracts" "id"].

Definition errors : table_def :=
  mkTableDef "errors"
    [mkColumn "id" TEXT [NotNull; PrimaryKey];
     modified;
     mkColumn "traceback" TEXT [];
     mkColumn "human_readable" TEXT []]
    [mkForeignKey "id" "contracts" "id"].

(** The statements of [prepare_tables], in its order. *)
Definition prepare_statements : list statement :=
  [Pragma "journal_mode" "WAL";
   CreateTable true banks;
   CreateTable true contracts;
   CreateTable true interest_rates;
   CreateTable true macros;
   CreateTable true errors].

Fixpoint execute_all (stmts : list statement) : prog db_state unit :=
  match stmts with
  | [] => ret tt
  | stmt :: rest => execute stmt;; execute_all rest
  end.

Definition prepare_tables : prog db_state unit := execute_all prepare_statements.

(** [DatabaseManager.__enter__]: the manager it returns is the state. *)
Definition enter : prog db_state unit :=
  prepare_tables;;
  ret tt.

(** The tables with the declaration [def] added unless a table of that
    name is there. *)
Definition ensure (def : table_def) (m : gmap string table) : gmap string table :=
  match m !! t_name def with
  | Some _ => m
  | None => <[t_name def := mkTable def []]> m
  end.

(** The tables a list of statements creates. *)
Definition created (stmts : list statement) : list table_def :=
  omap (fun stmt => match stmt with CreateTable _ def => Some def | _ => None end) stmts.

(** Does a declaration reference [target_table (target_column)] from [col]? *)
Definition references (def : table_def) (col target_table target_column : string) : bool :=
  bool_decide (t_foreign_keys def = [mkForeignKey col target_table target_column]).

End DbManager.

(** ** notification.py *)

Module Notification.

Definition newline : string := String (ascii_of_nat 10) EmptyString.

(** [sep.join(items)]. *)
Fixpoint join (sep : string) (items : list string) : string :=
  match items with
  | [] => EmptyString
  | [item] => item
  | item :: rest => item ++ sep ++ join sep rest
  end.

(** The items of a list as strings, when none of them is [None]. *)
Fixpoint all_str (items : list (option string)) : option (list string) :=
  match items with
  | [] => Some []
  | Some item :: rest => option_map (cons item) (all_str rest)
  | None :: _ => None
  end.

(** *** TelegramAPI.send_message *)

(** The fields of a [TelegramAPI] that never change. *)
Record TelegramAPI : Type := mkBot {
  chat_id : string;
  api_url : string
}.

(** A screenshot, as its bytes. *)
Definition image : Type := string.

(** One [post]: the address, the form fields in the order they are set,
    and the file sent along. *)
Record request : Type := mkRequest {
  url : string;
  data : list (string * option string);
  photo : option image;
  use_session : bool
}.

Record response : Type := mkResponse {
  status_code : Z;
  json : result string
}.

Inductive net_event : Type :=
| LogInfo (text : string)
| LogException (e : exn)
| Grabbed
| Posted (r : request).

(** [bot.pending_messages] and what was logged and sent so far. *)
Record net_state : Type := mkNetState {
  pending_messages : list (option string);
  net_trace : list net_event
}.

Definition net_emit (e : net_event) : prog net_state unit :=
  fun st => (Ok tt, mkNetState (pending_messages st) (net_trace st ++ [e])%list).

Definition get_pending : prog net_state (list (option string)) :=
  fun st => (Ok (pending_messages st), st).

Definition set_pending (items : list (option string)) : prog net_state unit :=
  fun st => (Ok tt, mkNetState items (net_trace st)).

(** [f"{message}"]. *)
Definition format_message (message : option string) : string :=
  default "None" message.

Section Telegram.

(** What the server answers to a request, or the exception [post] raises. *)
Variable post : request -> result response.

(** [response.raise_for_status()] raises for the client and server errors. *)
Definition is_error_status (status : Z) : bool :=
  (400 <=? status) && (status <? 600).

(** The [except (SSLError, HTTPError)] clause of [send_message]. *)
Definition on_send_error (status : Z) (message : option string) (err : exn)
  : prog net_state bool :=
  if caught_by err SSLError || caught_by err HTTPError then
    (if status =? 429
     then let* pending := get_pending in set_pending (pending ++ [message])%list
     else ret tt);;
    net_emit (LogException err);;
    ret false
  else raise err.

Definition send_message (bot : TelegramAPI) (message : option string)
  (media : option image) (use_session use_md : bool) : prog net_state bool :=
  let send_data :=
    ([("chat_id", Some (chat_id bot))]
     ++ (if use_md then [("parse_mode", Some "MarkdownV2")] else []))%list in
  let* pending := get_pending in
  let* pending_message :=
    lift (match all_str pending with
          | Some items => Ok (join newline items)
          | None =>
              Raise (mkExn TypeError "sequence item: expected str instance, NoneType found")
          end) in
  let message :=
    if Str.is_empty pending_message then message
    else Some (pending_message ++ newline ++ format_message message) in
  let req :=
    match media with
    | None =>
        mkRequest (api_url bot ++ "sendMessage")
          (send_data ++ [("text", message)])%list None use_session
    | Some shot =>
        mkRequest (api_url bot ++ "sendPhoto")
          (send_data ++ [("caption", message)])%list (Some shot) use_session
    end in
  net_emit (Posted req);;
  match post req with
  | Raise err => on_send_error 0 message err
  | Ok resp =>
      match json resp with
      | Raise err => on_send_error 0 message err
      | Ok body =>
          let status := status_code resp in
          net_emit (LogInfo ("status_code=" ++ pretty status));;
          net_emit (LogInfo ("data=" ++ body));;
          if is_error_status status then
            on_send_error status message
              (mkExn HTTPError (pretty status ++ " Error for url: " ++ url req))
          else if status =? 200 then set_pending [];; ret true
          else ret false
      end
  end.

(** *** handle_error *)

(** [ImageGrab.grab()]. *)
Variable grab : result image.
(** [os.getenv("DEVELOPER")]. *)
Variable developer : option string.
(** [traceback.format_exc()] while an exception is handled. *)
Variable format_exc : exn -> string.

(** [if developer:] holds for a name that is set and not empty. *)
Definition mention (error_traceback : string) : string :=
  match developer with
  | Some name =>
      if Str.is_empty name then error_traceback
      else "@" ++ name ++ " " ++ error_traceback
  | None => error_traceback
  end.

(** The wrapper [handle_error(func)] returns, applied to a call: [func]
    is the call of the wrapped function with the arguments given, and
    [bot] is [kwargs.get("bot")]. *)
Definition handle_error {A : Type} (func : prog net_state A)
  (bot : option TelegramAPI) : prog net_state A :=
  fun st =>
    match func st with
    | (Ok returned, st') => (Ok returned, st')
    | (Raise error, st') =>
        if caught_by error KeyboardInterrupt then (Raise error, st')
        else
          (net_emit (LogException error);;
           let error_traceback := mention (format_exc error) in
           match bot with
           | Some bot =>
               net_emit Grabbed;;
               let* shot := lift grab in
               let* _ := send_message bot (Some error_traceback) (Some shot) true false in
               raise error
           | None => raise error
           end) st'
    end.

End Telegram.

(** *** attach_file and send_mail *)

(** A path, as its text with [/] between the components. *)
Definition path : Type := string.

Definition slash : ascii := "/"%char.

(** [folder / name]. *)
Definition path_join (folder : path) (name : string) : path :=
  folder ++ "/" ++ name.

(** [file_path.name]: the last component. *)
Definition path_name (file_path : path) : string :=
  List.last (Str.split slash file_path) EmptyString.

Record Mail : Type := mkMail {
  server : string;
  sender : string;
  recipients : string;
  subject : string;
  report_path : path;
  screenshot_folder : path
}.

Record TimeRange : Type := mkTimeRange {
  range_start : Data.Date;
  range_end : Data.Date
}.

(** The fields of a [Job] that [send_mail] reads; [job_name] is
    [job.job_type.name]. *)
Record Job : Type := mkJob {
  job_name : string;
  t_range : TimeRange;
  mail_info : Mail
}.

Inductive mime_part : Type :=
| Attachment (filename : string) (content : string)   (* MIMEApplication *)
| TextPart (body subtype charset : string).           (* MIMEText *)

Record message : Type := mkMessage {
  msg_from : string;
  msg_to : string;
  msg_date : string;
  msg_subject : string;
  msg_parts : list mime_part
}.

Definition attach (part : mime_part) (msg : message) : message :=
  mkMessage (msg_from msg) (msg_to msg) (msg_date msg) (msg_subject msg)
    (msg_parts msg ++ [part])%list.

(** What [send_mail] does to the world, in order; a logged line is kept
    without the quotes that [=] in an f-string puts around a text. *)
Inductive mail_event : Type :=
| MailInfo (text : string)
| MailError (text : string)
| ReadFile (file_path : path)
| MakeArchive (base_name : string) (root_dir : path)
| Move (src dst : path)
| SmtpConnect (host : string) (port : Z)
| Sendmail (from_addr : string) (to_addrs : list string) (msg : message)
| SmtpQuit.

Section SendMail.

(** [open(file_path, "rb").read()]. *)
Variable read_file : path -> result string.
(** [shutil.make_archive(base_name, "zip", root_dir)]: the path of the
    archive it writes. *)
Variable make_archive : string -> path -> result path.
(** [shutil.move(src, dst)]: [None] when it returns. *)
Variable move : path -> path -> option exn.
(** [email.utils.formatdate(localtime=True)]. *)
Variable formatdate : string.
(** [smtplib.SMTP(host, port)]: [None] when the connection is made. *)
Variable smtp_connect : string -> Z -> option exn.
(** [smtp.sendmail]: the recipients that were refused, each with the
    answer of the server, when at least one was accepted. *)
Variable smtp_sendmail : string -> list string -> message -> result (list (string * string)).
(** Leaving the [with] block sends [QUIT]; the block raises
    [SMTPResponseException] when the answer is not 221. *)
Variable smtp_quit_ok : bool.

Definition attach_file (msg : message) (file_path : path) (file_name : option string)
  : prog (list mail_event) message :=
  let file_name :=
    match file_name with
    | Some name => if Str.is_empty name then path_name file_path else name
    | None => path_name file_path
    end in
  emit (ReadFile file_path);;
  let* content := lift (read_file file_path) in
  ret (attach (Attachment file_name content) msg).

(** [list(filter(bool, recipients.split(";")))]. *)
Definition recipients_list (recipients : string) : list string :=
  List.filter (fun r => negb (Str.is_empty r)) (Str.split Str.semicolon recipients).

(** The [except smtplib.SMTPException] clause. *)
Definition on_smtp_error (job : Job) (e : exn) : prog (list mail_event) bool :=
  if caught_by e SMTPException then
    emit (MailError (job_name job ++ " - Failed to send email: " ++ exn_msg e));;
    ret false
  else raise e.

Fixpoint log_refused (refused : list (string * string)) : prog (list mail_event) unit :=
  match refused with
  | [] => ret tt
  | (recipient, error) :: rest =>
      emit (MailError (recipient ++ ": " ++ error));;
      log_refused rest
  end.

(** The body of the [with] block: the value it is about to return. *)
Definition send_and_report (job : Job) (to_addrs : list string) (msg : message)
  : prog (list mail_event) bool :=
  emit (Sendmail (sender (mail_info job)) to_addrs msg);;
  let* refused := lift (smtp_sendmail (sender (mail_info job)) to_addrs msg) in
  match refused with
  | [] =>
      emit (MailInfo (job_name job ++ " - Email sent successfully."));;
      ret true
  | _ :: _ =>
      emit (MailError
              (job_name job ++ " - Failed to send email to the following recipients:"));;
      log_refused refused;;
      ret false
  end.

(** The [try] statement: connect, run the block, leave it, and handle
    what was raised on the way. *)
Definition smtp_session (job : Job) (to_addrs : list string) (msg : message)
  : prog (list mail_event) bool :=
  fun tr =>
    let tr := (tr ++ [SmtpConnect (server (mail_info job)) 25])%list in
    match smtp_connect (server (mail_info job)) 25 with
    | Some e => on_smtp_error job e tr
    | None =>
        let (outcome, tr) := send_and_report job to_addrs msg tr in
        let tr := (tr ++ [SmtpQuit])%list in
        if smtp_quit_ok then
          match outcome with
          | Ok sent => (Ok sent, tr)
          | Raise e => on_smtp_error job e tr
          end
        else on_smtp_error job (mkExn SMTPResponseException "QUIT") tr
    end.

Definition send_mail (job : Job) (is_empty : bool) : prog (list mail_event) bool :=
  let mail_info := mail_info job in
  let t_range := t_range job in
  let recipients_lst := recipients_list (recipients mail_info) in
  let msg :=
    mkMessage (sender mail_info) (recipients mail_info) formatdate
      (subject mail_info) [] in
  let body := subject mail_info in
  let period :=
    Data.short (range_start t_range) ++ " по " ++ Data.short (range_end t_range) ++ "." in
  let* prepared :=
    (if is_empty then
       ret (body ++ newline ++ newline ++ "Нет приказов на период с " ++ period, msg)
     else
       let body := body ++ newline ++ newline ++ "Приказы на период с " ++ period in
       let* msg := attach_file msg (report_path mail_info) None in
       let archive_name := "screenshots_" ++ Data.short (range_end t_range) in
       emit (MakeArchive archive_name (screenshot_folder mail_info));;
       let* original_zip_path :=
         lift (make_archive archive_name (screenshot_folder mail_info)) in
       let archive_name := archive_name ++ ".zip" in
       let screenshot_archive_path :=
         path_join (screenshot_folder mail_info) archive_name in
       emit (Move original_zip_path screenshot_archive_path);;
       let* _ :=
         lift (match move original_zip_path screenshot_archive_path with
               | Some e => Raise e
               | None => Ok tt
               end) in
       let* msg := attach_file msg screenshot_archive_path (Some archive_name) in
       ret (body, msg)) in
  let body := fst prepared in
  let msg := snd prepared in
  emit (MailInfo ("body=" ++ body));;
  let msg := attach (TextPart body "html" "utf-8") msg in
  smtp_session job recipients_lst msg.

End SendMail.

End Notification.

(** ** Sample inputs *)

(** Small stand-ins for the library calls, to run the embedding on. *)
Module Samples.

(** [float] on the three texts the examples use. *)
Definition float_of_str (s : string) : option float :=
  if String.eqb s "12.5" then Some 12.5%float
  else if String.eqb s "0.0" then Some 0%float
  else None.

(** The value of a decimal digit. *)
Definition digit_value (c : ascii) : option Z :=
  let n := nat_of_ascii c in
  if (48 <=? n)%nat && (n <=? 57)%nat then Some (Z.of_nat (n - 48)) else None.

Fixpoint number (acc : Z) (s : string) : option Z :=
  match s with
  | EmptyString => Some acc
  | String c rest =>
      match digit_value c with
      | Some v => number (10 * acc + v) rest
      | None => None
      end
  end.

(** [fromisoformat] on the texts of the form [YYYY-MM-DD]. *)
Definition fromisoformat (s : string) : result datetime :=
  let bad := Raise (mkExn ValueError ("Invalid isoformat string: " ++ s)) in
  if (String.length s =? 10)%nat
     && Ascii.eqb (default "x"%char (String.get 4 s)) "-"
     && Ascii.eqb (default "x"%char (String.get 7 s)) "-"
  then
    match number 0 (substring 0 4 s), number 0 (substring 5 2 s),
          number 0 (substring 8 2 s) with
    | Some y, Some m, Some d =>
        let parsed := mkDatetime y m d 0 0 0 in
        if in_range parsed then Ok parsed else bad
    | _, _, _ => bad
    end
  else bad.

(** A table with one row for the contract [c-1]. *)
Definition rate_row : Main.row :=
  fun column =>
    if String.eqb column "id" then VStr "c-1"
    else if String.eqb column "subsid_term" then VInt 36
    else if String.prefix "rate" column || String.prefix "nominal" column
    then VFloat 0.25%float
    else if String.eqb column "modified" then VStr "2025-03-14 10:00:00"
    else VStr "2025-01-01".

(** [strptime] on the texts of the form [DD.MM.YY] with the format
    [%d.%m.%y]; a two-digit year below 69 is in this century. *)
Definition strptime (s date_format : string) : result datetime :=
  let bad := Raise (mkExn ValueError ("time data does not match format: " ++ s)) in
  if String.eqb date_format "%d.%m.%y"
     && (String.length s =? 8)%nat
     && Ascii.eqb (default "x"%char (String.get 2 s)) "."
     && Ascii.eqb (default "x"%char (String.get 5 s)) "."
  then
    match number 0 (substring 0 2 s), number 0 (substring 3 2 s),
          number 0 (substring 6 2 s) with
    | Some d, Some m, Some y =>
        let parsed := mkDatetime (if y <? 69 then 2000 + y else 1900 + y) m d 0 0 0 in
        if in_range parsed then Ok parsed else bad
    | _, _, _ => bad
    end
  else bad.

(** The class name of a value, for the error message. *)
Definition describe (v : Data.field_value) : string :=
  match v with
  | Data.FDate _ => "<class 'Date'>"
  | Data.FDatetime _ => "<class 'datetime.datetime'>"
  | Data.FNames _ _ => "<class 'tuple'>"
  | Data.FPlain VNone => "<class 'NoneType'>"
  | Data.FPlain (VBool _) => "<class 'bool'>"
  | Data.FPlain (VInt _) => "<class 'int'>"
  | Data.FPlain (VFloat _) => "<class 'float'>"
  | Data.FPlain (VStr _) => "<class 'str'>"
  | Data.FPlain (VBytes _) => "<class 'bytes'>"
  end.

(** The arguments of a [VacationWithdrawOrder] read from a report. *)
Definition withdraw_args (withdraw_date : Data.field_value) : list Data.field_value :=
  [Data.FPlain (VStr "Ivanov Ivan"); Data.FNames "Ivanov" "Ivan";
   Data.FPlain (VStr "17-k"); withdraw_date; Data.FPlain (VBool false);
   Data.FPlain (VStr "shots/17-k.jpeg")].

(** A machine that is its clock: sleeping moves it on by the length of
    the sleep, and a poll takes a hundredth of a second. *)
Definition clock_time (w : Q) : Q := w.

Definition clock_sleep (d : Q) (w : Q) : Q := (w + d)%Q.

Definition never : prog Q bool := fun w => (Ok false, (w + (1 # 100))%Q).

(** A condition that holds from the clock reading [since] on. *)
Definition from (since : Q) : prog Q bool :=
  fun w => (Ok (Qle_bool since w), (w + (1 # 100))%Q).

(** A desktop that is its clock: every call returns, the main window is
    active, asking the delete button takes four seconds and it is enabled
    or not as [enabled] says, and the list shows [rows]. *)
Definition ui_call (c : Main.ui_call) : prog Q unit := fun w => (Ok tt, w).

Definition ui_test (enabled : bool) (t : Main.ui_test) : prog Q bool :=
  fun w =>
    match t with
    | Main.IsActive _ => (Ok true, w)
    | Main.IsEnabled _ => (Ok enabled, (w + 4)%Q)
    | Main.Exists _ => (Ok false, w)
    end.

Definition ui_children (rows : list Main.list_item) (parent : Main.widget)
  : prog Q (list Main.list_item) := fun w => (Ok rows, w).

(** A similarity that tells equal texts from different ones. *)
Definition same_text (a b : Unicode.text) : float :=
  if Unicode.eqb a b then 1%float else 0%float.

(** The words for a workshop, a bakery and a dairy, in Cyrillic letters,
    and a no-break space. *)
Definition workshop : Unicode.text := [1062; 1077; 1093]%N.

Definition bakery : Unicode.text := [1055; 1077; 1082; 1072; 1088; 1085; 1103]%N.

Definition dairy_farm : Unicode.text := [1060; 1077; 1088; 1084; 1072]%N.

Definition nbsp : N := 160%N.

Definition query_for (contragent : string) : string := "BIN = " ++ contragent.

Definition shown_rows : list Main.list_item :=
  [Main.mkItem 0 [32; nbsp; 9]%N;
   Main.mkItem 1 bakery;
   Main.mkItem 2 ((32%N :: workshop) ++ [nbsp; 32%N])%list;
   Main.mkItem 3 workshop].

Definition mill : Main.Contract := Main.mkContract "c-1" "990140000385" workshop.

Definition dairy : Main.Contract := Main.mkContract "c-2" "990140000385" dairy_farm.

(** A client connected through the uia backend. *)
Definition client : App.application := App.mkApplication 4242 "uia".

(** The window takes the focus at the third attempt. *)
Definition third_time (retries : Z) : option exn :=
  if 18 <? retries then Some (mkExn ElementNotFoundError "no window") else None.

(** The window never takes the focus. *)
Definition hopeless (retries : Z) : option exn :=
  Some (mkExn ElementNotFoundError "no window").

(** The client comes up at the third attempt: the shortcut does not open
    at first, then the process is not there yet. *)
Definition startfile_once_bad (k : nat) : option exn :=
  if (k =? 0)%nat then Some (mkExn OSError "cannot open the shortcut") else None.

Definition connect_third (k : nat) : result App.application :=
  if (k <? 2)%nat then Raise (mkExn ElementNotFoundError "process not found")
  else Ok client.

(** The client never comes up. *)
Definition connect_never (k : nat) : result App.application :=
  Raise (mkExn ElementNotFoundError "process not found").

(** A database file that holds a bank and nothing else. *)
Definition bank_db : DbManager.db_state :=
  DbManager.mkDb
    {["banks" := DbManager.mkTable DbManager.banks [[VStr "b-1"; VStr "Bank"; VInt 7]]]}
    "delete" [].

(** A job with two recipients, a report and a folder of screenshots. *)
Definition day (d : Z) : Data.Date := Data.to_date (mkDatetime 2025 3 d 0 0 0).

Definition trips : Notification.Job :=
  Notification.mkJob "BUSINESS_TRIP"
    (Notification.mkTimeRange (day 10) (day 14))
    (Notification.mkMail "mail.local" "robot@bank.kz" "hr@bank.kz;;audit@bank.kz"
       "Business trips" "reports/trips.xlsx" "shots").

Definition files (file_path : string) : result string :=
  if String.eqb file_path "reports/trips.xlsx" then Ok "REPORT"
  else if String.eqb file_path "shots/screenshots_14.03.25.zip" then Ok "ZIP"
  else Raise (mkExn FileNotFoundError file_path).

Definition zip_in_cwd (base_name root_dir : string) : result string :=
  Ok ("/cwd/" ++ base_name ++ ".zip").

Definition moves (src dst : string) : option exn := None.

(** A server that takes every message, and one that refuses the auditor. *)
Definition accepts_all (from_addr : string) (to_addrs : list string)
  (msg : Notification.message) : result (list (string * string)) := Ok [].

Definition refuses_audit (from_addr : string) (to_addrs : list string)
  (msg : Notification.message) : result (list (string * string)) :=
  Ok [("audit@bank.kz", "550 no such user")].

Definition reachable (host : string) (port : Z) : option exn := None.

(** A bot, a server that answers 200, and a network that is down. *)
Definition bot : Notification.TelegramAPI :=
  Notification.mkBot "-100200300" "https://api.telegram.org/botTOKEN/".

Definition answers_ok (r : Notification.request) : result Notification.response :=
  Ok (Notification.mkResponse 200 (Ok "{}")).

Definition network_down (r : Notification.request) : result Notification.response :=
  Raise (mkExn RequestsConnectionError "connection refused").

Definition traceback_of (e : exn) : string := "Traceback: " ++ exn_msg e.

Definition quiet : Notification.net_state := Notification.mkNetState [] [].

Definition interrupt : exn := mkExn KeyboardInterrupt "".

Definition failure : exn := mkExn ValueError "bad cell".

End Samples.

(** ** notification.py: send_with_retry *)

Module Retry.

Import Notification.

(** What a caller can hand over as [media]: nothing, a picture, or a value
    that is no picture. *)
Inductive media_arg : Type :=
| NoMedia
| Picture (shot : image)
| NotAPicture (v : value).

(** [send_message] for any [media].  A value that is no picture gets as
    far as [media.save]: the pending messages are joined, and then the
    attribute is missing. *)
Definition send_message_any (post : request -> result response) (bot : TelegramAPI)
  (message : option string) (media : media_arg) (use_session use_md : bool)
  : prog net_state bool :=
  match media with
  | NoMedia => send_message post bot message None use_session use_md
  | Picture shot => send_message post bot message (Some shot) use_session use_md
  | NotAPicture _ =>
      let* pending := get_pending in
      let* _ :=
        lift (match all_str pending with
              | Some items => Ok (join newline items)
              | None =>
                  Raise (mkExn TypeError
                           "sequence item: expected str instance, NoneType found")
              end) in
      raise (mkExn AttributeError "object has no attribute 'save'")
  end.

(** The state of the bot with the count of sessions it has opened anew
    and the warnings it has logged. *)
Record retry_state : Type := mkRetryState {
  net : net_state;
  reloads : nat;
  warnings : list string
}.

Definition on_net {A : Type} (p : prog net_state A) : prog retry_state A :=
  fun st =>
    let (r, net') := p (net st) in (r, mkRetryState net' (reloads st) (warnings st)).

(** The [except] clause of [send_with_retry]. *)
Definition on_retry (e : exn) (retry : Z) : prog retry_state unit :=
  fun st =>
    (Ok tt,
     mkRetryState
       (mkNetState (pending_messages (net st))
          (net_trace (net st) ++ [LogException e])%list)
       (S (reloads st))
       (warnings st
        ++ [(exn_msg e ++ " intercepted. Retry " ++ pretty (retry + 1) ++ "/10")%string])%list).

Section SendWithRetry.

Variable post : request -> result response.

(** The [while retry < 5] loop, with [left] rounds to go: the second
    positional argument of [send_message] is [media], and it is given the
    flag [retry < 5]. *)
Fixpoint retry_loop (left : nat) (retry : Z) (bot : TelegramAPI) (message : string)
  : prog retry_state bool :=
  match left with
  | O => ret false
  | S left' =>
      fun st =>
        let use_session := retry <? 5 in
        match
          on_net (send_message_any post bot (Some message)
                    (NotAPicture (VBool use_session)) true false) st
        with
        | (Ok success, st') => (Ok success, st')
        | (Raise e, st') =>
            if caught_by e RequestsConnectionError || caught_by e SSLError
               || caught_by e HTTPError
            then (on_retry e retry;; retry_loop left' (retry + 1) bot message) st'
            else (Raise e, st')
        end
  end.

Definition send_with_retry (bot : TelegramAPI) (message : string)
  : prog retry_state bool :=
  retry_loop 5 0 bot message.

End SendWithRetry.

End Retry.

(** ** More on strings *)

Module Text.

(** [c in s] for a character [c]. *)
Fixpoint has_char (c : ascii) (s : string) : bool :=
  match s with
  | EmptyString => false
  | String x rest => Ascii.eqb x c || has_char c rest
  end.

(** [s.replace(c, "")]: the text without the character [c]. *)
Fixpoint remove_char (c : ascii) (s : string) : string :=
  match s with
  | EmptyString => EmptyString
  | String x rest =>
      if Ascii.eqb x c then remove_char c rest else String x (remove_char c rest)
  end.

(** [needle in hay] for texts. *)
Fixpoint contains (needle hay : string) : bool :=
  String.prefix needle hay
  || match hay with
     | EmptyString => false
     | String _ rest => contains needle rest
     end.

End Text.

(** ** utils/office.py *)

Module Office.

Inductive FileFormat : Type := DOCX | PDF.

(** The value of a member of the enumeration. *)
Definition format_value (f : FileFormat) : Z :=
  match f with DOCX => 16 | PDF => 17 end.

Definition dot : ascii := "."%char.

(** [validate_format(file_path, file_format)]: the piece after the last
    dot, or the whole text when it has no dot, against the extension of the
    format. *)
Definition validate_format (file_path : string) (file_format : FileFormat) : bool :=
  let file_extension := List.last (Str.split dot file_path) EmptyString in
  match file_format with
  | DOCX => String.eqb file_extension "docx"
  | PDF => String.eqb file_extension "pdf"
  end.

End Office.

(** ** utils/automation.py: contains_text and get_full_text *)

Module Elements.

(** A UI element as the two routines see it: what [window_text()],
    [texts()] and [children()] give.  The tree is taken as it stands while the
    routine runs. *)
#[local] Unset Elimination Schemes.
Inductive element : Type :=
| Element (window_text : option Unicode.text) (texts : list Unicode.text)
    (children : list element).
#[local] Set Elimination Schemes.

Definition window_text (e : element) : option Unicode.text :=
  match e with Element t _ _ => t end.

Definition texts (e : element) : list Unicode.text :=
  match e with Element _ ts _ => ts end.

Definition children (e : element) : list element :=
  match e with Element _ _ kids => kids end.

(** The truth value of a [str]. *)
Definition truthy (s : Unicode.text) : bool := negb (Unicode.is_empty s).

(** [contains_text(element)]: [inner] runs over the characters of every
    text, each a text of one character. *)
Definition contains_text (e : element) : bool :=
  existsb
    (fun outer => existsb (fun inner => truthy (Unicode.strip [inner])) outer)
    (texts e).

(** [get_full_text(element)]. *)
Fixpoint get_full_text (e : element) : Unicode.text :=
  match e with
  | Element wt _ kids =>
      let txt :=
        match wt with
        | Some t => if truthy t then Unicode.strip t else []
        | None => []
        end in
      Unicode.strip
        ((fix loop (kids : list element) (txt : Unicode.text) {struct kids}
            : Unicode.text :=
            match kids with
            | [] => txt
            | child :: rest =>
                let child_text := get_full_text child in
                loop rest
                  (if truthy child_text then (txt ++ Unicode.space ++ child_text)%list
                   else txt)
            end) kids txt)
  end.

(** The text of the element itself, without the blanks around it. *)
Definition own_text (e : element) : Unicode.text :=
  match window_text e with
  | Some t => Unicode.strip t
  | None => []
  end.

(** A text of blanks only. *)
Definition blank (s : Unicode.text) : bool := forallb Unicode.is_space s.

(** No element of the tree has a text with anything but blanks. *)
Fixpoint silent (e : element) : bool :=
  match e with
  | Element wt _ kids =>
      match wt with Some t => blank t | None => true end
      && (fix all (kids : list element) : bool :=
            match kids with
            | [] => true
            | child :: rest => silent child && all rest
            end) kids
  end.

(** A text with something in it and no blank at either end. *)
Definition trimmed (s : Unicode.text) : Prop :=
  exists c rest,
    s = c :: rest /\ Unicode.is_space c = false /\ Unicode.rstrip rest = rest.

(** What the loop of [get_full_text] appends for a list of texts. *)
Fixpoint appended (items : list Unicode.text) : Unicode.text :=
  match items with
  | [] => []
  | item :: rest => (Unicode.space ++ item ++ appended rest)%list
  end.

End Elements.

(** ** utils/app.py: App.dialog_text *)

Module Dialog.

(** A character of the class [[\r\n]]. *)
Definition is_break (c : ascii) : bool :=
  let n := nat_of_ascii c in (n =? 13)%nat || (n =? 10)%nat.

(** [re.split("[\r\n]+", s)]: the pieces between the runs of line breaks;
    [in_break] says that the character before was one of a run. *)
Fixpoint split_breaks (s : string) (in_break : bool) : list string :=
  match s with
  | EmptyString => [EmptyString]
  | String c rest =>
      if is_break c then
        if in_break then split_breaks rest true
        else EmptyString :: split_breaks rest true
      else
        match split_breaks rest false with
        | piece :: pieces => String c piece :: pieces
        | [] => [String c EmptyString]
        end
  end.

Definition re_split (s : string) : list string := split_breaks s false.

(** [items[-k-1]]. *)
Definition from_end (k : nat) (items : list string) : result string :=
  match nth_error (rev items) k with
  | Some item => Ok item
  | None => Raise (mkExn IndexError "list index out of range")
  end.

(** A dialog window: whether it is there and enabled, and what typing
    Ctrl+C into it does: it raises, or it leaves a text on the clipboard, or
    it leaves the clipboard alone. *)
Record window : Type := mkWindow {
  win_exists : bool;
  win_enabled : bool;
  on_copy : result (option string)
}.

Inductive dialog_event : Type :=
| ClipboardSet (text : string)       (* pyperclip.copy(text) *)
| Typed (keys : string)              (* dialog_win.type_keys(keys) *)
| Slept (seconds : Z)
| LoggedText (text : string).        (* logging.info(f"{dialog_text=}") *)

Record dialog_state : Type := mkDialogState {
  clipboard : string;
  events : list dialog_event
}.

Definition copy (text : string) : prog dialog_state unit :=
  fun st => (Ok tt, mkDialogState text (events st ++ [ClipboardSet text])%list).

Definition paste : prog dialog_state string :=
  fun st => (Ok (clipboard st), st).

Definition type_keys (win : window) (keys : string) : prog dialog_state unit :=
  fun st =>
    let st' := mkDialogState (clipboard st) (events st ++ [Typed keys])%list in
    match on_copy win with
    | Ok (Some text) => (Ok tt, mkDialogState text (events st'))
    | Ok None => (Ok tt, st')
    | Raise e => (Raise e, st')
    end.

Definition sleep (seconds : Z) : prog dialog_state unit :=
  fun st => (Ok tt, mkDialogState (clipboard st) (events st ++ [Slept seconds])%list).

Definition info (text : string) : prog dialog_state unit :=
  fun st => (Ok tt, mkDialogState (clipboard st) (events st ++ [LoggedText text])%list).

(** [App.dialog_text(dialog_win)]; [app_dialog] is [self.app.Dialog], or
    nothing when no application is connected. *)
Definition dialog_text (app_dialog : option window) (dialog_win : option window)
  : prog dialog_state string :=
  let* dialog_win :=
    match dialog_win with
    | Some win => ret win
    | None =>
        match app_dialog with
        | Some win => ret win
        | None =>
            raise (mkExn AttributeError "'NoneType' object has no attribute 'Dialog'")
        end
    end in
  if negb (win_exists dialog_win) || negb (win_enabled dialog_win) then ret EmptyString
  else
    copy "";;
    type_keys dialog_win "^C";;
    sleep 2;;
    let* dialog_text := paste in
    copy "";;
    info dialog_text;;
    if Str.is_empty dialog_text then ret EmptyString
    else
      let dialog_items := re_split dialog_text in
      lift (from_end 1 dialog_items).

(** No line break in the text. *)
Fixpoint break_free (s : string) : bool :=
  match s with
  | EmptyString => true
  | String c rest => negb (is_break c) && break_free rest
  end.

(** Line breaks only, and at least one. *)
Fixpoint break_run (s : string) : bool :=
  match s with
  | EmptyString => false
  | String c EmptyString => is_break c
  | String c rest => is_break c && break_run rest
  end.

End Dialog.

(** ** utils/automation.py: print_element_tree *)

Module Tree.

(** An element as [print_element_tree] sees it: its
    [friendly_class_name()], its [window_text()], its [rectangle()] as a text,
    or nothing where the call raises [COMError], and its children. *)
#[local] Unset Elimination Schemes.
Inductive node : Type :=
| Node (friendly_class_name : string) (window_text : string)
    (rectangle : option string) (children : list node).
#[local] Set Elimination Schemes.

(** A printed line: the number of marks in front, the class name and the
    index, the text, and the rectangle or [(COMError)]. *)
Record line : Type := mkLine {
  l_marks : Z;
  l_ctrl : string;
  l_idx : Z;
  l_text : string;
  l_rectangle : option string
}.

(** The check of [max_depth]: [None], or an [int] (a [bool] is one) that is
    not negative. *)
Definition depth_limit (max_depth : value) : result (option Z) :=
  let error := mkExn ValueError "max_depth must be a non-negative integer or None" in
  match max_depth with
  | VNone => Ok None
  | VInt n => if n <? 0 then Raise error else Ok (Some n)
  | VBool b => Ok (Some (if b then 1 else 0))
  | _ => Raise error
  end.

(** The body after the check; the dictionary [counters] is one object for
    the whole walk, so it is threaded through with the output. *)
Fixpoint walk (limit : option Z) (depth : Z) (element : node)
  (st : gmap string Z * list line) : gmap string Z * list line :=
  match element with
  | Node element_ctrl text rectangle children =>
      let (counters, out) := st in
      let counters :=
        <[element_ctrl := default 0 (counters !! element_ctrl) + 1]> counters in
      let element_idx := default 0 (counters !! element_ctrl) - 1 in
      let out := (out ++ [mkLine (depth + 1) element_ctrl element_idx text rectangle])%list in
      match rectangle with
      | None => (counters, out)
      | Some _ =>
          if match limit with None => true | Some max_depth => depth <? max_depth end
          then
            (fix each (children : list node) (st : gmap string Z * list line) :=
               match children with
               | [] => st
               | child :: rest => each rest (walk limit (depth + 1) child st)
               end) children (counters, out)
          else (counters, out)
      end
  end.

(** [print_element_tree(element, max_depth, counters, depth)]: the state is
    what has been printed, the result is the dictionary of counters as the
    call leaves it. *)
Definition print_element_tree (element : node) (max_depth : value)
  (counters : option (gmap string Z)) (depth : Z)
  : prog (list line) (gmap string Z) :=
  fun out =>
    match depth_limit max_depth with
    | Raise e => (Raise e, out)
    | Ok limit =>
        let (counters, out) := walk limit depth element (default ∅ counters, out) in
        (Ok counters, out)
    end.

(** The index the next element of a class gets. *)
Definition next_index (counters : gmap string Z) (ctrl : string) : Z :=
  default 0 (counters !! ctrl).

(** The lines of a class among [lines]. *)
Definition seen (ctrl : string) (lines : list line) : Z :=
  Z.of_nat (length (List.filter (fun l => String.eqb (l_ctrl l) ctrl) lines)).

(** Every line carries the index that is next for its class. *)
Fixpoint numbered (next : string -> Z) (lines : list line) : Prop :=
  match lines with
  | [] => True
  | l :: rest =>
      l_idx l = next (l_ctrl l)
      /\ numbered (fun c => if String.eqb c (l_ctrl l) then next c + 1 else next c) rest
  end.

End Tree.

(** ** utils/automation.py: click_type_keys *)

Module Keys.

Definition newline : ascii := ascii_of_nat 10.

(** [s.replace(old, new)] for a one-character [old]. *)
Fixpoint replace_char (old : ascii) (new : string) (s : string) : string :=
  match s with
  | EmptyString => EmptyString
  | String c rest =>
      (if Ascii.eqb c old then new else String c EmptyString)
      ++ replace_char old new rest
  end.

Inductive key_event : Type :=
| Clicked
| DoubleClicked
| Slept (delay : Q)
| SentKeys (keys : string) (pause : Q) (with_spaces : bool).

(** [sleep(delay)]: the delay is checked before anything is slept, and a
    delay that is negative, too large or no number raises. *)
Definition py_sleep (delay : Automation.seconds) : prog (list key_event) unit :=
  match Automation.sleep_arg delay with
  | Ok q => emit (Slept q)
  | Raise e => raise e
  end.

Section ClickTypeKeys.

(** [str(keystrokes)] for a value that is no text. *)
Variable py_str : value -> string.
(** [element.click_input()] and [element.double_click_input()]. *)
Variable click_input double_click_input : result unit.
(** [send_keys(keystrokes, pause, with_spaces)]. *)
Variable send_keys : string -> Q -> bool -> result unit.

Definition click_type_keys (keystrokes : value) (delay : Automation.seconds) (pause : Q)
  (double cls ent spaces escape_chars : bool) : prog (list key_event) unit :=
  let keystrokes :=
    match keystrokes with
    | VStr text => text
    | other => py_str other
    end in
  let keystrokes :=
    if escape_chars then
      replace_char ")" "{)}"
        (replace_char "(" "{(}" (replace_char newline "{ENTER}" keystrokes))
    else keystrokes in
  let keystrokes := if cls then "{DELETE}" ++ keystrokes else keystrokes in
  let keystrokes := if ent then keystrokes ++ "{ENTER}+{TAB}" else keystrokes in
  (if double then emit DoubleClicked;; lift double_click_input
   else emit Clicked;; lift click_input);;
  py_sleep delay;;
  emit (SentKeys keystrokes pause spaces);;
  lift (send_keys keystrokes pause spaces).

End ClickTypeKeys.

(** What one character is typed as when [escape_chars] is set. *)
Definition escape_char (c : ascii) : string :=
  if Ascii.eqb c newline then "{ENTER}"
  else if Ascii.eqb c "(" then "{(}"
  else if Ascii.eqb c ")" then "{)}"
  else String c EmptyString.

Fixpoint escape (s : string) : string :=
  match s with
  | EmptyString => EmptyString
  | String c rest => escape_char c ++ escape rest
  end.

End Keys.

(** ** utils/app.py: App.find_and_click_button *)

Module Toolbar.

(** What [toolbar.rectangle()] gives, with its [mid_point()]. *)
Record rect : Type := mkRect {
  r_left : Z;
  r_top : Z;
  mid_x : Z;
  mid_y : Z
}.

Inductive event : Type :=
| MouseMove (x y : Z)
| MouseClick (x y : Z)
| LoggedPoint (point end_point : Z)            (* logging.error(f"{point=}, {end_point=}") *)
| LoggedButton (active target : Unicode.text).

(** The variables of the loop. *)
Record scan_state : Type := mkScan {
  point : Z;
  i : Z;
  step : Z;
  error_count : Z;
  x : Z;
  y : Z
}.

Definition is_move (e : event) : bool :=
  match e with MouseMove _ _ => true | _ => false end.

Definition is_click (e : event) : bool :=
  match e with MouseClick _ _ => true | _ => false end.

Definition is_logged_point (e : event) : bool :=
  match e with LoggedPoint _ _ => true | _ => false end.

Definition count (f : event -> bool) (tr : list event) : nat :=
  length (List.filter f tr).

Section FindAndClickButton.

(** [self.utils.set_focus(window)]. *)
Variable set_focus : result unit.
(** Whether [self.app] is an application. *)
Variable connected : bool.
(** [toolbar.rectangle()]. *)
Variable rectangle : result rect.
(** The text of the status bar, given what the mouse has done so far. *)
Variable status : list event -> result Unicode.text.

Variable target_button_name : Unicode.text.
Variable horizontal : bool.
Variable offset : Z.

(** [if step > 5: step = 5]. *)
Definition clamp (step : Z) : Z := if 5 <? step then 5 else step.

(** The [while] loop; it ends with the variables as they are when the
    status bar shows the name of the button. *)
Fixpoint scan (fuel : nat) (start_point end_point : Z) (st : scan_state)
  (tr : list event) : option (result scan_state * list event) :=
  match fuel with
  | O => None
  | S fuel' =>
      match status tr with
      | Raise e => Some (Raise e, tr)
      | Ok shown =>
          let active_button := Unicode.strip shown in
          if Unicode.eqb active_button target_button_name then Some (Ok st, tr)
          else if end_point <? point st then
            let tr :=
              (tr ++ [LoggedPoint (point st) end_point;
                      LoggedButton active_button target_button_name])%list in
            let st :=
              mkScan 0 0 (clamp (step st)) (error_count st + 1) (x st) (y st) in
            if 3 <=? error_count st then
              Some (Raise (mkExn ElementNotFoundError ""), tr)
            else scan fuel' start_point end_point st tr
          else
            let point := start_point + i st * step st in
            let st :=
              mkScan point (i st + 1) (step st) (error_count st)
                (if horizontal then point else x st)
                (if horizontal then y st else point) in
            scan fuel' start_point end_point st (tr ++ [MouseMove (x st) (y st)])%list
      end
  end.

Definition start_of (r : rect) : Z := if horizontal then r_left r else r_top r.

Definition end_of (r : rect) : Z := if horizontal then mid_x r else mid_y r.

(** [App.find_and_click_button(window, toolbar, target_button_name,
    horizontal, offset, step)]; nothing when the fuel runs out. *)
Definition find_and_click_button (fuel : nat) (step : Z)
  : option (result (Z * Z) * list event) :=
  match set_focus with
  | Raise e => Some (Raise e, [])
  | Ok _ =>
      if negb connected then
        Some (Raise (mkExn AttributeError "'NoneType' object has no attribute 'window'"),
              [])
      else
        match rectangle with
        | Raise e => Some (Raise e, [])
        | Ok r =>
            let x_offset := if horizontal then offset else 0 in
            let y_offset := if negb horizontal then offset else 0 in
            match
              scan fuel (start_of r) (end_of r)
                (mkScan 0 0 step 0 (mid_x r) (mid_y r)) [MouseMove (mid_x r) (mid_y r)]
            with
            | None => None
            | Some (Raise e, tr) => Some (Raise e, tr)
            | Some (Ok st, tr) =>
                let x := x st + x_offset in
                let y := y st + y_offset in
                Some (Ok (x, y), (tr ++ [MouseClick x y])%list)
            end
        end
  end.

End FindAndClickButton.

(** The moves of one pass over the toolbar: none when the end point is
    negative, else one to the start point and one per step until the end
    point is passed. *)
Definition sweep_moves (start_point end_point step : Z) : nat :=
  if end_point <? 0 then O
  else if end_point <? start_point then 1%nat
  else Z.to_nat ((end_point - start_point) / step + 2).

End Toolbar.

(** ** main.py: the statements sent to the database *)

Module Queries.

Import DbManager.

(** Names are compared as the engine compares them, without regard to the
    case of the letters A to Z. *)
Definition lower_char (c : ascii) : ascii :=
  let n := nat_of_ascii c in
  if (65 <=? n)%nat && (n <=? 90)%nat then ascii_of_nat (n + 32) else c.

Fixpoint lower (s : string) : string :=
  match s with
  | EmptyString => EmptyString
  | String c rest => String (lower_char c) (lower rest)
  end.

Definition same_name (a b : string) : bool := String.eqb (lower a) (lower b).

Definition has_column (def : table_def) (name : string) : bool :=
  existsb (fun col => same_name (col_name col) name) (t_columns def).

(** A [SELECT] as far as its names go: the table it reads, the columns it
    names in its result and its [WHERE] clause, and the table and the columns
    of the [SELECT] nested in the clause, if there is one. *)
Record select : Type := mkSelect {
  sel_from : string;
  sel_columns : list string;
  sel_inner : option (string * list string)
}.

(** The statement of [Contract.iter_contracts]. *)
Definition contracts_select : select :=
  mkSelect "contracts"
    ["id"; "contragent"; "project"; "credit_purpose"; "repayment_procedure";
     "loan_amount"; "subsid_amount"; "investment_amount"; "pos_amount";
     "protocol_date"; "vypiska_date"; "decision_date"; "iban"; "ds_id"; "ds_date";
     "dbz_id"; "dbz_date"; "start_date"; "end_date"; "protocol_id"; "sed_number";
     "file_name";
     "dbz_id"; "id"]
    (Some ("errors", ["id"; "traceback"])).

(** The statement of [InterestRate.load]. *)
Definition rate_select : select :=
  mkSelect "interest_rates"
    ["id"; "subsid_term"; "nominal_rate"; "rate_one_two_three_year"; "rate_four_year";
     "rate_five_year"; "rate_six_seven_year"; "rate_fee_one_two_three_year";
     "rate_fee_four_year"; "rate_fee_five_year"; "rate_fee_six_seven_year";
     "start_date_one_two_three_year"; "end_date_one_two_three_year";
     "start_date_four_year"; "end_date_four_year"; "start_date_five_year";
     "end_date_five_year"; "start_date_six_seven_year"; "end_date_six_seven_year";
     "id"]
    None.

(** The first of the names that is no column of any of the tables. *)
Definition missing (defs : list table_def) (names : list string) : option string :=
  List.find (fun name => negb (existsb (fun def => has_column def name) defs)) names.

Definition no_table (name : string) : exn :=
  mkExn SqliteError ("no such table: " ++ name).

Definition no_column (name : string) : exn :=
  mkExn SqliteError ("no such column: " ++ name).

(** The engine compiling a statement: the tables are looked up, then the
    names are resolved, those of the nested [SELECT] in its own table first
    and in the outer one after it. *)
Definition prepare (q : select) (db : db_state) : result unit :=
  match tables db !! sel_from q with
  | None => Raise (no_table (sel_from q))
  | Some outer =>
      match sel_inner q with
      | None =>
          match missing [declared outer] (sel_columns q) with
          | Some name => Raise (no_column name)
          | None => Ok tt
          end
      | Some (inner_from, inner_columns) =>
          match tables db !! inner_from with
          | None => Raise (no_table inner_from)
          | Some inner =>
              match missing [declared outer] (sel_columns q) with
              | Some name => Raise (no_column name)
              | None =>
                  match missing [declared inner; declared outer] inner_columns with
                  | Some name => Raise (no_column name)
                  | None => Ok tt
                  end
              end
          end
      end
  end.

Section IterContracts.

(** The rows the engine returns for a statement it has compiled. *)
Variable fetch : select -> db_state -> list (list value).

(** [db.execute(query)] for a [SELECT]: an error is logged and raised
    again. *)
Definition execute_select (q : select) : prog db_state (list (list value)) :=
  fun db =>
    match prepare q db with
    | Ok _ => (Ok (fetch q db), db)
    | Raise err =>
        (Raise err,
         mkDb (tables db) (journal_mode db)
           (db_log db ++ [("Database error: " ++ exn_msg err)%string])%list)
    end.

(** The class [Contract] called on the cells of a row. *)
Context {C : Type}.
Variable make : list value -> result C.

(** The loop of the generator: the contracts it yields, and the exception
    that ends it if one does. *)
Fixpoint yield_all (raw_contracts : list (list value)) : list C * option exn :=
  match raw_contracts with
  | [] => ([], None)
  | raw_contract :: rest =>
      match make raw_contract with
      | Ok contract =>
          let (yielded, e) := yield_all rest in (contract :: yielded, e)
      | Raise e => ([], Some e)
      end
  end.

(** [Contract.iter_contracts(db)], consumed to its end. *)
Definition iter_contracts (db : db_state) : (list C * option exn) * db_state :=
  match execute_select contracts_select db with
  | (Ok raw_contracts, db') => (yield_all raw_contracts, db')
  | (Raise e, db') => (([], Some e), db')
  end.

End IterContracts.

End Queries.

(** ** utils/utils.py *)

Module Utils.

(** *** kill_all_processes *)

(** What a call into [psutil] raises: [ZombieProcess] is a subclass of
    [NoSuchProcess]; everything else is kept as it is. *)
Inductive psutil_error : Type :=
| AccessDenied
| NoSuchProcess
| ZombieProcess
| OtherError (e : exn).

Inductive call (A : Type) : Type :=
| Returns (a : A)
| Fails (e : psutil_error).
Arguments Returns {A} a.
Arguments Fails {A} e.

(** [except (psutil.AccessDenied, psutil.NoSuchProcess)]. *)
Definition suppressed (e : psutil_error) : bool :=
  match e with
  | AccessDenied | NoSuchProcess | ZombieProcess => true
  | OtherError _ => false
  end.

(** A process as [process_iter] yields it: what [name()] and
    [terminate()] do when they are called. *)
Record process : Type := mkProcess {
  pid : Z;
  name : call string;
  terminate : call unit
}.

(** [kill_all_processes(proc_name)] over the processes [process_iter]
    yields; the state is the list of the processes terminated so far. *)
Fixpoint kill_all_processes (proc_name : string) (procs : list process)
  (killed : list Z) : call unit * list Z :=
  match procs with
  | [] => (Returns tt, killed)
  | proc :: rest =>
      match name proc with
      | Returns n =>
          if Text.contains proc_name n then
            match terminate proc with
            | Returns _ => kill_all_processes proc_name rest (killed ++ [pid proc])
            | Fails e =>
                if suppressed e then kill_all_processes proc_name rest killed
                else (Fails e, killed)
            end
          else kill_all_processes proc_name rest killed
      | Fails e =>
          if suppressed e then kill_all_processes proc_name rest killed
          else (Fails e, killed)
      end
  end.

(** *** iterate_datetime *)

(** A naive [datetime] as the count of microseconds since [datetime.min],
    a [timedelta] as a count of microseconds. *)
Definition one_day : Z := 86400000000.

(** [datetime.max], the last microsecond of the year 9999. *)
Definition max_datetime : Z := 3652059 * one_day - 1.

(** [dt + delta]: nothing when the sum is no [datetime], which is where
    Python raises [OverflowError]. *)
Definition add (dt delta : Z) : option Z :=
  let sum := dt + delta in
  if (0 <=? sum) && (sum <=? max_datetime) then Some sum else None.

(** How the generator ends: it returns, it raises [OverflowError], or it is
    still running when the fuel is used up. *)
Inductive ending : Type := Returned | Overflow | Running.

(** The [while current <= end] loop: what it yields, and how it ends. *)
Fixpoint iterate_loop (fuel : nat) (current end_ step : Z) : list Z * ending :=
  match fuel with
  | O => ([], Running)
  | S fuel' =>
      if current <=? end_ then
        match add current step with
        | Some next =>
            let (yielded, e) := iterate_loop fuel' next end_ step in
            (current :: yielded, e)
        | None => ([current], Overflow)
        end
      else ([], Returned)
  end.

(** [iterate_datetime(start, end, step)] for naive datetimes, consumed to
    its end. *)
Definition iterate_datetime (fuel : nat) (start end_ : Z) (step : option Z)
  : list Z * ending :=
  let step := match step with None => one_day | Some delta => delta end in
  iterate_loop fuel start end_ step.

(** The number of values from [start] to [end_] in steps of [step]. *)
Definition steps (start end_ step : Z) : nat :=
  if start <=? end_ then Z.to_nat ((end_ - start) / step + 1) else O.

(** [start], [start + step], ...: [n] values. *)
Definition ladder (n : nat) (start step : Z) : list Z :=
  map (fun k => start + Z.of_nat k * step) (seq 0 n).

(** The process is one the call terminates: its name can be read and
    holds [proc_name], and [terminate()] goes through. *)
Definition targeted (proc_name : string) (proc : process) : bool :=
  match name proc, terminate proc with
  | Returns n, Returns _ => Text.contains proc_name n
  | _, _ => false
  end.

(** No call on the process raises anything but the two errors the loop
    passes over. *)
Definition tame (proc : process) : bool :=
  match name proc with Fails e => suppressed e | Returns _ => true end
  && match terminate proc with Fails e => suppressed e | Returns _ => true end.

End Utils.

(** Further sample inputs. *)
Module MoreSamples.

(** A row whose nominal rate was never filled in. *)
Definition null_rate_row : Main.row :=
  fun column =>
    if String.eqb column "nominal_rate" then VNone else Samples.rate_row column.

(** A row in which the fee of the fifth year is missing. *)
Definition null_fee_row : Main.row :=
  fun column =>
    if String.eqb column "rate_fee_five_year" then VNone else Samples.rate_row column.

(** The engine finds the file locked. *)
Definition database_locked : exn := mkExn SqliteError "database is locked".

(** A condition that holds at once. *)
Definition at_once : prog Q bool := fun w => (Ok true, (w + (1 # 100))%Q).

(** A clock on which a poll takes a hundredth of a second and a sleep
    oversleeps by at most a thousandth. *)
Definition oversleep (d : Q) (w : Q) : Q := (w + d + (1 # 1000))%Q.

(** A server that is busy when it gets the text [first] alone and
    answers every other request. *)
Definition busy_for_first (r : Notification.request) : result Notification.response :=
  match Notification.data r with
  | [_; (_, Some text)] =>
      if String.eqb text "first"
      then Ok (Notification.mkResponse 429 (Ok "{}"))
      else Ok (Notification.mkResponse 200 (Ok "{}"))
  | _ => Ok (Notification.mkResponse 200 (Ok "{}"))
  end.

(** Four processes: two of the client, one that is gone when it is asked
    for its name, one that may not be terminated. *)
Definition process_table : list Utils.process :=
  [Utils.mkProcess 4 (Utils.Returns "System") (Utils.Fails Utils.AccessDenied);
   Utils.mkProcess 812 (Utils.Returns "1cv8.exe") (Utils.Returns tt);
   Utils.mkProcess 900 (Utils.Fails Utils.NoSuchProcess) (Utils.Returns tt);
   Utils.mkProcess 1404 (Utils.Returns "1cv8c.exe") (Utils.Returns tt)].

(** A dialog: a title bar, a message over two labels and a button, with
    an empty pane between them. *)
Definition dialog_tree : Elements.element :=
  Elements.Element (Some (32%N :: Samples.workshop ++ [Samples.nbsp])%list)
    [Samples.workshop]
    [Elements.Element (Some (Samples.bakery ++ [32%N])%list) [] [];
     Elements.Element None [[32%N; Samples.nbsp]; []]
       [Elements.Element (Some [Samples.nbsp; 8195%N]) [] []];
     Elements.Element (Some (Unicode.of_string "was not found")) [] [];
     Elements.Element (Some (Unicode.of_string "OK")) [] []].

(** Midnight of the day with the proleptic ordinal [ordinal]; 739311 is
    the first of March 2025. *)
Definition midnight (ordinal : Z) : Z := (ordinal - 1) * Utils.one_day.

Definition crlf : string := String (ascii_of_nat 13) (String (ascii_of_nat 10) EmptyString).

(** A message box whose text is copied as a title, a message and the
    caption of its button, each on a line of its own. *)
Definition message_box : Dialog.window :=
  Dialog.mkWindow true true
    (Ok (Some ("1C:Enterprise" ++ crlf ++ "The contract was not found" ++ crlf
               ++ "OK" ++ crlf))).

(** A window that answers Ctrl+C with one line. *)
Definition one_liner : Dialog.window :=
  Dialog.mkWindow true true (Ok (Some "Saved")).

(** A toolbar from 100 to 160 pixels, and a status bar that shows the
    name of another button whatever the mouse does. *)
Definition toolbar : Toolbar.rect := Toolbar.mkRect 100 0 130 12.

Definition shows_file (tr : list Toolbar.event) : result Unicode.text :=
  Ok (Unicode.of_string " File ").

(** A status bar that shows the workshop button, with blanks around the
    name. *)
Definition shows_workshop (tr : list Toolbar.event) : result Unicode.text :=
  Ok (32%N :: Samples.workshop ++ [Samples.nbsp])%list.

(** A pane with two buttons and an edit field that holds a button; the
    rectangle of the second button cannot be read. *)
Definition form_tree : Tree.node :=
  Tree.Node "Pane" "Card" (Some "(L0, T0, R400, B300)")
    [Tree.Node "Button" "OK" (Some "(L10, T10, R60, B30)") [];
     Tree.Node "Button" "Cancel" None [Tree.Node "Static" "x" (Some "r") []];
     Tree.Node "Edit" "" (Some "(L10, T40, R200, B60)")
       [Tree.Node "Button" "..." (Some "(L180, T40, R200, B60)") []]].

End MoreSamples.

(** * Part II: the properties *)

(** ** text_to_float *)

Section TextToFloatProps.

Variable float_of_str : string -> option float.

Lemma replace_get (old new : ascii) (s : string) (i : nat) :
  String.get i (Str.replace old new s)
  = option_map (fun c => if Ascii.eqb c old then new else c) (String.get i s).
Proof.
  revert i; induction s as [|c rest IH]; intros i; simpl.
  - reflexivity.
  - destruct i as [|i]; simpl; [reflexivity | apply IH].
Qed.

Lemma replace_length (old new : ascii) (s : string) :
  String.length (Str.replace old new s) = String.length s.
Proof. induction s as [|c rest IH]; simpl; congruence. Qed.

(** C10: [text_to_float] hands to [float] the text with every comma turned
    into a dot and returns its value when there is one; when [float]
    raises, a [default] that is a float is returned, and with any other
    [default], an integer or [None] among them, the [ValueError] reaches the
    caller. *)
Theorem text_to_float_spec (txt : string) (default : value) :
  let converted := Str.replace Str.comma Str.dot txt in
  (forall i,
     String.get i converted
     = option_map (fun c => if Ascii.eqb c "," then "."%char else c) (String.get i txt))
  /\ (forall res,
        float_of_str converted = Some res ->
        Automation.text_to_float float_of_str txt default = Ok (VFloat res))
  /\ (float_of_str converted = None ->
      (forall d,
         default = VFloat d ->
         Automation.text_to_float float_of_str txt default = Ok (VFloat d))
      /\ (Automation.isinstance_float default = false ->
          Automation.text_to_float float_of_str txt default
          = Raise (mkExn ValueError
                     ("could not convert string to float: " ++ converted)))
      /\ (forall n,
            Automation.text_to_float float_of_str txt (VInt n)
            = Raise (Automation.float_error converted))
      /\ Automation.text_to_float float_of_str txt VNone
         = Raise (Automation.float_error converted)).
Proof.
  intros converted. split; [|split].
  - intros i. apply replace_get.
  - intros res Hres. unfold Automation.text_to_float, Automation.py_float.
    fold converted. rewrite Hres. reflexivity.
  - intros Hnone.
    unfold Automation.text_to_float, Automation.py_float. fold converted.
    rewrite Hnone. cbn. repeat split.
    + intros d ->. reflexivity.
    + intros Hnf. rewrite Hnf. reflexivity.
Qed.

End TextToFloatProps.

(** A text with a decimal comma is converted; a text that is no number
    gives back a float default and raises with an integer one. *)
Lemma text_to_float_examples :
  Automation.text_to_float Samples.float_of_str "12,5" VNone = Ok (VFloat 12.5%float)
  /\ Automation.text_to_float Samples.float_of_str "n/a" (VFloat 0%float) = Ok (VFloat 0%float)
  /\ Automation.text_to_float Samples.float_of_str "n/a" (VInt 0)
     = Raise (Automation.float_error "n/a").
Proof.
  pose proof (text_to_float_spec Samples.float_of_str "12,5" VNone) as [_ [H1 _]].
  pose proof (text_to_float_spec Samples.float_of_str "n/a" (VFloat 0%float)) as [_ [_ H2]].
  split; [apply H1; reflexivity|].
  specialize (H2 eq_refl) as [Hf [_ [Hi _]]].
  split; [apply Hf; reflexivity | apply Hi].
Defined.

(** ** iso_to_standard *)

Section IsoToStandardProps.

Variable fromisoformat : string -> result datetime.

Lemma strftime_standard (d : datetime) :
  strftime d "%d.%m.%Y"
  = two_digits (day d) ++ "." ++ two_digits (month d) ++ "." ++ four_digits (year d).
Proof. reflexivity. Qed.

Lemma has_dots_iff (s : string) :
  Main.has_dots s = Ok true
  <-> String.get 2 s = Some Str.dot /\ String.get 5 s = Some Str.dot.
Proof.
  unfold Main.has_dots, Str.index.
  destruct (String.get 2 s) as [c2|] eqn:H2; cbn.
  - destruct (Ascii.eqb_spec c2 Str.dot) as [->|Hne2].
    + destruct (String.get 5 s) as [c5|] eqn:H5; cbn.
      * destruct (Ascii.eqb_spec c5 Str.dot) as [->|Hne5].
        -- split; auto.
        -- split; [discriminate | intros [_ [=]]; contradiction].
      * split; [discriminate | intros [_ [=]]].
    + split; [discriminate | intros [[=] _]; contradiction].
  - split; [discriminate | intros [[=] _]].
Qed.

Lemma standard_has_dots (d : datetime) :
  String.get 2 (strftime d "%d.%m.%Y") = Some Str.dot
  /\ String.get 5 (strftime d "%d.%m.%Y") = Some Str.dot.
Proof. split; reflexivity. Qed.

Lemma iso_to_standard_dotted (s : string) :
  Main.has_dots s = Ok true -> Main.iso_to_standard fromisoformat s = Ok s.
Proof. intros H. unfold Main.iso_to_standard. rewrite H. reflexivity. Qed.

Lemma iso_to_standard_output (s r : string) :
  Main.iso_to_standard fromisoformat s = Ok r -> Main.has_dots r = Ok true.
Proof.
  unfold Main.iso_to_standard.
  destruct (Main.has_dots s) as [[|]|e] eqn:Hd; cbn.
  - intros [= <-]. exact Hd.
  - destruct (fromisoformat s) as [d|e]; cbn; [|discriminate].
    intros [= <-]. apply has_dots_iff, standard_has_dots.
  - discriminate.
Qed.


End IsoToStandardProps.


(** ** InterestRate *)

Lemma times_100_float (f : float) :
  Main.times_100 (VFloat f) = Ok (VFloat (f * 100)%float).
Proof. reflexivity. Qed.

Lemma times_100_raises (v : value) (e : exn) :
  Main.times_100 v = Raise e -> v = VNone /\ exn_class e = TypeError.
Proof. destruct v; cbn; try discriminate. intros [= <-]. auto. Qed.

Lemma times_100_none_raises : exists e, Main.times_100 VNone = Raise e.
Proof. eexists. reflexivity. Qed.

(** The nine rate columns. *)
Lemma post_init_ok_no_null (self made : Main.InterestRate) :
  Main.InterestRate_post_init self = Ok made ->
  Forall (fun v => v <> VNone)
    [Main.nominal_rate self; Main.rate_one_two_three_year self;
     Main.rate_four_year self; Main.rate_five_year self;
     Main.rate_six_seven_year self; Main.rate_fee_one_two_three_year self;
     Main.rate_fee_four_year self; Main.rate_fee_five_year self;
     Main.rate_fee_six_seven_year self].
Proof.
  unfold Main.InterestRate_post_init. intros Hok.
  repeat match type of Hok with
    | Py.bind (Main.times_100 ?v) _ = Ok _ =>
        let H := fresh "Hv" in
        destruct (Main.times_100 v) eqn:H; cbn [Py.bind] in Hok; [|discriminate]
    end.
  repeat constructor; intros Hnone;
    match goal with
    | H : Main.times_100 ?v = Ok _, Hn : ?v = VNone |- _ =>
        rewrite Hn in H; discriminate
    end.
Qed.

Lemma post_init_raises_type_error (self : Main.InterestRate) (e : exn) :
  Main.InterestRate_post_init self = Raise e -> exn_class e = TypeError.
Proof.
  unfold Main.InterestRate_post_init. intros Hraise.
  repeat match type of Hraise with
    | Py.bind (Main.times_100 ?v) _ = Raise _ =>
        let H := fresh "Hv" in
        destruct (Main.times_100 v) eqn:H; cbn [Py.bind] in Hraise;
        [|injection Hraise as <-; apply times_100_raises in H; tauto]
    end.
  discriminate.
Qed.

(** With the table read, [load] is the constructor on the first row of the
    contract, and the log is left alone. *)
Lemma load_first_row (interest_rates : list Main.row) (contract : string)
  (r : Main.row) (others : list Main.row) (log : list Main.db_log_record) :
  List.filter (Main.id_is contract) interest_rates = r :: others ->
  Main.InterestRate_load (Ok interest_rates) contract log
  = (Main.InterestRate_new (map r Main.load_columns), log).
Proof.
  intros Hrows. unfold Main.InterestRate_load, Py.pbind, Main.db_execute, Main.select_rates.
  rewrite Hrows. reflexivity.
Qed.

(** A row with [NULL] in a rate column is not made into an
    [InterestRate]: the constructor raises [TypeError]. *)
Lemma load_null_rate (interest_rates : list Main.row) (contract : string)
  (r : Main.row) (others : list Main.row) (log : list Main.db_log_record)
  (column : string) :
  List.filter (Main.id_is contract) interest_rates = r :: others ->
  In column Main.rate_columns ->
  r column = VNone ->
  exists e,
    Main.InterestRate_load (Ok interest_rates) contract log = (Raise e, log)
    /\ exn_class e = TypeError.
Proof.
  intros Hrows Hin Hnull. rewrite (load_first_row _ _ _ _ _ Hrows).
  cbn [map Main.load_columns Main.InterestRate_new].
  match goal with |- context [Main.InterestRate_post_init ?x] => set (self := x) end.
  destruct (Main.InterestRate_post_init self) as [made|e] eqn:Hinit.
  - exfalso. apply post_init_ok_no_null in Hinit.
    rewrite List.Forall_forall in Hinit.
    apply (Hinit (r column)); [|exact Hnull].
    cbn in Hin. cbn.
    repeat (destruct Hin as [<-|Hin]; [tauto|]). destruct Hin.
  - exists e. split; [reflexivity|]. eapply post_init_raises_type_error, Hinit.
Qed.

(** C2, for the rows that have their rates: the row that
    [InterestRate.load] fetches for a contract, when its nine rate cells hold
    floats, becomes an [InterestRate] whose nine rate fields are the rate
    cells of the row times 100 and whose other ten fields are the cells of
    the row; when one of its nine rate cells holds [NULL], no [InterestRate]
    is made and [TypeError] is raised. *)
Theorem interest_rate_load_scales (interest_rates : list Main.row)
  (contract : string) (r : Main.row) (others : list Main.row)
  (log : list Main.db_log_record) :
  List.filter (Main.id_is contract) interest_rates = r :: others ->
  (forall nominal r123 r4 r5 r67 fee123 fee4 fee5 fee67 : float,
     r "nominal_rate" = VFloat nominal ->
     r "rate_one_two_three_year" = VFloat r123 ->
     r "rate_four_year" = VFloat r4 ->
     r "rate_five_year" = VFloat r5 ->
     r "rate_six_seven_year" = VFloat r67 ->
     r "rate_fee_one_two_three_year" = VFloat fee123 ->
     r "rate_fee_four_year" = VFloat fee4 ->
     r "rate_fee_five_year" = VFloat fee5 ->
     r "rate_fee_six_seven_year" = VFloat fee67 ->
     Main.InterestRate_load (Ok interest_rates) contract log
     = (Ok {| Main.contract_id := r "id";
              Main.subsid_term := r "subsid_term";
              Main.nominal_rate := VFloat (nominal * 100)%float;
              Main.rate_one_two_three_year := VFloat (r123 * 100)%float;
              Main.rate_four_year := VFloat (r4 * 100)%float;
              Main.rate_five_year := VFloat (r5 * 100)%float;
              Main.rate_six_seven_year := VFloat (r67 * 100)%float;
              Main.rate_fee_one_two_three_year := VFloat (fee123 * 100)%float;
              Main.rate_fee_four_year := VFloat (fee4 * 100)%float;
              Main.rate_fee_five_year := VFloat (fee5 * 100)%float;
              Main.rate_fee_six_seven_year := VFloat (fee67 * 100)%float;
              Main.start_date_one_two_three_year := r "start_date_one_two_three_year";
              Main.end_date_one_two_three_year := r "end_date_one_two_three_year";
              Main.start_date_four_year := r "start_date_four_year";
              Main.end_date_four_year := r "end_date_four_year";
              Main.start_date_five_year := r "start_date_five_year";
              Main.end_date_five_year := r "end_date_five_year";
              Main.start_date_six_seven_year := r "start_date_six_seven_year";
              Main.end_date_six_seven_year := r "end_date_six_seven_year" |},
        log))
  /\ (forall column,
        In column Main.rate_columns ->
        r column = VNone ->
        exists e,
          Main.InterestRate_load (Ok interest_rates) contract log = (Raise e, log)
          /\ exn_class e = TypeError).
Proof.
  intros Hrows. split.
  - intros nominal r123 r4 r5 r67 fee123 fee4 fee5 fee67 H1 H2 H3 H4 H5 H6 H7 H8 H9.
    rewrite (load_first_row _ _ _ _ _ Hrows).
    cbn [map Main.load_columns Main.InterestRate_new].
    unfold Main.InterestRate_post_init. cbn [Main.nominal_rate
      Main.rate_one_two_three_year Main.rate_four_year Main.rate_five_year
      Main.rate_six_seven_year Main.rate_fee_one_two_three_year
      Main.rate_fee_four_year Main.rate_fee_five_year Main.rate_fee_six_seven_year].
    rewrite H1, H2, H3, H4, H5, H6, H7, H8, H9.
    reflexivity.
  - intros column. apply (load_null_rate _ _ _ _ log column Hrows).
Qed.

(** The sample row: a quarter becomes twenty-five. *)
Lemma interest_rate_load_example :
  exists rate,
    Main.InterestRate_load (Ok [Samples.rate_row]) "c-1" [] = (Ok rate, [])
    /\ Main.nominal_rate rate = VFloat 25%float
    /\ Main.rate_fee_six_seven_year rate = VFloat 25%float
    /\ Main.contract_id rate = VStr "c-1"
    /\ Main.subsid_term rate = VInt 36
    /\ Main.end_date_six_seven_year rate = VStr "2025-01-01".
Proof.
  eexists. split.
  - apply (proj1 (interest_rate_load_scales [Samples.rate_row] "c-1" Samples.rate_row []
                    [] eq_refl)
             0.25%float 0.25%float 0.25%float 0.25%float 0.25%float 0.25%float
             0.25%float 0.25%float 0.25%float); reflexivity.
  - repeat split; reflexivity.
Defined.

(** As C2 is stated, every row loaded from the table becomes an
    [InterestRate] with its rates multiplied.  The rate columns are declared
    [REAL] without [NOT NULL]; a row in which the fee of the fifth year is
    missing is fetched for its contract, and no [InterestRate] comes of it:
    [None *= 100] raises [TypeError]. *)
Lemma interest_rate_load_counterexample :
  List.filter (Main.id_is "c-1") [MoreSamples.null_fee_row] = [MoreSamples.null_fee_row]
  /\ Main.select_rates [MoreSamples.null_fee_row] "c-1"
     = [map MoreSamples.null_fee_row Main.load_columns]
  /\ MoreSamples.null_fee_row "rate_fee_five_year" = VNone
  /\ Main.InterestRate_load (Ok [MoreSamples.null_fee_row]) "c-1" []
     = (Raise (mkExn TypeError
                 "unsupported operand type(s) for *=: 'NoneType' and 'int'"),
        []).
Proof. repeat split. Qed.

(** ** convert_date and the order classes *)

Section ConvertDateProps.

Variable strptime : string -> string -> result datetime.
Variable describe : Data.field_value -> string.

Abbreviation convert_date := (Data.convert_date strptime describe).
Abbreviation convert_all := (Data.convert_all strptime describe).
Abbreviation normalized := (Data.normalized strptime).

Lemma pbind_ret_r {S A : Type} (m : prog S A) (s : S) :
  Py.pbind m Py.ret s = m s.
Proof. unfold Py.pbind, Py.ret. destruct (m s) as [[a|e] s']; reflexivity. Qed.

(** A conversion that returns leaves the log alone, leaves the other
    attributes alone and leaves the [Date] the attribute stood for. *)
Lemma convert_date_ok (obj obj' : gmap string Data.field_value)
  (field date_format : string) (log log' : list string) :
  convert_date obj field date_format log = (Ok obj', log') ->
  log' = log
  /\ (exists v d, obj !! field = Some v /\ normalized date_format v = Some d
                  /\ obj' !! field = Some (Data.FDate d))
  /\ (forall other, other <> field -> obj' !! other = obj !! other).
Proof.
  unfold Data.convert_date.
  destruct (obj !! field) as [v|] eqn:Hv; [|discriminate].
  destruct v as [d|d|n1 n2|pv].
  - intros [= <- <-]. split; [reflexivity|]. split; [|reflexivity].
    exists (Data.FDate d), d. auto.
  - intros [= <- <-]. split; [reflexivity|]. split.
    + exists (Data.FDatetime d), (Data.to_date d).
      rewrite lookup_insert_eq. auto.
    + intros other Hne. apply lookup_insert_ne. congruence.
  - discriminate.
  - destruct pv as [|b|n|f|s|b]; try discriminate.
    unfold Py.pbind, Py.lift, Py.ret.
    destruct (strptime s date_format) as [d|e] eqn:Hp; [|discriminate].
    intros [= <- <-]. split; [reflexivity|]. split.
    + exists (Data.FPlain (VStr s)), (Data.to_date d). cbn. rewrite Hp.
      rewrite lookup_insert_eq. auto.
    + intros other Hne. apply lookup_insert_ne. congruence.
Qed.

Lemma normalized_date (date_format : string) (d : Data.Date) :
  normalized date_format (Data.FDate d) = Some d.
Proof. reflexivity. Qed.

Lemma convert_all_ok (fields : list string) (date_format : string) :
  forall (self obj : gmap string Data.field_value) (log log' : list string),
    convert_all fields date_format self log = (Ok obj, log') ->
    log' = log
    /\ (forall field, field ∈ fields ->
          exists v d, self !! field = Some v /\ normalized date_format v = Some d
                      /\ obj !! field = Some (Data.FDate d))
    /\ (forall other, other ∉ fields -> obj !! other = self !! other).
Proof.
  induction fields as [|f rest IH]; intros self obj log log'; cbn.
  - intros [= <- <-]. split; [reflexivity|]. split; [|reflexivity].
    intros field Hin. inversion Hin.
  - unfold Py.pbind at 1.
    destruct (convert_date self f date_format log) as [[self1|e] log1] eqn:H1;
      [|discriminate].
    intros Hrest.
    apply convert_date_ok in H1 as [-> [(v & d & Hv & Hn & Hd) Hsame]].
    apply IH in Hrest as [-> [Hconv Hkeep]].
    split; [reflexivity|]. split.
    + intros field Hin.
      destruct (decide (field = f)) as [->|Hne].
      * exists v, d. split; [exact Hv|]. split; [exact Hn|].
        destruct (decide (f ∈ rest)) as [Hfr|Hfr].
        -- destruct (Hconv f Hfr) as (v' & d' & Hv' & Hn' & Hd').
           rewrite Hd in Hv'. injection Hv' as <-. cbn in Hn'.
           injection Hn' as <-. exact Hd'.
        -- rewrite (Hkeep f Hfr). exact Hd.
      * apply elem_of_cons in Hin as [Heq|Hin]; [contradiction|].
        destruct (Hconv field Hin) as (v' & d' & Hv' & Hn' & Hd').
        exists v', d'. rewrite <- (Hsame field Hne). auto.
    + intros other Hnot. apply not_elem_of_cons in Hnot as [Hne Hnot].
      rewrite (Hkeep other Hnot). apply Hsame, Hne.
Qed.

(** Every order class converts, in its [__post_init__], the fields it
    annotates with a date type, with the short format. *)
Lemma post_init_converts_date_fields :
  Forall
    (fun cls =>
       forall self log,
         Data.cls_post_init cls strptime describe self log
         = convert_all (Data.date_fields cls) "%d.%m.%y" self log)
    Data.order_classes.
Proof.
  unfold Data.order_classes.
  repeat (apply List.Forall_cons; [intros self log|]); [..|apply List.Forall_nil]; cbn;
    unfold Data.BusinessTripOrder_post_init, Data.VacationOrder_post_init,
      Data.VacationWithdrawOrder_post_init, Data.FiringOrder_post_init,
      Data.MentorshipOrder_post_init, Data.VNDOrder_post_init,
      Data.TripAddPayOrder_post_init, Data.VacationAddPayOrder_post_init;
    unfold Py.pbind, Py.ret;
    repeat match goal with
      | |- context [Data.convert_date ?a ?b ?c ?d ?e ?f] =>
          destruct (Data.convert_date a b c d e f) as [[?|?] ?]
      end; reflexivity.
Qed.


End ConvertDateProps.


(** A withdrawal order built from the arguments read from a report holds
    the [Date] of its withdrawal and logs nothing. *)
Example vacation_withdraw_order_example :
  match
    Data.construct Samples.strptime Samples.describe Data.VacationWithdrawOrder
      (Samples.withdraw_args (Data.FPlain (VStr "14.03.25"))) []
  with
  | (Ok made, log) =>
      made !! "withdraw_date"
      = Some (Data.FDate
                (Data.mkDate (mkDatetime 2025 3 14 0 0 0) "14.03.2025" "14.03.25"))
      /\ made !! "tab_num" = Some (Data.FPlain VNone)
      /\ log = []
  | (Raise _, _) => False
  end.
Proof. vm_compute. repeat split; reflexivity. Qed.

(** ** wait_for *)

Section WaitForProps.

Local Open Scope Q_scope.

Context {W : Type}.
Variable time : W -> Q.
Variable sleep : Q -> W -> W.
Variable condition : prog W bool.

(** Sleeping takes at least the time asked for, and a poll does not turn
    the clock back. *)
Hypothesis sleep_advances : forall d w, 0 <= d -> time w + d <= time (sleep d w).
Hypothesis poll_monotone : forall w, time w <= time (snd (condition w)).

Variable timeout interval : Q.
Hypothesis timeout_nonneg : 0 <= timeout.
Hypothesis interval_pos : 0 < interval.
Hypothesis interval_sleepable : Automation.sleepable interval = true.

Abbreviation wait_loop := (Automation.wait_loop time sleep condition).
Abbreviation before_poll := (Automation.before_poll sleep condition).

Lemma py_sleep_interval (w : W) :
  Automation.py_sleep sleep (Automation.Finite interval) w = (Ok tt, sleep interval w).
Proof.
  unfold Automation.py_sleep, Automation.sleep_arg. rewrite interval_sleepable.
  assert (Qle_bool 0 interval = true) as ->; [|reflexivity].
  apply Qle_bool_iff. lra.
Qed.

Lemma exceeded_iff (elapsed : Q) :
  Automation.exceeds elapsed (Automation.Finite timeout) = true <-> timeout < elapsed.
Proof.
  cbn [Automation.exceeds]. rewrite negb_true_iff. split.
  - intros H. apply Qnot_le_lt. intros Hle.
    apply Qle_bool_iff in Hle. congruence.
  - intros H. destruct (Qle_bool elapsed timeout) eqn:Hb; [|reflexivity].
    apply Qle_bool_iff in Hb. lra.
Qed.

Lemma inject_succ (n : nat) :
  inject_Z (Z.of_nat (S n)) == inject_Z (Z.of_nat n) + 1.
Proof. rewrite Nat2Z.inj_succ. unfold Z.succ. rewrite inject_Z_plus. reflexivity. Qed.

Lemma before_poll_shift (j : nat) (w : W) :
  before_poll (S j) interval w
  = before_poll j interval (sleep interval (snd (condition w))).
Proof.
  induction j as [|j IH]; [reflexivity|].
  change (before_poll (S (S j)) interval w)
    with (sleep interval (snd (condition (before_poll (S j) interval w)))).
  rewrite IH. reflexivity.
Qed.

(** With [S fuel] polls allowed, the loop ends as soon as [fuel] sleeps
    from the present state overrun the timeout.  It ends at the first poll
    that finds the condition true, or finds it false with the time up, or
    raises; every poll before it found the condition false with time left,
    and was followed by one sleep. *)
Lemma wait_loop_ends (start : Q) (fuel : nat) :
  forall w,
    timeout < time w - start + inject_Z (Z.of_nat fuel) * interval ->
    exists k last w',
      (k <= fuel)%nat
      /\ (forall j, (j < k)%nat ->
            fst (condition (before_poll j interval w)) = Ok false
            /\ time (snd (condition (before_poll j interval w))) - start <= timeout)
      /\ condition (before_poll k interval w) = (last, w')
      /\ time w <= time w'
      /\ match last with
         | Ok found =>
             (found = false -> timeout < time w' - start)
             /\ wait_loop (S fuel) start (Automation.Finite timeout)
                  (Automation.Finite interval) w
                = Some (Ok found, w',
                        Automation.polling_trace k (Automation.Finite interval) found)
         | Raise e =>
             wait_loop (S fuel) start (Automation.Finite timeout)
               (Automation.Finite interval) w
             = Some (Raise e, w', Automation.failed_polls k (Automation.Finite interval))
         end.
Proof.
  induction fuel as [|fuel IH]; intros w Hfuel.
  - pose proof (poll_monotone w) as Hmono.
    destruct (condition w) as [last w1] eqn:Hcond. cbn [snd] in Hmono.
    exists O, last, w1. split; [lia|]. split; [intros j Hj; lia|].
    split; [exact Hcond|]. split; [exact Hmono|].
    cbn [Automation.wait_loop]. rewrite Hcond. destruct last as [[|]|e].
    + split; [discriminate | reflexivity].
    + assert (Automation.exceeds (time w1 - start) (Automation.Finite timeout) = true)
        as Hex.
      { apply exceeded_iff. change (inject_Z (Z.of_nat 0)) with 0 in Hfuel. lra. }
      rewrite Hex. split; [intros _; apply exceeded_iff, Hex | reflexivity].
    + reflexivity.
  - pose proof (poll_monotone w) as Hmono.
    destruct (condition w) as [last w1] eqn:Hcond. cbn [snd] in Hmono.
    assert (forall found,
              last = Ok found ->
              (found = true
               \/ Automation.exceeds (time w1 - start) (Automation.Finite timeout) = true) ->
              exists k last' w',
                (k <= S fuel)%nat
                /\ (forall j, (j < k)%nat ->
                      fst (condition (before_poll j interval w)) = Ok false
                      /\ time (snd (condition (before_poll j interval w))) - start
                         <= timeout)
                /\ condition (before_poll k interval w) = (last', w')
                /\ time w <= time w'
                /\ match last' with
                   | Ok found' =>
                       (found' = false -> timeout < time w' - start)
                       /\ wait_loop (S (S fuel)) start (Automation.Finite timeout)
                            (Automation.Finite interval) w
                          = Some (Ok found', w',
                                  Automation.polling_trace k (Automation.Finite interval)
                                    found')
                   | Raise e =>
                       wait_loop (S (S fuel)) start (Automation.Finite timeout)
                         (Automation.Finite interval) w
                       = Some (Raise e, w',
                               Automation.failed_polls k (Automation.Finite interval))
                   end) as Hstop.
    { intros found -> Hdone. exists O, (Ok found), w1.
      split; [lia|]. split; [intros j Hj; lia|]. split; [exact Hcond|].
      split; [exact Hmono|]. remember (S fuel) as n.
      cbn [Automation.wait_loop]. rewrite Hcond.
      destruct found.
      - split; [discriminate | reflexivity].
      - destruct Hdone as [|Hex]; [discriminate|]. rewrite Hex.
        split; [intros _; apply exceeded_iff, Hex | reflexivity]. }
    destruct last as [[|]|e].
    + apply (Hstop true eq_refl). left. reflexivity.
    + destruct (Automation.exceeds (time w1 - start) (Automation.Finite timeout)) eqn:Hex.
      * apply (Hstop false eq_refl). right. reflexivity.
      * assert (time w1 - start <= timeout) as Hwithin.
        { apply Qnot_lt_le. intros Hlt. apply exceeded_iff in Hlt. congruence. }
        pose proof (sleep_advances interval w1 ltac:(lra)) as Hslept.
        destruct (IH (sleep interval w1)) as (k & last & w' & Hk & Hpolls & Hlast & Hle & Hrun).
        { rewrite inject_succ in Hfuel. lra. }
        assert (sleep interval w1 = sleep interval (snd (condition w))) as Hnext
            by (rewrite Hcond; reflexivity).
        exists (S k), last, w'. split; [lia|]. split; [|split; [|split]].
        -- intros [|j] Hj.
           ++ cbn [Automation.before_poll]. rewrite Hcond. cbn [fst snd].
              split; [reflexivity | exact Hwithin].
           ++ rewrite before_poll_shift, <- Hnext. apply Hpolls. lia.
        -- rewrite before_poll_shift, <- Hnext. exact Hlast.
        -- lra.
        -- remember (S fuel) as n. cbn [Automation.wait_loop].
           rewrite Hcond, Hex, py_sleep_interval. subst n.
           destruct last as [found|e].
           ++ destruct Hrun as [Hfalse Hrun]. rewrite Hrun.
              split; [exact Hfalse | reflexivity].
           ++ rewrite Hrun. reflexivity.
    + exists O, (Raise e), w1. split; [lia|]. split; [intros j Hj; lia|].
      split; [exact Hcond|]. split; [exact Hmono|].
      remember (S fuel) as n. cbn [Automation.wait_loop]. rewrite Hcond. reflexivity.
Qed.

Lemma floor_bound :
  timeout < inject_Z (Z.of_nat (S (Z.to_nat (Qfloor (timeout / interval))))) * interval.
Proof.
  assert (0 <= Qfloor (timeout / interval))%Z as Hfloor.
  { change 0%Z with (Qfloor 0). apply Qfloor_resp_le.
    apply Qle_shift_div_l; lra. }
  rewrite Nat2Z.inj_succ, Z2Nat.id by exact Hfloor.
  pose proof (Qlt_floor (timeout / interval)) as Hlt.
  unfold Z.succ.
  apply (Qmult_lt_compat_r _ _ interval interval_pos) in Hlt.
  assert (timeout / interval * interval == timeout) as Heq by (field; lra).
  rewrite Heq in Hlt. exact Hlt.
Qed.

(** More fuel does not change a run that ended. *)
Lemma wait_loop_more_fuel (start : Q) (limit pause : Automation.seconds) (fuel : nat) :
  forall w out extra,
    wait_loop fuel start limit pause w = Some out ->
    wait_loop (fuel + extra) start limit pause w = Some out.
Proof.
  induction fuel as [|fuel IH]; intros w out extra; [discriminate|].
  cbn [Automation.wait_loop Nat.add].
  destruct (condition w) as [[[|]|e] w1]; auto.
  destruct (Automation.exceeds (time w1 - start) limit); auto.
  destruct (Automation.py_sleep sleep pause w1) as [[[]|e] w2]; auto.
  destruct (wait_loop fuel start limit pause w2) as [out'|] eqn:Hrun;
    [|discriminate].
  rewrite (IH _ _ extra Hrun). auto.
Qed.

(** With a timeout that is infinite the loop does not give up. *)
Lemma wait_loop_no_limit (pause : Automation.seconds) (start : Q) (fuel : nat) :
  forall w r w' tr,
    wait_loop fuel start Automation.Infinity pause w = Some (r, w', tr) ->
    r <> Ok false.
Proof.
  induction fuel as [|fuel IH]; intros w r w' tr; [discriminate|].
  cbn [Automation.wait_loop Automation.exceeds].
  destruct (condition w) as [[[|]|e] w1]; try (intros [= <- _ _]; discriminate).
  destruct (Automation.py_sleep sleep pause w1) as [[[]|e] w2];
    [|intros [= <- _ _]; discriminate].
  destruct (wait_loop fuel start Automation.Infinity pause w2) as [[[r2 w2'] tr2]|] eqn:Hrun;
    [|discriminate].
  intros [= <- _ _]. apply (IH _ _ _ _ Hrun).
Qed.

(** The whole run of [wait_for], for a timeout that is not negative and
    an interval that is positive and can be slept. *)
Lemma wait_for_run (w : W) :
  exists k last w',
    (S k <= Automation.polls_needed timeout interval)%nat
    /\ (forall j, (j < k)%nat ->
          fst (condition (before_poll j interval w)) = Ok false
          /\ time (snd (condition (before_poll j interval w))) - time w <= timeout)
    /\ condition (before_poll k interval w) = (last, w')
    /\ match last with
       | Ok found =>
           (found = false -> timeout < time w' - time w)
           /\ forall extra,
                Automation.wait_for time sleep condition
                  (Automation.polls_needed timeout interval + extra)
                  (Automation.Finite timeout) (Automation.Finite interval) w
                = Some (Ok found, w',
                        Automation.polling_trace k (Automation.Finite interval) found)
       | Raise e =>
           forall extra,
             Automation.wait_for time sleep condition
               (Automation.polls_needed timeout interval + extra)
               (Automation.Finite timeout) (Automation.Finite interval) w
             = Some (Raise e, w', Automation.failed_polls k (Automation.Finite interval))
       end.
Proof.
  unfold Automation.wait_for, Automation.polls_needed.
  destruct (wait_loop_ends (time w)
              (S (Z.to_nat (Qfloor (timeout / interval)))) w)
    as (k & last & w' & Hk & Hpolls & Hlast & _ & Hrun).
  { pose proof floor_bound. lra. }
  exists k, last, w'. split; [lia|]. split; [exact Hpolls|]. split; [exact Hlast|].
  destruct last as [found|e].
  - destruct Hrun as [Hfalse Hrun]. split; [exact Hfalse|].
    intros extra. apply wait_loop_more_fuel, Hrun.
  - intros extra. apply wait_loop_more_fuel, Hrun.
Qed.


End WaitForProps.

Lemma sample_clock_sleeps (d w : Q) :
  (0 <= d)%Q ->
  (Samples.clock_time w + d <= Samples.clock_time (Samples.clock_sleep d w))%Q.
Proof. intros _. unfold Samples.clock_time, Samples.clock_sleep. apply Qle_refl. Qed.

Lemma sample_never_monotone (w : Q) :
  (Samples.clock_time w <= Samples.clock_time (snd (Samples.never w)))%Q.
Proof. unfold Samples.clock_time, Samples.never. cbn [snd]. lra. Qed.


Lemma never_unbounded (fuel : nat) :
  forall start w,
    Automation.wait_loop Samples.clock_time Samples.clock_sleep Samples.never fuel start
      Automation.Infinity (Automation.Finite (1 # 2)) w
    = None.
Proof.
  induction fuel as [|fuel IH]; intros start w; [reflexivity|].
  cbn [Automation.wait_loop Samples.never Automation.exceeds].
  unfold Automation.py_sleep.
  change (Automation.sleep_arg (Automation.Finite (1 # 2))) with (@Ok Q (1 # 2)).
  cbv iota beta. rewrite IH. reflexivity.
Qed.


(** ** find_row and find_project *)

Section FindProjectProps.

Context {W : Type}.
Variable call : Main.ui_call -> prog W unit.
Variable test : Main.ui_test -> prog W bool.
Variable children : Main.widget -> prog W (list Main.list_item).
Variable time : W -> Q.
Variable sleep : Q -> W -> W.
Variable ratio : Unicode.text -> Unicode.text -> float.
Variable prepare_query : string -> string.

Abbreviation scan_rows := (Main.scan_rows ratio).
Abbreviation qualifies := (Main.qualifies ratio).
Abbreviation find_row := (Main.find_row children ratio).
Abbreviation find_project :=
  (Main.find_project call test children time sleep ratio prepare_query).

(** The scan returns the first row that qualifies, with the line it
    prints, and nothing when no row qualifies. *)
Lemma scan_rows_first (n_rows : nat) (project : Unicode.text) (rows : list Main.list_item) :
  match scan_rows n_rows rows project with
  | Some (row, line) =>
      exists before after,
        rows = (before ++ row :: after)%list
        /\ Forall (fun r => qualifies project r = false) before
        /\ qualifies project row = true
        /\ line = Main.FoundLine n_rows (Unicode.strip (Main.window_text row))
                   (ratio project (Unicode.strip (Main.window_text row)))
  | None => Forall (fun r => qualifies project r = false) rows
  end.
Proof.
  induction rows as [|row rest IH]; cbn [Main.scan_rows].
  - constructor.
  - destruct (Unicode.is_empty (Unicode.strip (Main.window_text row))) eqn:Hblank.
    + assert (qualifies project row = false) as Hq.
      { unfold Main.qualifies. rewrite Hblank. reflexivity. }
      destruct (scan_rows n_rows rest project) as [[found line]|].
      * destruct IH as (before & after & -> & Hbefore & Hfound & Hline).
        exists (row :: before), after. repeat split; auto.
      * constructor; assumption.
    + destruct (Main.threshold <=? ratio project (Unicode.strip (Main.window_text row)))%float
        eqn:Hscore.
      * exists [], rest. repeat split; auto.
        unfold Main.qualifies. rewrite Hblank, Hscore. reflexivity.
      * assert (qualifies project row = false) as Hq.
        { unfold Main.qualifies. rewrite Hblank, Hscore. reflexivity. }
        destruct (scan_rows n_rows rest project) as [[found line]|].
        -- destruct IH as (before & after & -> & Hbefore & Hfound & Hline).
           exists (row :: before), after. repeat split; auto.
        -- constructor; assumption.
Qed.

Lemma scan_rows_none (n_rows : nat) (project : Unicode.text) (rows : list Main.list_item) :
  Forall (fun r => qualifies project r = false) rows ->
  scan_rows n_rows rows project = None.
Proof.
  intros Hall. pose proof (scan_rows_first n_rows project rows) as Hscan.
  destruct (scan_rows n_rows rows project) as [[row line]|]; [|reflexivity].
  destruct Hscan as (before & after & -> & _ & Hq & _).
  apply Forall_app in Hall as [_ Hall]. apply Forall_cons in Hall as [Hrow _].
  congruence.
Qed.

(** C4: [find_row] returns the first row that is not blank and whose
    similarity to the project is at least 0.8, and [None] when there is no
    such row; [find_project] prints the not-found line and returns, without
    raising, when its wait for the result of the query gives up and when
    no row on the screen qualifies.  With a clock that sleeping moves on,
    [find_project] does not run out of polls. *)
Theorem find_project_not_found (fuel : nat) (top_win : Main.widget)
  (contract : Main.Contract) (w : W) (out : list Main.print_line) :
  (forall parent project rows w',
     children parent w = (Ok rows, w') ->
     match scan_rows (length rows) rows project with
     | Some (row, line) =>
         find_row parent project (w, out) = (Ok (Some row), (w', (out ++ [line])%list))
         /\ exists before after,
              rows = (before ++ row :: after)%list
              /\ Forall (fun r => qualifies project r = false) before
              /\ qualifies project row = true
     | None =>
         find_row parent project (w, out) = (Ok None, (w', out))
         /\ Forall (fun r => qualifies project r = false) rows
     end)
  /\ (forall box delete_button w1 w2 tr,
        Main.run_query call test prepare_query top_win contract w
        = (Ok (box, delete_button), w1) ->
        Automation.wait_for time sleep (test (Main.IsEnabled delete_button))
          fuel (Automation.Finite 10) (Automation.Finite Automation.default_interval) w1
        = Some (Ok false, w2, tr) ->
        find_project fuel top_win contract (w, out)
        = Some (Ok tt, (w2, (out ++ [Main.NotFoundLine (Main.c_contract_id contract)])%list)))
  /\ (forall box delete_button w1 w2 tr rows w3,
        Main.run_query call test prepare_query top_win contract w
        = (Ok (box, delete_button), w1) ->
        Automation.wait_for time sleep (test (Main.IsEnabled delete_button))
          fuel (Automation.Finite 10) (Automation.Finite Automation.default_interval) w1
        = Some (Ok true, w2, tr) ->
        children (Main.child_win top_win "List" None 1) w2 = (Ok rows, w3) ->
        Forall (fun r => qualifies (Main.c_project contract) r = false) rows ->
        find_project fuel top_win contract (w, out)
        = Some (Ok tt, (w3, (out ++ [Main.NotFoundLine (Main.c_contract_id contract)])%list)))
  /\ ((forall d w0, (0 <= d)%Q -> (time w0 + d <= time (sleep d w0))%Q) ->
      (forall t w0, (time w0 <= time (snd (test t w0)))%Q) ->
      exists outcome,
        find_project (Automation.polls_needed 10 Automation.default_interval)
          top_win contract (w, out)
        = Some outcome).
Proof.
  split; [|split; [|split]].
  - intros parent project rows w' Hrows.
    pose proof (scan_rows_first (length rows) project rows) as Hscan.
    unfold Main.find_row, Py.pbind, Main.on_world. cbn [fst snd]. rewrite Hrows.
    destruct (scan_rows (length rows) rows project) as [[row line]|].
    + split; [reflexivity|].
      destruct Hscan as (before & after & Hsplit & Hbefore & Hrow & _).
      exists before, after. auto.
    + split; [reflexivity | exact Hscan].
  - intros box delete_button w1 w2 tr Hquery Hwait.
    unfold Main.find_project, Main.on_world. cbn [fst snd].
    rewrite Hquery. cbn [fst snd]. rewrite Hwait. reflexivity.
  - intros box delete_button w1 w2 tr rows w3 Hquery Hwait Hrows Hnone.
    unfold Main.find_project, Main.on_world. cbn [fst snd].
    rewrite Hquery. cbn [fst snd]. rewrite Hwait.
    unfold Py.pbind, Main.find_row, Py.pbind, Main.on_world. cbn [fst snd].
    rewrite Hrows. rewrite (scan_rows_none _ _ _ Hnone). reflexivity.
  - intros Hsleep Hpoll.
    unfold Main.find_project, Main.on_world. cbn [fst snd].
    destruct (Main.run_query call test prepare_query top_win contract w)
      as [[[box delete_button]|e] w1]; cbn [fst snd]; [|eexists; reflexivity].
    destruct (wait_for_run time sleep (test (Main.IsEnabled delete_button))
                Hsleep (Hpoll _) 10%Q Automation.default_interval
                ltac:(lra) ltac:(reflexivity) ltac:(reflexivity) w1)
      as (k & last & w2 & _ & _ & _ & Hrun).
    destruct last as [found|e].
    + destruct Hrun as [_ Hrun]. specialize (Hrun 0%nat).
      rewrite Nat.add_0_r in Hrun. rewrite Hrun.
      destruct found; eexists; reflexivity.
    + specialize (Hrun 0%nat). rewrite Nat.add_0_r in Hrun. rewrite Hrun.
      eexists; reflexivity.
Qed.

End FindProjectProps.

(** The query gives nothing within ten seconds: one line, no exception.
    The list shows no dairy farm: the same.  The list shows a workshop: the
    first row that is one, with the blanks and the no-break space around its
    Cyrillic name stripped. *)
Lemma find_project_examples :
  (exists w',
     Main.find_project Samples.ui_call (Samples.ui_test false)
       (Samples.ui_children Samples.shown_rows) Samples.clock_time
       Samples.clock_sleep Samples.same_text Samples.query_for
       (Automation.polls_needed 10 Automation.default_interval)
       Main.TopWindow Samples.mill (0%Q, [])
     = Some (Ok tt, (w', [Main.NotFoundLine "c-1"])))
  /\ (exists w',
        Main.find_project Samples.ui_call (Samples.ui_test true)
          (Samples.ui_children Samples.shown_rows) Samples.clock_time
          Samples.clock_sleep Samples.same_text Samples.query_for
          (Automation.polls_needed 10 Automation.default_interval)
          Main.TopWindow Samples.dairy (0%Q, [])
        = Some (Ok tt, (w', [Main.NotFoundLine "c-2"])))
  /\ Main.find_row (Samples.ui_children Samples.shown_rows) Samples.same_text
       Main.TopWindow Samples.workshop (0%Q, [])
     = (Ok (Some (Main.mkItem 2 ((32%N :: Samples.workshop) ++ [Samples.nbsp; 32%N])%list)),
        (0%Q, [Main.FoundLine 4 Samples.workshop 1%float])).
Proof.
  pose proof (find_project_not_found Samples.ui_call (Samples.ui_test false)
                (Samples.ui_children Samples.shown_rows) Samples.clock_time
                Samples.clock_sleep Samples.same_text Samples.query_for
                (Automation.polls_needed 10 Automation.default_interval)
                Main.TopWindow Samples.mill 0%Q []) as (Hrow & Hwait & _).
  pose proof (find_project_not_found Samples.ui_call (Samples.ui_test true)
                (Samples.ui_children Samples.shown_rows) Samples.clock_time
                Samples.clock_sleep Samples.same_text Samples.query_for
                (Automation.polls_needed 10 Automation.default_interval)
                Main.TopWindow Samples.dairy 0%Q []) as (_ & _ & Hnone & _).
  split; [|split].
  - eexists. eapply (Hwait _ _ 0%Q); vm_compute; reflexivity.
  - eexists. eapply (Hnone _ _ 0%Q _ _ Samples.shown_rows).
    + vm_compute; reflexivity.
    + vm_compute; reflexivity.
    + reflexivity.
    + repeat constructor.
  - specialize (Hrow Main.TopWindow Samples.workshop Samples.shown_rows 0%Q eq_refl).
    assert (Main.scan_rows Samples.same_text (length Samples.shown_rows)
              Samples.shown_rows Samples.workshop
            = Some (Main.mkItem 2 ((32%N :: Samples.workshop) ++ [Samples.nbsp; 32%N])%list,
                    Main.FoundLine 4 Samples.workshop 1%float))
      as Hscan by (vm_compute; reflexivity).
    rewrite Hscan in Hrow. apply Hrow.
Defined.

(** ** AppUtils.set_focus *)

Section SetFocusProps.

Variable attempt : Z -> option exn.

Lemma application_eta (app : App.application) :
  App.mkApplication (App.process app) (App.backend_name app) = app.
Proof. destruct app; reflexivity. Qed.

Lemma loop_all_fail (backend : option string) (app : App.application) (n : nat) :
  forall tr,
    (forall r, 1 <= r <= Z.of_nat n -> attempt r <> None) ->
    App.set_focus_loop attempt n backend (App.backend_name app) (App.entered app backend tr)
    = (Ok 0, App.entered app backend (tr ++ App.failed_attempts n n)%list).
Proof.
  induction n as [|n IH]; intros tr Hfail.
  - cbn. rewrite app_nil_r. reflexivity.
  - cbn [App.set_focus_loop]. unfold Py.pbind at 1. cbn [App.focus_emit App.entered App.utils_app App.focus_trace].
    destruct (attempt (Z.of_nat (S n))) as [e|] eqn:Hattempt.
    + unfold Py.pbind at 1. cbn [App.focus_emit App.utils_app App.focus_trace].
      etransitivity.
      { apply (IH ((tr ++ [App.attempt_event (Z.of_nat (S n))])
                   ++ [App.FocusSleep 5])%list).
        intros r Hr; apply Hfail; lia. }
      cbn [App.failed_attempts]. replace (S n - 1)%nat with n by lia.
      rewrite <- !app_assoc. reflexivity.
    + exfalso. apply (Hfail (Z.of_nat (S n))); [lia | exact Hattempt].
Qed.

Lemma restore_entered (backend : option string) (app : App.application)
  (tr : list App.focus_event) :
  App.when (App.given backend) (App.set_backend_name (App.backend_name app))
    (App.entered app backend tr)
  = (Ok tt, App.mkFocusState (Some app) tr).
Proof.
  unfold App.when, App.entered. destruct (App.given backend); cbn.
  - rewrite application_eta. reflexivity.
  - reflexivity.
Qed.

Lemma loop_first_success (backend : option string) (app : App.application) (n : nat) :
  forall tr (r : nat),
    (1 <= r <= n)%nat ->
    attempt (Z.of_nat r) = None ->
    (forall r', Z.of_nat r < r' <= Z.of_nat n -> attempt r' <> None) ->
    App.set_focus_loop attempt n backend (App.backend_name app) (App.entered app backend tr)
    = (Ok (Z.of_nat r),
       App.mkFocusState (Some app)
         (tr ++ App.failed_attempts n (n - r) ++ [App.attempt_event (Z.of_nat r)])%list).
Proof.
  induction n as [|n IH]; intros tr r Hr Hok Hfail; [lia|].
  cbn [App.set_focus_loop]. unfold Py.pbind at 1.
  cbn [App.focus_emit App.entered App.utils_app App.focus_trace].
  destruct (decide (r = S n)) as [->|Hne].
  - rewrite Hok. unfold Py.pbind.
    pose proof (restore_entered backend app
                  (tr ++ [App.attempt_event (Z.of_nat (S n))])%list) as Hrestore.
    unfold App.entered in Hrestore. unfold App.attempt_event in Hrestore.
    rewrite Hrestore. unfold Py.ret.
    replace (S n - S n)%nat with 0%nat by lia. reflexivity.
  - destruct (attempt (Z.of_nat (S n))) as [e|] eqn:Hattempt.
    + unfold Py.pbind at 1. cbn [App.focus_emit App.utils_app App.focus_trace].
      etransitivity.
      { apply (IH ((tr ++ [App.attempt_event (Z.of_nat (S n))])
                   ++ [App.FocusSleep 5])%list r); [lia | exact Hok |].
        intros r' Hr'; apply Hfail; lia. }
      replace (S n - r)%nat with (S (n - r)) by lia.
      cbn [App.failed_attempts]. replace (S n - 1)%nat with n by lia.
      rewrite <- !app_assoc. reflexivity.
    + exfalso. apply (Hfail (Z.of_nat (S n))); [lia | exact Hattempt].
Qed.

Lemma first_success_none (n : nat) :
  App.first_success attempt n = None -> forall r, 1 <= r <= Z.of_nat n -> attempt r <> None.
Proof.
  induction n as [|n IH]; intros Hnone r Hr; [lia|].
  cbn [App.first_success] in Hnone.
  destruct (attempt (Z.of_nat (S n))) eqn:Hattempt; [|discriminate].
  destruct (decide (r = Z.of_nat (S n))) as [->|Hne]; [congruence|].
  apply IH; [exact Hnone | lia].
Qed.

Lemma first_success_some (n r : nat) :
  App.first_success attempt n = Some r ->
  (1 <= r <= n)%nat /\ attempt (Z.of_nat r) = None
  /\ forall r', Z.of_nat r < r' <= Z.of_nat n -> attempt r' <> None.
Proof.
  induction n as [|n IH]; intros Hsome; [discriminate|].
  cbn [App.first_success] in Hsome.
  destruct (attempt (Z.of_nat (S n))) eqn:Hattempt.
  - destruct (IH Hsome) as (Hr & Hok & Hfail). repeat split; [lia | lia | exact Hok |].
    intros r' Hr'. destruct (decide (r' = Z.of_nat (S n))) as [->|Hne]; [congruence|].
    apply Hfail. lia.
  - injection Hsome as <-. repeat split; [lia | lia | exact Hattempt |].
    intros r' Hr'. lia.
Qed.

Lemma failed_attempts_count (from k : nat) :
  length (List.filter App.is_attempt (App.failed_attempts from k)) = k.
Proof.
  revert from; induction k as [|k IH]; intros from; [reflexivity|].
  cbn [App.failed_attempts List.filter].
  assert (App.is_attempt (App.attempt_event (Z.of_nat from)) = true) as ->.
  { unfold App.attempt_event. destruct (_ =? _); reflexivity. }
  cbn. rewrite IH. reflexivity.
Qed.

Lemma set_focus_unfold (backend : option string) (app : App.application)
  (tr : list App.focus_event) :
  App.set_focus attempt backend App.default_retries (App.mkFocusState (Some app) tr)
  = match App.set_focus_loop attempt 20 backend (App.backend_name app)
            (App.entered app backend tr) with
    | (Ok retries, st) =>
        if retries <=? 0 then
          (App.when (App.given backend) (App.set_backend_name (App.backend_name app));;
           Py.raise (mkExn Exception "Failed to set focus")) st
        else (Ok tt, st)
    | (Raise e, st) => (Raise e, st)
    end.
Proof.
  unfold App.set_focus, App.default_retries, Py.pbind at 1.
  cbn [App.get_backend_name App.utils_app].
  unfold Py.pbind at 1.
  assert (App.when (App.given backend) (App.set_backend_name (default "" backend))
            (App.mkFocusState (Some app) tr)
          = (Ok tt, App.entered app backend tr)) as ->.
  { unfold App.when, App.entered. destruct (App.given backend); reflexivity. }
  unfold Py.pbind at 1. change (0 <? 20) with true. cbv iota.
  change (Z.to_nat 20) with 20%nat.
  destruct (App.set_focus_loop attempt 20 backend (App.backend_name app)
              (App.entered app backend tr)) as [[retries|e] st]; [|reflexivity].
  destruct (retries <=? 0); reflexivity.
Qed.

(** With the default of twenty retries, [set_focus]
    tries at most twenty times, sleeps five seconds after each attempt that
    fails, returns at the first attempt that completes, and raises exactly
    when all twenty fail; in both cases the name of the backend is the one
    it found. *)
Lemma set_focus_bounded (backend : option string) (app : App.application)
  (tr : list App.focus_event) :
  let run :=
    App.set_focus attempt backend App.default_retries (App.mkFocusState (Some app) tr) in
  ((forall r, 1 <= r <= 20 -> attempt r <> None) ->
   run = (Raise (mkExn Exception "Failed to set focus"),
          App.mkFocusState (Some app) (tr ++ App.failed_attempts 20 20)%list))
  /\ (forall r : nat,
        (1 <= r <= 20)%nat ->
        attempt (Z.of_nat r) = None ->
        (forall r', Z.of_nat r < r' <= 20 -> attempt r' <> None) ->
        run = (Ok tt,
               App.mkFocusState (Some app)
                 (tr ++ App.failed_attempts 20 (20 - r)
                     ++ [App.attempt_event (Z.of_nat r)])%list))
  /\ (exists new,
        snd run = App.mkFocusState (Some app) (tr ++ new)%list
        /\ (length (List.filter App.is_attempt new) <= 20)%nat)
  /\ (fst run = Raise (mkExn Exception "Failed to set focus")
      <-> forall r, 1 <= r <= 20 -> attempt r <> None)
  /\ (fst run = Ok tt \/ fst run = Raise (mkExn Exception "Failed to set focus")).
Proof.
  intros run.
  assert ((forall r, 1 <= r <= 20 -> attempt r <> None) ->
          run = (Raise (mkExn Exception "Failed to set focus"),
                 App.mkFocusState (Some app) (tr ++ App.failed_attempts 20 20)%list))
    as Hall.
  { intros Hfail. unfold run. rewrite set_focus_unfold.
    rewrite (loop_all_fail backend app 20 tr Hfail).
    change (0 <=? 0) with true. cbv iota. unfold Py.pbind.
    rewrite restore_entered. reflexivity. }
  assert (forall r : nat,
            (1 <= r <= 20)%nat ->
            attempt (Z.of_nat r) = None ->
            (forall r', Z.of_nat r < r' <= 20 -> attempt r' <> None) ->
            run = (Ok tt,
                   App.mkFocusState (Some app)
                     (tr ++ App.failed_attempts 20 (20 - r)
                         ++ [App.attempt_event (Z.of_nat r)])%list))
    as Hone.
  { intros r Hr Hok Hfail. unfold run. rewrite set_focus_unfold.
    rewrite (loop_first_success backend app 20 tr r Hr Hok Hfail).
    assert ((Z.of_nat r <=? 0) = false) as -> by lia. reflexivity. }
  split; [exact Hall|]. split; [exact Hone|].
  destruct (App.first_success attempt 20) as [r|] eqn:Hfirst.
  - apply first_success_some in Hfirst as (Hr & Hok & Hfail).
    rewrite (Hone r Hr Hok Hfail). cbn [fst snd]. split; [|split].
    + eexists. split; [reflexivity|].
      rewrite List.filter_app, length_app, failed_attempts_count.
      cbn [List.filter]. destruct (App.is_attempt _); cbn; lia.
    + split; [discriminate|]. intros Hfails. exfalso.
      apply (Hfails (Z.of_nat r)); [lia | exact Hok].
    + left. reflexivity.
  - pose proof (first_success_none 20 Hfirst) as Hfail.
    rewrite (Hall Hfail). cbn [fst snd]. split; [|split].
    + eexists. split; [reflexivity|]. rewrite failed_attempts_count. lia.
    + split; auto.
    + right. reflexivity.
Qed.

End SetFocusProps.

(** ** App.open_app *)

Section OpenAppProps.

Variable app_path : string.
Variable startfile : nat -> option exn.
Variable connect : nat -> result App.application.

Abbreviation open_loop := (App.open_loop app_path startfile connect).
Abbreviation attempt_fails := (App.attempt_fails startfile connect).

Lemma starts_app (a b : list App.open_event) :
  App.starts (a ++ b) = (App.starts a + App.starts b)%nat.
Proof. unfold App.starts. rewrite List.filter_app, length_app. reflexivity. Qed.

(** The loop never raises.  Either an attempt connects, none before it
    did, and [self.app] is the client it connected to; or every attempt
    fails and [self.app] is what it was. *)
Lemma open_loop_spec (left : nat) :
  forall (k : nat) (st : App.app_state),
    exists st',
      open_loop left k st = (Ok tt, st')
      /\ ((exists j app,
             (k <= j < k + left)%nat
             /\ (forall i, (k <= i < j)%nat -> attempt_fails i = true)
             /\ startfile j = None /\ connect j = Ok app
             /\ App.self_app st' = Some app
             /\ App.self_utils_app st' = Some app
             /\ App.starts (App.open_trace st')
                = (App.starts (App.open_trace st) + (j - k) + 1)%nat)
          \/ ((forall i, (k <= i < k + left)%nat -> attempt_fails i = true)
              /\ App.self_app st' = App.self_app st
              /\ App.self_utils_app st' = App.self_utils_app st
              /\ App.starts (App.open_trace st')
                 = (App.starts (App.open_trace st) + left)%nat)).
Proof.
  induction left as [|left IH]; intros k st.
  - exists st. split; [reflexivity|]. right.
    repeat split; try reflexivity; [intros i Hi; lia | lia].
  - cbn [App.open_loop]. unfold Py.pbind at 1. cbn [App.open_emit].
    set (st1 := App.mkAppState (App.self_app st) (App.self_utils_app st)
                  (App.open_trace st ++ [App.StartFile app_path])%list).
    assert (App.starts (App.open_trace st1) = (App.starts (App.open_trace st) + 1)%nat)
      as Hst1 by (unfold st1; cbn [App.open_trace]; rewrite starts_app; reflexivity).
    assert (forall err,
              attempt_fails k = true ->
              forall st2,
                App.self_app st2 = App.self_app st ->
                App.self_utils_app st2 = App.self_utils_app st ->
                App.starts (App.open_trace st2) = (App.starts (App.open_trace st) + 1)%nat ->
                exists st',
                  (App.recover err;; open_loop left (S k)) st2 = (Ok tt, st')
                  /\ ((exists j app,
                         (k <= j < k + S left)%nat
                         /\ (forall i, (k <= i < j)%nat -> attempt_fails i = true)
                         /\ startfile j = None /\ connect j = Ok app
                         /\ App.self_app st' = Some app
                         /\ App.self_utils_app st' = Some app
                         /\ App.starts (App.open_trace st')
                            = (App.starts (App.open_trace st) + (j - k) + 1)%nat)
                      \/ ((forall i, (k <= i < k + S left)%nat -> attempt_fails i = true)
                          /\ App.self_app st' = App.self_app st
                          /\ App.self_utils_app st' = App.self_utils_app st
                          /\ App.starts (App.open_trace st')
                             = (App.starts (App.open_trace st) + S left)%nat)))
      as Hrecover.
    { intros err Hk st2 Happ Hutils Hstarts.
      unfold Py.pbind at 1, App.recover, Py.pbind at 1. cbn [App.open_emit].
      match goal with |- context [open_loop left (S k) ?s] => set (st3 := s) end.
      assert (App.starts (App.open_trace st3) = (App.starts (App.open_trace st) + 1)%nat)
        as Hst3.
      { unfold st3. cbn [App.open_trace]. rewrite !starts_app. cbn. lia. }
      destruct (IH (S k) st3) as (st' & Hrun & Hcases).
      exists st'. split; [exact Hrun|].
      destruct Hcases as [(j & app & Hj & Hbefore & Hs & Hc & Ha & Hu & Hn)
                         |(Hall & Ha & Hu & Hn)].
      - left. exists j, app. repeat split; auto; try lia.
        intros i Hi. destruct (decide (i = k)) as [->|Hne]; [exact Hk|].
        apply Hbefore. lia.
      - right. repeat split.
        + intros i Hi. destruct (decide (i = k)) as [->|Hne]; [exact Hk|].
          apply Hall. lia.
        + rewrite Ha. unfold st3. cbn. exact Happ.
        + rewrite Hu. unfold st3. cbn. exact Hutils.
        + lia. }
    destruct (startfile k) as [err|] eqn:Hstart.
    + apply (Hrecover err); auto.
      unfold App.attempt_fails. rewrite Hstart. reflexivity.
    + unfold Py.pbind at 1. cbn [App.open_emit].
      unfold Py.pbind at 1. cbn [App.open_emit].
      destruct (connect k) as [app|err] eqn:Hconnect.
      * eexists. split; [reflexivity|]. left. exists k, app.
        cbn [App.self_app App.self_utils_app App.open_trace].
        repeat split; auto; try lia.
        rewrite !starts_app. unfold st1. cbn [App.open_trace].
        rewrite starts_app. cbn. lia.
      * apply (Hrecover err).
        -- unfold App.attempt_fails. rewrite Hstart, Hconnect. reflexivity.
        -- reflexivity.
        -- reflexivity.
        -- cbn [App.open_trace]. rewrite !starts_app. unfold st1.
           cbn [App.open_trace]. rewrite starts_app. cbn. lia.
Qed.

Lemma connects_not_fails (j : nat) (app : App.application) :
  startfile j = None -> connect j = Ok app -> attempt_fails j = false.
Proof. intros Hs Hc. unfold App.attempt_fails. rewrite Hs, Hc. reflexivity. Qed.

(** [open_app] starts the client at most ten times; it
    stops at the first attempt that connects, and it fails, by its
    assertion, only when all ten attempts failed. *)
Lemma open_app_bounded (st : App.app_state) :
  exists r st',
    App.open_app app_path startfile connect st = (r, st')
    /\ (App.starts (App.open_trace st') <= App.starts (App.open_trace st) + 10)%nat
    /\ (forall e,
          r = Raise e ->
          e = mkExn AssertionError "max_retries exceeded"
          /\ (forall i, (i < 10)%nat -> attempt_fails i = true)
          /\ App.starts (App.open_trace st') = (App.starts (App.open_trace st) + 10)%nat)
    /\ (forall j app,
          (j < 10)%nat ->
          (forall i, (i < j)%nat -> attempt_fails i = true) ->
          startfile j = None -> connect j = Ok app ->
          r = Ok tt
          /\ App.self_app st' = Some app /\ App.self_utils_app st' = Some app
          /\ App.starts (App.open_trace st') = (App.starts (App.open_trace st) + j + 1)%nat)
    /\ ((forall i, (i < 10)%nat -> attempt_fails i = true) ->
        App.self_app st = None ->
        r = Raise (mkExn AssertionError "max_retries exceeded")).
Proof.
  destruct (open_loop_spec 10 0 st) as (st1 & Hrun & Hcases).
  unfold App.open_app, Py.pbind. rewrite Hrun.
  destruct Hcases as [(j & app & Hj & Hbefore & Hs & Hc & Ha & Hu & Hn)
                     |(Hall & Ha & Hu & Hn)].
  - rewrite Ha. eexists _, _. split; [reflexivity|].
    cbn [App.open_trace App.self_app App.self_utils_app].
    split; [lia|]. split; [discriminate|]. split.
    + intros j' app' Hj' Hbefore' Hs' Hc'.
      assert (j' = j) as ->.
      { destruct (Nat.lt_trichotomy j' j) as [Hlt|[Heq|Hgt]]; [|exact Heq|].
        - specialize (Hbefore j' ltac:(lia)).
          rewrite (connects_not_fails j' app' Hs' Hc') in Hbefore. discriminate.
        - specialize (Hbefore' j Hgt).
          rewrite (connects_not_fails j app Hs Hc) in Hbefore'. discriminate. }
      rewrite Hc in Hc'. injection Hc' as <-.
      repeat split; auto. lia.
    + intros Hfails. specialize (Hfails j ltac:(lia)).
      rewrite (connects_not_fails j app Hs Hc) in Hfails. discriminate.
  - destruct (App.self_app st1) as [app1|] eqn:Happ1.
    + eexists _, _. split; [reflexivity|]. cbn [App.open_trace].
      split; [lia|]. split; [discriminate|]. split.
      * intros j app Hj _ Hs Hc. specialize (Hall j ltac:(lia)).
        rewrite (connects_not_fails j app Hs Hc) in Hall. discriminate.
      * intros _ Hnone. congruence.
    + eexists _, _. split; [reflexivity|].
      split; [lia|]. split; [|split].
      * intros e [= <-]. repeat split; auto.
        intros i Hi. apply Hall. lia.
      * intros j app Hj _ Hs Hc. specialize (Hall j ltac:(lia)).
        rewrite (connects_not_fails j app Hs Hc) in Hall. discriminate.
      * reflexivity.
Qed.

End OpenAppProps.

(** C5: the recovery from a failure of the user interface is a fixed
    number of retries with fixed sleeps.  [set_focus], with its default of
    twenty retries, tries at most twenty times, sleeps five seconds after
    each attempt that fails, and raises exactly when all twenty fail, with
    the name of the backend back to what it was; [open_app] starts the
    client at most ten times and fails only when all ten attempts failed. *)
Theorem retry_limits (attempt : Z -> option exn) (backend : option string)
  (app : App.application) (tr : list App.focus_event)
  (app_path : string) (startfile : nat -> option exn)
  (connect : nat -> result App.application) (st : App.app_state) :
  (let run :=
     App.set_focus attempt backend App.default_retries
       (App.mkFocusState (Some app) tr) in
   ((forall r, 1 <= r <= 20 -> attempt r <> None) ->
    run = (Raise (mkExn Exception "Failed to set focus"),
           App.mkFocusState (Some app) (tr ++ App.failed_attempts 20 20)%list))
   /\ (forall r : nat,
         (1 <= r <= 20)%nat ->
         attempt (Z.of_nat r) = None ->
         (forall r', Z.of_nat r < r' <= 20 -> attempt r' <> None) ->
         run = (Ok tt,
                App.mkFocusState (Some app)
                  (tr ++ App.failed_attempts 20 (20 - r)
                      ++ [App.attempt_event (Z.of_nat r)])%list))
   /\ (exists new,
         snd run = App.mkFocusState (Some app) (tr ++ new)%list
         /\ (length (List.filter App.is_attempt new) <= 20)%nat)
   /\ (fst run = Raise (mkExn Exception "Failed to set focus")
       <-> forall r, 1 <= r <= 20 -> attempt r <> None)
   /\ (fst run = Ok tt \/ fst run = Raise (mkExn Exception "Failed to set focus")))
  /\ (exists r st',
        App.open_app app_path startfile connect st = (r, st')
        /\ (App.starts (App.open_trace st') <= App.starts (App.open_trace st) + 10)%nat
        /\ (forall e,
              r = Raise e ->
              e = mkExn AssertionError "max_retries exceeded"
              /\ (forall i, (i < 10)%nat -> App.attempt_fails startfile connect i = true)
              /\ App.starts (App.open_trace st')
                 = (App.starts (App.open_trace st) + 10)%nat)
        /\ (forall j client,
              (j < 10)%nat ->
              (forall i, (i < j)%nat -> App.attempt_fails startfile connect i = true) ->
              startfile j = None -> connect j = Ok client ->
              r = Ok tt
              /\ App.self_app st' = Some client /\ App.self_utils_app st' = Some client
              /\ App.starts (App.open_trace st')
                 = (App.starts (App.open_trace st) + j + 1)%nat)
        /\ ((forall i, (i < 10)%nat -> App.attempt_fails startfile connect i = true) ->
            App.self_app st = None ->
            r = Raise (mkExn AssertionError "max_retries exceeded"))).
Proof.
  split.
  - apply set_focus_bounded.
  - apply open_app_bounded.
Qed.

(** The window takes the focus at the third attempt: two failures, two
    sleeps, and the backend that was overridden is back; it never does:
    twenty attempts and the exception.  The client comes up at the third
    attempt: three starts, and both references hold it; it never comes up:
    ten starts and the assertion. *)
Lemma retry_limits_examples :
  App.set_focus Samples.third_time (Some "win32") App.default_retries
    (App.mkFocusState (Some Samples.client) [])
  = (Ok tt,
     App.mkFocusState (Some Samples.client)
       [App.FocusWin32; App.FocusSleep 5; App.FocusUia; App.FocusSleep 5;
        App.FocusWin32])
  /\ fst (App.set_focus Samples.hopeless (Some "win32") App.default_retries
            (App.mkFocusState (Some Samples.client) []))
     = Raise (mkExn Exception "Failed to set focus")
  /\ (exists st',
        App.open_app "test_base.v8i" Samples.startfile_once_bad Samples.connect_third
          (App.mkAppState None None [])
        = (Ok tt, st')
        /\ App.self_app st' = Some Samples.client
        /\ App.self_utils_app st' = Some Samples.client
        /\ App.starts (App.open_trace st') = 3%nat)
  /\ (exists st',
        App.open_app "test_base.v8i" (fun _ => None) Samples.connect_never
          (App.mkAppState None None [])
        = (Raise (mkExn AssertionError "max_retries exceeded"), st')
        /\ App.starts (App.open_trace st') = 10%nat).
Proof.
  pose proof (retry_limits Samples.third_time (Some "win32") Samples.client []
                "test_base.v8i" Samples.startfile_once_bad Samples.connect_third
                (App.mkAppState None None [])) as [(_ & Hone & _) Hopen].
  pose proof (retry_limits Samples.hopeless (Some "win32") Samples.client []
                "test_base.v8i" (fun _ => None) Samples.connect_never
                (App.mkAppState None None [])) as [(_ & _ & _ & Hiff & _) Hnever].
  split; [|split; [|split]].
  - apply (Hone 18%nat); [lia | reflexivity |].
    intros r' Hr'. unfold Samples.third_time.
    assert ((18 <? r') = true) as -> by lia. discriminate.
  - apply Hiff. intros r _. discriminate.
  - destruct Hopen as (r & st' & Hrun & _ & _ & Hfirst & _).
    destruct (Hfirst 2%nat Samples.client) as (-> & Ha & Hu & Hn);
      [lia | | reflexivity | reflexivity |].
    + intros i Hi. destruct i as [|[|i]]; [reflexivity | reflexivity | lia].
    + exists st'. repeat split; assumption.
  - destruct Hnever as (r & st' & Hrun & _ & Hraise & _ & Hall).
    rewrite (Hall ltac:(intros i _; reflexivity) eq_refl) in Hrun, Hraise.
    exists st'. split; [exact Hrun|].
    destruct (Hraise _ eq_refl) as (_ & _ & Hn). exact Hn.
Defined.

(** ** DatabaseManager.prepare_tables *)

Section PrepareTablesProps.

Import DbManager.

Lemma execute_create (def : table_def) (db : db_state) :
  execute (CreateTable true def) db
  = (Ok [], mkDb (ensure def (tables db)) (journal_mode db) (db_log db)).
Proof.
  unfold execute, run, ensure.
  destruct (tables db !! t_name def); [destruct db|]; reflexivity.
Qed.

Lemma lookup_ensure (def : table_def) (m : gmap string table) (name : string) :
  ensure def m !! name
  = match m !! name with
    | Some t => Some t
    | None => if decide (t_name def = name) then Some (mkTable def []) else None
    end.
Proof.
  unfold ensure. destruct (decide (t_name def = name)) as [<-|Hne].
  - destruct (m !! t_name def) as [t|] eqn:Hm.
    + rewrite Hm. reflexivity.
    + rewrite lookup_insert_eq. reflexivity.
  - destruct (m !! t_name def) as [t|] eqn:Hm.
    + destruct (m !! name); reflexivity.
    + rewrite lookup_insert_ne by exact Hne. destruct (m !! name); reflexivity.
Qed.

Lemma prepare_tables_runs (db : db_state) :
  prepare_tables db
  = (Ok tt,
     mkDb (ensure errors (ensure macros (ensure interest_rates
             (ensure contracts (ensure banks (tables db))))))
       "WAL" (db_log db)).
Proof.
  unfold prepare_tables, prepare_statements. cbn [execute_all].
  unfold Py.pbind at 1. cbn [execute run].
  repeat (unfold Py.pbind at 1; rewrite execute_create;
          cbn [tables journal_mode db_log]).
  reflexivity.
Qed.

(** C6: [prepare_tables] runs, with [IF NOT EXISTS], the creation of the
    five tables [banks], [contracts], [interest_rates], [macros] and
    [errors] and of no other: a table that is there is left as it is, rows
    included, and one that is missing is created empty as declared.
    [contracts] refers to [banks] by [bank_id]; [interest_rates], [macros]
    and [errors] refer to [contracts] by [id].  Entering the context runs
    [prepare_tables] and nothing else. *)
Theorem prepare_tables_schema (db : db_state) :
  exists db',
    prepare_tables db = (Ok tt, db')
    /\ enter db = (Ok tt, db')
    /\ prepare_statements
       = Pragma "journal_mode" "WAL"
         :: map (CreateTable true) [banks; contracts; interest_rates; macros; errors]
    /\ map t_name (created prepare_statements)
       = ["banks"; "contracts"; "interest_rates"; "macros"; "errors"]
    /\ (forall name t, tables db !! name = Some t -> tables db' !! name = Some t)
    /\ (forall name,
          tables db !! name = None ->
          tables db' !! name
          = option_map (fun def => mkTable def [])
              (List.find (fun def => String.eqb (t_name def) name)
                 (created prepare_statements)))
    /\ (forall name,
          is_Some (tables db' !! name)
          <-> is_Some (tables db !! name)
              \/ In name ["banks"; "contracts"; "interest_rates"; "macros"; "errors"])
    /\ db_log db' = db_log db
    /\ t_foreign_keys banks = []
    /\ t_foreign_keys contracts = [mkForeignKey "bank_id" "banks" "bank_id"]
    /\ t_foreign_keys interest_rates = [mkForeignKey "id" "contracts" "id"]
    /\ t_foreign_keys macros = [mkForeignKey "id" "contracts" "id"]
    /\ t_foreign_keys errors = [mkForeignKey "id" "contracts" "id"].
Proof.
  eexists. split; [apply prepare_tables_runs|].
  split; [unfold enter, Py.pbind; rewrite prepare_tables_runs; reflexivity|].
  split; [reflexivity|]. split; [reflexivity|].
  cbn [tables db_log].
  assert (forall name,
            ensure errors (ensure macros (ensure interest_rates
              (ensure contracts (ensure banks (tables db))))) !! name
            = match tables db !! name with
              | Some t => Some t
              | None =>
                  option_map (fun def => mkTable def [])
                    (List.find (fun def => String.eqb (t_name def) name)
                       (created prepare_statements))
              end) as Hlookup.
  { intros name. rewrite !lookup_ensure.
    destruct (tables db !! name) as [t|]; [reflexivity|].
    cbn [created prepare_statements omap list_omap List.find t_name banks contracts
           interest_rates macros errors].
    repeat match goal with
      | |- context [decide (?a = name)] =>
          destruct (decide (a = name)) as [<-|?];
          [reflexivity | rewrite (proj2 (String.eqb_neq a name)) by assumption]
      end.
    reflexivity. }
  split; [intros name t Ht; rewrite Hlookup, Ht; reflexivity|].
  split; [intros name Hnone; rewrite Hlookup, Hnone; reflexivity|].
  split; [|repeat split; reflexivity].
  intros name. rewrite Hlookup.
  destruct (tables db !! name) as [t|] eqn:Ht.
  - split; [intros _; left; eauto | intros _; eauto].
  - cbn [created prepare_statements omap list_omap List.find t_name banks contracts
           interest_rates macros errors].
    split.
    + intros Hsome. right.
      repeat match goal with
        | H : context [String.eqb ?a name] |- _ =>
            destruct (String.eqb_spec a name) as [<-|?]; [cbn; tauto|]
        end.
      destruct Hsome as [? [=]].
    + intros [[? [=]]|Hin]. cbn in Hin.
      destruct Hin as [<-|[<-|[<-|[<-|[<-|[]]]]]]; cbn; eauto.
Qed.

End PrepareTablesProps.

(** A bank that is there stays, with its row; a table that is missing is
    created empty; no sixth table appears. *)
Lemma prepare_tables_example :
  exists db',
    DbManager.prepare_tables Samples.bank_db = (Ok tt, db')
    /\ DbManager.tables db' !! "banks"
       = Some (DbManager.mkTable DbManager.banks [[VStr "b-1"; VStr "Bank"; VInt 7]])
    /\ DbManager.tables db' !! "errors"
       = Some (DbManager.mkTable DbManager.errors [])
    /\ DbManager.tables db' !! "orders" = None.
Proof.
  destruct (prepare_tables_schema Samples.bank_db)
    as (db' & Hrun & _ & _ & _ & Hkeep & Hnew & _).
  exists db'. split; [exact Hrun|]. split; [|split].
  - apply Hkeep. apply lookup_singleton_eq.
  - rewrite Hnew by (apply lookup_singleton_ne; discriminate). reflexivity.
  - rewrite Hnew by (apply lookup_singleton_ne; discriminate). reflexivity.
Defined.

(** ** send_mail *)

Section SendMailProps.

Import Notification.

Variable read_file : path -> result string.
Variable make_archive : string -> path -> result path.
Variable move : path -> path -> option exn.
Variable formatdate : string.
Variable smtp_connect : string -> Z -> option exn.
Variable smtp_sendmail :
  string -> list string -> message -> result (list (string * string)).
Variable smtp_quit_ok : bool.

Abbreviation session := (smtp_session smtp_connect smtp_sendmail smtp_quit_ok).
Abbreviation send :=
  (send_mail read_file make_archive move formatdate smtp_connect smtp_sendmail
     smtp_quit_ok).

Lemma on_smtp_error_caught (job : Job) (e : exn) (tr : list mail_event) :
  caught_by e SMTPException = true ->
  fst (on_smtp_error job e tr) = Ok false.
Proof. intros H. unfold on_smtp_error. rewrite H. reflexivity. Qed.

Lemma on_smtp_error_not_true (job : Job) (e : exn) (tr : list mail_event) :
  fst (on_smtp_error job e tr) <> Ok true.
Proof.
  unfold on_smtp_error. destruct (caught_by e SMTPException); cbn; discriminate.
Qed.

Lemma log_refused_ok (refused : list (string * string)) :
  forall tr, fst (log_refused refused tr) = Ok tt.
Proof.
  induction refused as [|[recipient error] rest IH]; intros tr; [reflexivity|].
  cbn [log_refused]. unfold Py.pbind, Py.emit. apply IH.
Qed.

(** What the block of the [with] statement is about to return. *)
Lemma send_and_report_outcome (job : Job) (to_addrs : list string) (msg : message)
  (tr : list mail_event) :
  fst (send_and_report smtp_sendmail job to_addrs msg tr)
  = match smtp_sendmail (sender (mail_info job)) to_addrs msg with
    | Ok [] => Ok true
    | Ok (_ :: _) => Ok false
    | Raise e => Raise e
    end.
Proof.
  unfold send_and_report, Py.pbind at 1, Py.emit, Py.pbind at 1, Py.lift.
  destruct (smtp_sendmail (sender (mail_info job)) to_addrs msg) as [[|r rest]|e];
    try reflexivity.
  unfold Py.pbind at 1, Py.pbind at 1.
  match goal with |- context [log_refused ?l ?t] =>
    pose proof (log_refused_ok l t) as Hlog;
    destruct (log_refused l t) as [[[]|e] tr'] end;
    cbn in Hlog; [reflexivity | discriminate].
Qed.

Lemma response_exception_caught :
  caught_by (mkExn SMTPResponseException "QUIT") SMTPException = true.
Proof. reflexivity. Qed.

(** What the [try] statement returns. *)
Lemma session_result (job : Job) (to_addrs : list string) (msg : message)
  (tr : list mail_event) :
  let from_addr := sender (mail_info job) in
  let host := server (mail_info job) in
  let r := fst (session job to_addrs msg tr) in
  (r = Ok true
   <-> smtp_connect host 25 = None
       /\ smtp_sendmail from_addr to_addrs msg = Ok []
       /\ smtp_quit_ok = true)
  /\ (forall refusal others,
        smtp_connect host 25 = None ->
        smtp_sendmail from_addr to_addrs msg = Ok (refusal :: others) ->
        r = Ok false)
  /\ (forall e,
        smtp_connect host 25 = Some e -> caught_by e SMTPException = true ->
        r = Ok false)
  /\ (forall e,
        smtp_connect host 25 = None ->
        smtp_sendmail from_addr to_addrs msg = Raise e ->
        caught_by e SMTPException = true ->
        r = Ok false)
  /\ (smtp_connect host 25 = None -> smtp_quit_ok = false -> r = Ok false).
Proof.
  intros from_addr host r. subst r. unfold smtp_session. fold host.
  destruct (smtp_connect host 25) as [e0|] eqn:Hconnect.
  - split; [|repeat split; try discriminate].
    + split; [|intros [[=] _]].
      intros Htrue. exfalso. eapply on_smtp_error_not_true, Htrue.
    + intros e [= <-] Hcaught. apply on_smtp_error_caught, Hcaught.
  - pose proof (send_and_report_outcome job to_addrs msg
                  (tr ++ [SmtpConnect host 25])%list) as Houtcome.
    fold from_addr in Houtcome.
    destruct (send_and_report smtp_sendmail job to_addrs msg
                (tr ++ [SmtpConnect host 25])%list) as [outcome tr2].
    cbn [fst] in Houtcome. subst outcome.
    destruct smtp_quit_ok.
    + destruct (smtp_sendmail from_addr to_addrs msg) as [[|refusal others]|e];
        cbn [fst].
      * repeat split; auto; try discriminate.
      * repeat split; try discriminate. intros [_ [[=] _]].
      * split; [|repeat split; try discriminate].
        -- split; [|intros [_ [[=] _]]].
           intros Htrue. exfalso. eapply on_smtp_error_not_true, Htrue.
        -- intros e' _ [= <-] Hcaught. apply on_smtp_error_caught, Hcaught.
    + assert (fst (on_smtp_error job (mkExn SMTPResponseException "QUIT")
                     (tr2 ++ [SmtpQuit])%list) = Ok false) as Hquit
        by (apply on_smtp_error_caught, response_exception_caught).
      rewrite Hquit. repeat split; auto; try discriminate.
      intros [_ [_ [=]]].
Qed.

(** C7: with [is_empty] false the message handed to the server carries
    the report, then the zip archive made of the screenshot folder, then
    the text; with [is_empty] true it carries the text alone and no file
    is read.  The result is [True] exactly when the connection is made, the
    server refuses no recipient and nothing raises; it is [False], with
    nothing raised, when a recipient is refused and when an
    [SMTPException] is raised. *)
Theorem send_mail_outcome (job : Job) (tr : list mail_event) :
  let info := mail_info job in
  let to_addrs := recipients_list (recipients info) in
  let with_parts :=
    mkMessage (sender info) (recipients info) formatdate (subject info) in
  let archive_base := "screenshots_" ++ Data.short (range_end (t_range job)) in
  let archive_name := archive_base ++ ".zip" in
  let archive_path := path_join (screenshot_folder info) archive_name in
  (exists body,
     send job true tr
     = session job to_addrs (with_parts [TextPart body "html" "utf-8"])
         (tr ++ [MailInfo ("body=" ++ body)])%list)
  /\ (forall report original zip,
        read_file (report_path info) = Ok report ->
        make_archive archive_base (screenshot_folder info) = Ok original ->
        move original archive_path = None ->
        read_file archive_path = Ok zip ->
        exists body,
          send job false tr
          = session job to_addrs
              (with_parts
                 [Attachment (path_name (report_path info)) report;
                  Attachment archive_name zip;
                  TextPart body "html" "utf-8"])
              (tr ++ [ReadFile (report_path info);
                      MakeArchive archive_base (screenshot_folder info);
                      Move original archive_path;
                      ReadFile archive_path;
                      MailInfo ("body=" ++ body)])%list)
  /\ (forall recipients_lst msg tr0,
        let r := fst (session job recipients_lst msg tr0) in
        (r = Ok true
         <-> smtp_connect (server info) 25 = None
             /\ smtp_sendmail (sender info) recipients_lst msg = Ok []
             /\ smtp_quit_ok = true)
        /\ (forall refusal others,
              smtp_connect (server info) 25 = None ->
              smtp_sendmail (sender info) recipients_lst msg = Ok (refusal :: others) ->
              r = Ok false)
        /\ (forall e,
              smtp_connect (server info) 25 = Some e ->
              caught_by e SMTPException = true ->
              r = Ok false)
        /\ (forall e,
              smtp_connect (server info) 25 = None ->
              smtp_sendmail (sender info) recipients_lst msg = Raise e ->
              caught_by e SMTPException = true ->
              r = Ok false)
        /\ (smtp_connect (server info) 25 = None -> smtp_quit_ok = false ->
            r = Ok false)).
Proof.
  intros info to_addrs with_parts archive_base archive_name archive_path.
  split; [|split].
  - eexists. unfold send_mail. fold info. unfold Py.pbind, Py.ret, Py.emit.
    cbn [fst snd]. reflexivity.
  - intros report original zip Hreport Harchive Hmove Hzip.
    eexists. unfold send_mail. fold info.
    unfold attach_file, Py.pbind, Py.ret, Py.emit, Py.lift.
    rewrite Hreport. fold archive_base. rewrite Harchive.
    fold archive_name. fold archive_path. rewrite Hmove.
    cbn [Str.is_empty archive_name append]. rewrite Hzip.
    cbn [fst snd]. rewrite <- !app_assoc. reflexivity.
  - intros recipients_lst msg tr0. apply session_result.
Qed.

End SendMailProps.

(** The report and the screenshots go out and both recipients take them:
    [True].  The auditor is refused: [False].  Nothing to report: the text
    alone goes out. *)
Lemma send_mail_examples :
  fst (Notification.send_mail Samples.files Samples.zip_in_cwd Samples.moves
         "Fri, 14 Mar 2025" Samples.reachable Samples.accepts_all true
         Samples.trips false [])
  = Ok true
  /\ fst (Notification.send_mail Samples.files Samples.zip_in_cwd Samples.moves
            "Fri, 14 Mar 2025" Samples.reachable Samples.refuses_audit true
            Samples.trips false [])
     = Ok false
  /\ (exists body tr,
        Notification.send_mail Samples.files Samples.zip_in_cwd Samples.moves
          "Fri, 14 Mar 2025" Samples.reachable Samples.accepts_all true
          Samples.trips true []
        = (Ok true, tr)
        /\ In (Notification.Sendmail "robot@bank.kz" ["hr@bank.kz"; "audit@bank.kz"]
                 (Notification.mkMessage "robot@bank.kz" "hr@bank.kz;;audit@bank.kz"
                    "Fri, 14 Mar 2025" "Business trips"
                    [Notification.TextPart body "html" "utf-8"])) tr).
Proof.
  split; [|split].
  - destruct (send_mail_outcome Samples.files Samples.zip_in_cwd Samples.moves
                "Fri, 14 Mar 2025" Samples.reachable Samples.accepts_all true
                Samples.trips []) as (_ & Hfull & Hsession).
    destruct (Hfull "REPORT" "/cwd/screenshots_14.03.25.zip" "ZIP"
                eq_refl eq_refl eq_refl eq_refl) as [body ->].
    apply Hsession. repeat split.
  - destruct (send_mail_outcome Samples.files Samples.zip_in_cwd Samples.moves
                "Fri, 14 Mar 2025" Samples.reachable Samples.refuses_audit true
                Samples.trips []) as (_ & Hfull & Hsession).
    destruct (Hfull "REPORT" "/cwd/screenshots_14.03.25.zip" "ZIP"
                eq_refl eq_refl eq_refl eq_refl) as [body ->].
    match goal with
    | |- fst (Notification.smtp_session _ _ _ _ ?to ?msg ?tr0) = _ =>
        destruct (Hsession to msg tr0) as (_ & Hrefused & _)
    end.
    eapply Hrefused; reflexivity.
  - destruct (send_mail_outcome Samples.files Samples.zip_in_cwd Samples.moves
                "Fri, 14 Mar 2025" Samples.reachable Samples.accepts_all true
                Samples.trips []) as ([body Hsend] & _ & _).
    exists body. eexists. rewrite Hsend. split.
    + vm_compute. reflexivity.
    + vm_compute. tauto.
Defined.

(** ** handle_error *)

Section HandleErrorProps.

Import Notification.

Variable post : request -> result response.
Variable grab : result image.
Variable developer : option string.
Variable format_exc : exn -> string.

Abbreviation wrapped := (handle_error post grab developer format_exc).

Lemma string_app_assoc (a b c : string) : (a ++ b) ++ c = a ++ b ++ c.
Proof.
  induction a as [|x a IH]; [reflexivity|].
  change (String x ((a ++ b) ++ c) = String x (a ++ b ++ c)). f_equal. exact IH.
Qed.

(** A screenshot sent with a caption: the request is posted first, with
    the caption ending in the message, whatever comes of it. *)
Lemma send_message_photo (bot : TelegramAPI) (text : string) (shot : image)
  (st st2 : net_state) (sent : bool) :
  send_message post bot (Some text) (Some shot) true false st = (Ok sent, st2) ->
  exists prefix rest,
    net_trace st2
    = (net_trace st
       ++ Posted (mkRequest (api_url bot ++ "sendPhoto")%string
                    [("chat_id", Some (chat_id bot));
                     ("caption", Some (prefix ++ text)%string)]
                    (Some shot) true)
       :: rest)%list.
Proof.
  unfold send_message, Py.pbind at 1, get_pending.
  unfold Py.pbind at 1, Py.lift.
  destruct (all_str (pending_messages st)) as [items|]; [|discriminate].
  set (caption := if Str.is_empty (join newline items) then Some text
                  else Some (join newline items ++ newline ++ format_message (Some text))).
  assert (exists prefix, caption = Some (prefix ++ text)) as [prefix Hcaption].
  { unfold caption. destruct (Str.is_empty (join newline items)).
    - exists EmptyString. reflexivity.
    - exists (join newline items ++ newline). cbn [format_message default].
      rewrite string_app_assoc. reflexivity. }
  rewrite Hcaption. cbn [app].
  set (req := mkRequest _ _ _ _).
  unfold Py.pbind at 1, net_emit. cbn [pending_messages net_trace].
  intros Hrun. exists prefix.
  assert (forall status err st1 r st3,
            on_send_error status (Some (prefix ++ text)) err st1 = (r, st3) ->
            exists more, net_trace st3 = (net_trace st1 ++ more)%list) as Herr.
  { intros status err st1 r st3. unfold on_send_error.
    destruct (caught_by err SSLError || caught_by err HTTPError).
    - unfold Py.pbind, get_pending, set_pending, net_emit, Py.ret.
      destruct (status =? 429); intros [= <- <-]; cbn; eexists; reflexivity.
    - intros [= <- <-]. exists []. rewrite app_nil_r. reflexivity. }
  destruct (post req) as [resp|err].
  - destruct (json resp) as [body|err].
    + unfold Py.pbind at 1, net_emit in Hrun. cbn [pending_messages net_trace] in Hrun.
      unfold Py.pbind at 1, net_emit in Hrun. cbn [pending_messages net_trace] in Hrun.
      destruct (is_error_status (status_code resp)).
      * apply Herr in Hrun as [more Hmore]. cbn [net_trace] in Hmore.
        rewrite Hmore, <- !app_assoc. eexists. reflexivity.
      * destruct (status_code resp =? 200).
        -- unfold Py.pbind, set_pending, Py.ret in Hrun. injection Hrun as <- <-.
           cbn [net_trace]. rewrite <- !app_assoc. eexists. reflexivity.
        -- injection Hrun as <- <-. cbn [net_trace].
           rewrite <- !app_assoc. eexists. reflexivity.
    + apply Herr in Hrun as [more Hmore]. cbn [net_trace] in Hmore.
      rewrite Hmore, <- !app_assoc. eexists. reflexivity.
  - apply Herr in Hrun as [more Hmore]. cbn [net_trace] in Hmore.
    rewrite Hmore, <- !app_assoc. eexists. reflexivity.
Qed.

(** C1, as the code has it: a result of the wrapped call is returned as
    it is.  A [KeyboardInterrupt] is raised again at once, with nothing
    logged and nothing sent.  Any other exception is logged; without a bot it
    is then raised again; with a bot the screen is captured and posted with
    the traceback as the end of its caption, and when that notification
    returns the exception is raised again. *)
Theorem handle_error_spec {A : Type} (func : prog net_state A)
  (bot : option TelegramAPI) (st st' : net_state) :
  (forall returned,
     func st = (Ok returned, st') -> wrapped func bot st = (Ok returned, st'))
  /\ (forall error,
        func st = (Raise error, st') ->
        caught_by error KeyboardInterrupt = true ->
        wrapped func bot st = (Raise error, st'))
  /\ (forall error,
        func st = (Raise error, st') ->
        caught_by error KeyboardInterrupt = false ->
        (bot = None ->
         wrapped func bot st
         = (Raise error,
            mkNetState (pending_messages st')
              (net_trace st' ++ [LogException error])%list))
        /\ (forall target shot sent st2,
              bot = Some target ->
              grab = Ok shot ->
              send_message post target
                (Some (mention developer (format_exc error))) (Some shot) true false
                (mkNetState (pending_messages st')
                   (net_trace st' ++ [LogException error; Grabbed])%list)
              = (Ok sent, st2) ->
              wrapped func bot st = (Raise error, st2)
              /\ exists prefix rest,
                   net_trace st2
                   = (net_trace st'
                      ++ LogException error :: Grabbed
                      :: Posted
                           (mkRequest (api_url target ++ "sendPhoto")%string
                              [("chat_id", Some (chat_id target));
                               ("caption",
                                Some (prefix ++ mention developer (format_exc error))%string)]
                              (Some shot) true)
                      :: rest)%list)).
Proof.
  split; [|split].
  - intros returned Hrun. unfold handle_error. rewrite Hrun. reflexivity.
  - intros error Hrun Hki. unfold handle_error. rewrite Hrun, Hki. reflexivity.
  - intros error Hrun Hki. split.
    + intros ->. unfold handle_error. rewrite Hrun, Hki. reflexivity.
    + intros target shot sent st2 -> Hgrab Hsend.
      split.
      * unfold handle_error. rewrite Hrun, Hki.
        unfold Py.pbind at 1, net_emit. cbn [pending_messages net_trace].
        unfold Py.pbind at 1, net_emit. cbn [pending_messages net_trace].
        unfold Py.pbind at 1, Py.lift. rewrite Hgrab.
        unfold Py.pbind at 1. rewrite <- app_assoc. cbn [app].
        rewrite Hsend. reflexivity.
      * apply send_message_photo in Hsend as (prefix & rest & Htrace).
        exists prefix, rest. rewrite Htrace. cbn [net_trace].
        rewrite <- app_assoc. reflexivity.
Qed.

End HandleErrorProps.

(** A failure with a bot at hand and a server that answers: logged, the
    screen posted, and the failure raised again.  A [KeyboardInterrupt]:
    raised again and nothing else. *)
Lemma handle_error_examples :
  (exists st2 prefix rest,
     Notification.handle_error Samples.answers_ok (Ok "PIXELS") (Some "dev")
       Samples.traceback_of (Py.raise (A := unit) Samples.failure)
       (Some Samples.bot) Samples.quiet
     = (Raise Samples.failure, st2)
     /\ Notification.net_trace st2
        = Notification.LogException Samples.failure :: Notification.Grabbed
          :: Notification.Posted
               (Notification.mkRequest "https://api.telegram.org/botTOKEN/sendPhoto"
                  [("chat_id", Some "-100200300");
                   ("caption", Some (prefix ++ "@dev Traceback: bad cell"))]
                  (Some "PIXELS") true)
          :: rest)
  /\ Notification.handle_error Samples.answers_ok (Ok "PIXELS") (Some "dev")
       Samples.traceback_of (Py.raise (A := unit) Samples.interrupt)
       (Some Samples.bot) Samples.quiet
     = (Raise Samples.interrupt, Samples.quiet).
Proof.
  split.
  - destruct (handle_error_spec Samples.answers_ok (Ok "PIXELS") (Some "dev")
                Samples.traceback_of (Py.raise (A := unit) Samples.failure)
                (Some Samples.bot) Samples.quiet Samples.quiet)
      as (_ & _ & Hother).
    destruct (Hother Samples.failure eq_refl eq_refl) as [_ Hbot].
    destruct (Notification.send_message Samples.answers_ok Samples.bot
                (Some (Notification.mention (Some "dev")
                         (Samples.traceback_of Samples.failure)))
                (Some "PIXELS") true false
                (Notification.mkNetState []
                   [Notification.LogException Samples.failure; Notification.Grabbed]))
      as [r st2] eqn:Hsend.
    assert (r = Ok true) as -> by (vm_compute in Hsend; congruence).
    destruct (Hbot Samples.bot "PIXELS" true st2 eq_refl eq_refl Hsend)
      as [Hrun (prefix & rest & Htrace)].
    exists st2, prefix, rest. split; [exact Hrun | exact Htrace].
  - destruct (handle_error_spec Samples.answers_ok (Ok "PIXELS") (Some "dev")
                Samples.traceback_of (Py.raise (A := unit) Samples.interrupt)
                (Some Samples.bot) Samples.quiet Samples.quiet)
      as (_ & Hki & _).
    apply Hki; reflexivity.
Defined.

(** As C1 is stated, every exception is logged and, with a bot, reported,
    and the exception that was raised reaches the caller in every case.  A
    [KeyboardInterrupt] is neither logged nor reported; and with the network
    down, it is the error of the notification that reaches the caller, not
    the failure that was being reported. *)
Lemma handle_error_counterexample :
  (let run :=
     Notification.handle_error Samples.answers_ok (Ok "PIXELS") None
       Samples.traceback_of (Py.raise (A := unit) Samples.interrupt)
       (Some Samples.bot) Samples.quiet in
   fst run = Raise Samples.interrupt
   /\ ~ In (Notification.LogException Samples.interrupt)
          (Notification.net_trace (snd run))
   /\ Notification.net_trace (snd run) = [])
  /\ (let run :=
        Notification.handle_error Samples.network_down (Ok "PIXELS") None
          Samples.traceback_of (Py.raise (A := unit) Samples.failure)
          (Some Samples.bot) Samples.quiet in
      fst run = Raise (mkExn RequestsConnectionError "connection refused")
      /\ fst run <> Raise Samples.failure).
Proof.
  split.
  - cbv zeta. vm_compute. repeat split. intros [].
  - cbv zeta. vm_compute. split; [reflexivity | discriminate].
Qed.

(** * Further properties of the embedded code *)

(** ** iso_to_standard on short texts *)

Lemma get_none_iff (s : string) (i : nat) :
  String.get i s = None <-> (String.length s <= i)%nat.
Proof.
  revert i; induction s as [|c rest IH]; intros i; cbn.
  - split; [lia | reflexivity].
  - destruct i as [|i]; [split; [discriminate | lia]|].
    rewrite IH. lia.
Qed.



(** ** InterestRate.load on rows it cannot take *)

(** [InterestRate.load] raises [IndexError] for a contract that has no
    row, and [TypeError] for a contract whose row holds [NULL] in one of the
    nine rate columns.  An exception raised while the database is read
    reaches the caller as it is, logged once when it is an [sqlite3.Error] and
    not logged otherwise.  [load] raises nothing else, and logs nothing
    else. *)
Theorem interest_rate_load_errors (interest_rates : result (list Main.row))
  (contract : string) (log : list Main.db_log_record) :
  (forall table,
     interest_rates = Ok table ->
     List.filter (Main.id_is contract) table = [] ->
     Main.InterestRate_load interest_rates contract log
     = (Raise (mkExn IndexError "list index out of range"), log))
  /\ (forall table r others column,
        interest_rates = Ok table ->
        List.filter (Main.id_is contract) table = r :: others ->
        In column Main.rate_columns ->
        r column = VNone ->
        exists e,
          Main.InterestRate_load interest_rates contract log = (Raise e, log)
          /\ exn_class e = TypeError)
  /\ (forall err,
        interest_rates = Raise err ->
        Main.InterestRate_load interest_rates contract log
        = (Raise err,
           if caught_by err SqliteIntegrityError then
             (log ++ [Main.LoggedQuery contract])%list
           else if caught_by err SqliteError then
             (log ++ [Main.LoggedDatabaseError err])%list
           else log))
  /\ (forall e log',
        Main.InterestRate_load interest_rates contract log = (Raise e, log') ->
        (interest_rates = Raise e)
        \/ (log' = log /\ (exn_class e = IndexError \/ exn_class e = TypeError))).
Proof.
  split; [|split; [|split]].
  - intros table -> Hnone.
    unfold Main.InterestRate_load, Py.pbind, Main.db_execute, Main.select_rates.
    rewrite Hnone. reflexivity.
  - intros table r others column -> Hrows Hin Hnull.
    apply (load_null_rate table contract r others log column Hrows Hin Hnull).
  - intros err ->. unfold Main.InterestRate_load, Py.pbind, Main.db_execute.
    destruct (caught_by err SqliteIntegrityError); [reflexivity|].
    destruct (caught_by err SqliteError); reflexivity.
  - intros e log'. destruct interest_rates as [table|err].
    + destruct (List.filter (Main.id_is contract) table) as [|r others] eqn:Hrows.
      * unfold Main.InterestRate_load, Py.pbind, Main.db_execute, Main.select_rates.
        rewrite Hrows. intros [= <- <-]. right. split; [reflexivity|]. left. reflexivity.
      * rewrite (load_first_row _ _ _ _ _ Hrows).
        cbn [map Main.load_columns Main.InterestRate_new]. intros [= Hraise <-].
        right. split; [reflexivity|]. right.
        eapply post_init_raises_type_error, Hraise.
    + unfold Main.InterestRate_load, Py.pbind, Main.db_execute.
      destruct (caught_by err SqliteIntegrityError);
        [|destruct (caught_by err SqliteError)]; intros [= <- _]; left; reflexivity.
Qed.

(** No row for the contract; a row with a rate that is [NULL]; and a
    database that is locked, which [load] reports as the engine does, with one
    line in the log. *)
Lemma interest_rate_load_errors_examples :
  Main.InterestRate_load (Ok [Samples.rate_row]) "c-9" []
  = (Raise (mkExn IndexError "list index out of range"), [])
  /\ (exists e,
        Main.InterestRate_load (Ok [MoreSamples.null_rate_row]) "c-1" [] = (Raise e, [])
        /\ exn_class e = TypeError)
  /\ Main.InterestRate_load (Raise MoreSamples.database_locked) "c-1" []
     = (Raise MoreSamples.database_locked,
        [Main.LoggedDatabaseError MoreSamples.database_locked]).
Proof.
  split; [|split].
  - apply (proj1 (interest_rate_load_errors (Ok [Samples.rate_row]) "c-9" [])
             [Samples.rate_row] eq_refl).
    reflexivity.
  - apply (proj1 (proj2 (interest_rate_load_errors (Ok [MoreSamples.null_rate_row])
                           "c-1" []))
             [MoreSamples.null_rate_row] MoreSamples.null_rate_row [] "nominal_rate");
      [reflexivity | reflexivity | cbn; tauto | reflexivity].
  - apply (proj1 (proj2 (proj2 (interest_rate_load_errors
                                  (Raise MoreSamples.database_locked) "c-1" [])))
             MoreSamples.database_locked eq_refl).
Defined.

(** ** convert_date applied again, and on a field that is not there *)

(** A field that [convert_date] has converted is left alone by a second
    conversion, whatever the format; and a field the object does not have
    makes it raise [AttributeError], with nothing logged. *)
Theorem convert_date_again (strptime : string -> string -> result datetime)
  (describe : Data.field_value -> string)
  (obj : gmap string Data.field_value) (field date_format : string)
  (log : list string) :
  (forall obj' log' other_format,
     Data.convert_date strptime describe obj field date_format log = (Ok obj', log') ->
     Data.convert_date strptime describe obj' field other_format log' = (Ok obj', log')
     /\ log' = log)
  /\ (obj !! field = None ->
      exists e,
        Data.convert_date strptime describe obj field date_format log = (Raise e, log)
        /\ exn_class e = AttributeError).
Proof.
  split.
  - intros obj' log' other_format Hrun.
    apply convert_date_ok in Hrun as [-> [(v & d & _ & _ & Hd) _]].
    split; [|reflexivity]. unfold Data.convert_date. rewrite Hd. reflexivity.
  - intros Hnone. unfold Data.convert_date. rewrite Hnone.
    eexists. split; reflexivity.
Qed.

(** The text of a date is parsed once; the field that is missing is
    reported. *)
Lemma convert_date_again_examples :
  (exists made,
     Data.convert_date Samples.strptime Samples.describe
       {["withdraw_date" := Data.FPlain (VStr "14.03.25")]} "withdraw_date" "%d.%m.%y" []
     = (Ok made, [])
     /\ Data.convert_date Samples.strptime Samples.describe made
          "withdraw_date" "%Y-%m-%d" []
        = (Ok made, []))
  /\ (exists e,
        Data.convert_date Samples.strptime Samples.describe
          {["withdraw_date" := Data.FPlain (VStr "14.03.25")]} "firing_date" "%d.%m.%y" []
        = (Raise e, [])
        /\ exn_class e = AttributeError).
Proof.
  split.
  - assert (Data.convert_date Samples.strptime Samples.describe
              {["withdraw_date" := Data.FPlain (VStr "14.03.25")]}
              "withdraw_date" "%d.%m.%y" []
            = (Ok (<["withdraw_date" :=
                       Data.FDate (Data.to_date (mkDatetime 2025 3 14 0 0 0))]>
                     {["withdraw_date" := Data.FPlain (VStr "14.03.25")]}), []))
      as Hmade by (vm_compute; reflexivity).
    eexists. split; [exact Hmade|].
    apply (proj1 (convert_date_again Samples.strptime Samples.describe
                    {["withdraw_date" := Data.FPlain (VStr "14.03.25")]}
                    "withdraw_date" "%d.%m.%y" []) _ _ "%Y-%m-%d" Hmade).
  - apply (proj2 (convert_date_again Samples.strptime Samples.describe
                    {["withdraw_date" := Data.FPlain (VStr "14.03.25")]}
                    "firing_date" "%d.%m.%y" [])).
    apply lookup_singleton_ne. discriminate.
Defined.

(** ** AppUtils.set_focus for any number of retries *)

(** [set_focus] called with a number of retries that is not positive tries
    nothing and raises at once; called with [n > 0] retries it tries [n]
    times when every attempt fails, and then raises; called while no
    application is connected it raises [AttributeError] before any attempt.
    The name of the backend is left as it was. *)
Theorem set_focus_any_retries (attempt : Z -> option exn) (backend : option string)
  (app : App.application) (tr : list App.focus_event) :
  (forall retries,
     retries <= 0 ->
     App.set_focus attempt backend retries (App.mkFocusState (Some app) tr)
     = (Raise (mkExn Exception "Failed to set focus"), App.mkFocusState (Some app) tr))
  /\ (forall n : nat,
        (0 < n)%nat ->
        (forall r, 1 <= r <= Z.of_nat n -> attempt r <> None) ->
        App.set_focus attempt backend (Z.of_nat n) (App.mkFocusState (Some app) tr)
        = (Raise (mkExn Exception "Failed to set focus"),
           App.mkFocusState (Some app) (tr ++ App.failed_attempts n n)%list)
        /\ length (List.filter App.is_attempt (App.failed_attempts n n)) = n)
  /\ (forall retries,
        exists e,
          App.set_focus attempt backend retries (App.mkFocusState None tr)
          = (Raise e, App.mkFocusState None tr)
          /\ exn_class e = AttributeError).
Proof.
  assert (App.when (App.given backend) (App.set_backend_name (default "" backend))
            (App.mkFocusState (Some app) tr)
          = (Ok tt, App.entered app backend tr)) as Henter.
  { unfold App.when, App.entered. destruct (App.given backend); reflexivity. }
  split; [|split].
  - intros retries Hle. unfold App.set_focus, Py.pbind at 1.
    cbn [App.get_backend_name App.utils_app]. unfold Py.pbind at 1. rewrite Henter.
    unfold Py.pbind at 1.
    assert ((0 <? retries) = false) as -> by lia. unfold Py.ret at 1.
    assert ((retries <=? 0) = true) as -> by lia.
    unfold Py.pbind. rewrite restore_entered. reflexivity.
  - intros n Hn Hfail. split; [|apply failed_attempts_count].
    unfold App.set_focus, Py.pbind at 1.
    cbn [App.get_backend_name App.utils_app]. unfold Py.pbind at 1. rewrite Henter.
    unfold Py.pbind at 1.
    assert ((0 <? Z.of_nat n) = true) as -> by lia.
    rewrite Nat2Z.id. rewrite (loop_all_fail attempt backend app n tr Hfail).
    change (0 <=? 0) with true. cbv iota. unfold Py.pbind.
    rewrite restore_entered. reflexivity.
  - intros retries. eexists. split; reflexivity.
Qed.

(** No retry allowed: the window is not even asked.  Three retries, all
    in vain: three attempts. *)
Lemma set_focus_any_retries_examples :
  App.set_focus Samples.third_time (Some "win32") 0
    (App.mkFocusState (Some Samples.client) [])
  = (Raise (mkExn Exception "Failed to set focus"),
     App.mkFocusState (Some Samples.client) [])
  /\ App.set_focus Samples.hopeless None 3 (App.mkFocusState (Some Samples.client) [])
     = (Raise (mkExn Exception "Failed to set focus"),
        App.mkFocusState (Some Samples.client)
          [App.FocusUia; App.FocusSleep 5; App.FocusWin32; App.FocusSleep 5;
           App.FocusUia; App.FocusSleep 5]).
Proof.
  split.
  - apply (proj1 (set_focus_any_retries Samples.third_time (Some "win32")
                    Samples.client [])). lia.
  - apply (proj1 (proj2 (set_focus_any_retries Samples.hopeless None
                           Samples.client []))
             3%nat); [lia | intros r _; discriminate].
Defined.

(** ** App.open_app with a client at hand *)

(** When all ten attempts fail but the [App] holds a client from before,
    the assertion passes: [open_app] returns, after ten starts, with that
    client still in place. *)
Theorem open_app_keeps_old_client (app_path : string) (startfile : nat -> option exn)
  (connect : nat -> result App.application) (st : App.app_state)
  (old : App.application) :
  App.self_app st = Some old ->
  (forall i, (i < 10)%nat -> App.attempt_fails startfile connect i = true) ->
  exists tr,
    App.open_app app_path startfile connect st
    = (Ok tt, App.mkAppState (Some old) (Some old) tr)
    /\ App.starts tr = (App.starts (App.open_trace st) + 10)%nat.
Proof.
  intros Hold Hfail.
  destruct (open_loop_spec app_path startfile connect 10 0 st)
    as (st1 & Hrun & Hcases).
  unfold App.open_app, Py.pbind. rewrite Hrun.
  destruct Hcases as [(j & app & Hj & _ & Hs & Hc & _)|(_ & Ha & _ & Hn)].
  - specialize (Hfail j ltac:(lia)).
    rewrite (connects_not_fails startfile connect j app Hs Hc) in Hfail. discriminate.
  - rewrite Ha, Hold. eexists. split; [reflexivity | exact Hn].
Qed.

(** A reload that cannot bring the client up keeps the dead one. *)
Lemma open_app_keeps_old_client_example :
  exists tr,
    App.open_app "test_base.v8i" (fun _ => None) Samples.connect_never
      (App.mkAppState (Some Samples.client) (Some Samples.client) [])
    = (Ok tt, App.mkAppState (Some Samples.client) (Some Samples.client) tr)
    /\ App.starts tr = 10%nat.
Proof.
  apply (open_app_keeps_old_client "test_base.v8i" (fun _ => None)
           Samples.connect_never
           (App.mkAppState (Some Samples.client) (Some Samples.client) [])
           Samples.client eq_refl).
  intros i _. reflexivity.
Defined.

(** ** How late wait_for returns *)

Section WaitForBound.

Local Open Scope Q_scope.

Context {W : Type}.
Variable time : W -> Q.
Variable sleep : Q -> W -> W.
Variable condition : prog W bool.
Variable timeout interval cost slack : Q.

(** A poll takes at most [cost] and does not turn the clock back; a sleep
    takes at least the time asked for and at most [slack] more. *)
Hypothesis poll_cost : forall w, time (snd (condition w)) <= time w + cost.
Hypothesis poll_monotone : forall w, time w <= time (snd (condition w)).
Hypothesis sleep_advances : forall d w, 0 <= d -> time w + d <= time (sleep d w).
Hypothesis sleep_slack : forall d w, time (sleep d w) <= time w + d + slack.
Hypothesis timeout_nonneg : 0 <= timeout.
Hypothesis interval_pos : 0 < interval.
Hypothesis interval_sleepable : Automation.sleepable interval = true.
Hypothesis slack_nonneg : 0 <= slack.

Lemma wait_loop_bound (start : Q) (fuel : nat) :
  forall w r w' tr,
    time w - start <= timeout + interval + slack ->
    Automation.wait_loop time sleep condition fuel start (Automation.Finite timeout)
      (Automation.Finite interval) w
    = Some (r, w', tr) ->
    time w' - start <= timeout + interval + slack + cost.
Proof.
  induction fuel as [|fuel IH]; intros w r w' tr Hinv; [discriminate|].
  cbn [Automation.wait_loop Automation.exceeds]. pose proof (poll_cost w) as Hcost.
  destruct (condition w) as [[[|]|e] w1]; cbn [snd] in Hcost.
  - intros [= <- <- <-]. lra.
  - destruct (negb (Qle_bool (time w1 - start) timeout)) eqn:Hex.
    + intros [= <- <- <-]. lra.
    + assert (time w1 - start <= timeout) as Hwithin.
      { apply negb_false_iff, Qle_bool_iff in Hex. exact Hex. }
      rewrite (py_sleep_interval sleep interval interval_pos interval_sleepable).
      pose proof (sleep_slack interval w1) as Hslept.
      destruct (Automation.wait_loop time sleep condition fuel start
                  (Automation.Finite timeout) (Automation.Finite interval)
                  (sleep interval w1)) as [[[r2 w2] tr2]|] eqn:Hrun;
        [|discriminate].
      intros [= <- <- <-]. eapply IH; [|exact Hrun]. lra.
  - intros [= <- <- <-]. lra.
Qed.

(** [wait_for] returns or raises, and whatever it does, it is done no
    later than the timeout, one interval, the slack of one sleep and the
    cost of one poll after it was called. *)
Theorem wait_for_overshoot (w : W) :
  exists r w' tr,
    (forall extra,
       Automation.wait_for time sleep condition
         (Automation.polls_needed timeout interval + extra)
         (Automation.Finite timeout) (Automation.Finite interval) w
       = Some (r, w', tr))
    /\ time w' - time w <= timeout + interval + slack + cost.
Proof.
  destruct (wait_for_run time sleep condition sleep_advances poll_monotone
              timeout interval timeout_nonneg interval_pos interval_sleepable w)
    as (k & last & w' & _ & _ & _ & Hrun).
  assert (exists r tr,
            forall extra,
              Automation.wait_for time sleep condition
                (Automation.polls_needed timeout interval + extra)
                (Automation.Finite timeout) (Automation.Finite interval) w
              = Some (r, w', tr)) as (r & tr & Hends).
  { destruct last as [found|e].
    - destruct Hrun as [_ Hrun]. eexists _, _. exact Hrun.
    - eexists _, _. exact Hrun. }
  exists r, w', tr. split; [exact Hends|].
  specialize (Hends 0%nat). unfold Automation.wait_for in Hends.
  eapply (wait_loop_bound (time w)); [|exact Hends]; lra.
Qed.

End WaitForBound.

(** A wait of one second, polled every half second, for a condition that
    never holds, with sleeps a millisecond too long: it returns [False]
    within 1.511 seconds. *)
Lemma wait_for_overshoot_example :
  exists w' tr,
    Automation.wait_for Samples.clock_time MoreSamples.oversleep Samples.never
      (Automation.polls_needed 1 (1 # 2)) (Automation.Finite 1)
      (Automation.Finite (1 # 2)) 0%Q
    = Some (Ok false, w', tr)
    /\ (w' - 0 <= 1 + (1 # 2) + (1 # 1000) + (1 # 100))%Q.
Proof.
  destruct (wait_for_overshoot Samples.clock_time MoreSamples.oversleep Samples.never
              1 (1 # 2) (1 # 100) (1 # 1000)
              ltac:(intros w; unfold Samples.clock_time, Samples.never; cbn [snd]; lra)
              ltac:(intros w; unfold Samples.clock_time, Samples.never; cbn [snd]; lra)
              ltac:(intros d w _; unfold Samples.clock_time, MoreSamples.oversleep; lra)
              ltac:(intros d w; unfold Samples.clock_time, MoreSamples.oversleep; lra)
              ltac:(lra) ltac:(lra) eq_refl ltac:(lra) 0%Q)
    as (r & w' & tr & Hends & Hlate).
  specialize (Hends 0%nat). rewrite Nat.add_0_r in Hends.
  assert (exists q trace,
            Automation.wait_for Samples.clock_time MoreSamples.oversleep Samples.never
              (Automation.polls_needed 1 (1 # 2)) (Automation.Finite 1)
              (Automation.Finite (1 # 2)) 0%Q
            = Some (Ok false, q, trace)) as (q & trace & Hq)
    by (eexists _, _; vm_compute; reflexivity).
  rewrite Hq in Hends. injection Hends as <- <- <-.
  exists q, trace. split; [exact Hq | exact Hlate].
Defined.

(** ** TelegramAPI.send_message: what it returns and what it queues *)

Section SendMessageProps.

Import Notification.

Variable post : request -> result response.

Lemma on_send_error_cases (status : Z) (message : option string) (err : exn)
  (st : net_state) :
  (caught_by err SSLError || caught_by err HTTPError = true ->
   on_send_error status message err st
   = (Ok false,
      mkNetState
        (if status =? 429 then (pending_messages st ++ [message])%list
         else pending_messages st)
        (net_trace st ++ [LogException err])%list))
  /\ (caught_by err SSLError || caught_by err HTTPError = false ->
      on_send_error status message err st = (Raise err, st)).
Proof.
  unfold on_send_error. split; intros ->; [|reflexivity].
  unfold Py.pbind, get_pending, set_pending, net_emit, Py.ret.
  destruct (status =? 429); cbn; [reflexivity|]. destruct st; reflexivity.
Qed.

(** [send_message] returns [True] only for an answer with status 200, and
    then the queue of pending messages is empty; an exception that leaves it
    is neither an [SSLError] nor an [HTTPError]; and when it returns [False]
    the queue is what it was, or what it was with one message more. *)
Theorem send_message_outcome (bot : TelegramAPI) (message : option string)
  (media : option image) (use_session use_md : bool) (st st' : net_state)
  (r : result bool) :
  send_message post bot message media use_session use_md st = (r, st') ->
  (r = Ok true ->
   pending_messages st' = []
   /\ exists req resp body,
        In (Posted req) (net_trace st')
        /\ post req = Ok resp /\ status_code resp = 200 /\ json resp = Ok body)
  /\ (r = Ok false ->
      pending_messages st' = pending_messages st
      \/ exists queued, pending_messages st' = (pending_messages st ++ [queued])%list)
  /\ (forall e,
        r = Raise e -> caught_by e SSLError = false /\ caught_by e HTTPError = false).
Proof.
  unfold send_message, Py.pbind at 1, get_pending.
  unfold Py.pbind at 1, Py.lift.
  destruct (all_str (pending_messages st)) as [items|].
  2:{ intros [= <- <-]. split; [discriminate|]. split; [discriminate|].
      intros e [= <-]. split; reflexivity. }
  set (text := if Str.is_empty (join newline items) then message else _).
  set (req := match media with None => _ | Some shot => _ end).
  unfold Py.pbind at 1, net_emit. cbn [pending_messages net_trace].
  set (st1 := mkNetState (pending_messages st) (net_trace st ++ [Posted req])%list).
  assert (forall status err,
            on_send_error status text err st1 = (r, st') ->
            (r = Ok true -> False)
            /\ (r = Ok false ->
                pending_messages st' = pending_messages st
                \/ exists queued,
                     pending_messages st' = (pending_messages st ++ [queued])%list)
            /\ (forall e, r = Raise e ->
                  caught_by e SSLError = false /\ caught_by e HTTPError = false))
    as Herr.
  { intros status err Hrun.
    destruct (on_send_error_cases status text err st1) as [Hcaught Hpass].
    destruct (caught_by err SSLError || caught_by err HTTPError) eqn:Hc.
    - rewrite (Hcaught eq_refl) in Hrun. injection Hrun as <- <-.
      split; [discriminate|]. split; [|discriminate].
      intros _. cbn [pending_messages]. destruct (status =? 429); eauto.
    - rewrite (Hpass eq_refl) in Hrun. injection Hrun as <- <-.
      split; [discriminate|]. split; [discriminate|].
      intros e [= <-]. apply orb_false_iff in Hc. tauto. }
  destruct (post req) as [resp|err] eqn:Hpost.
  - destruct (json resp) as [body|err] eqn:Hjson.
    + unfold Py.pbind at 1, net_emit. cbn [pending_messages net_trace].
      unfold Py.pbind at 1, net_emit. cbn [pending_messages net_trace].
      destruct (is_error_status (status_code resp)) eqn:Hstatus.
      * intros Hrun. pose proof Hrun as Hrun'. unfold on_send_error in Hrun'.
        change (caught_by {| exn_class := HTTPError; exn_msg := _ |} SSLError
                || caught_by {| exn_class := HTTPError; exn_msg := _ |} HTTPError)
          with true in Hrun'.
        cbv iota in Hrun'.
        unfold Py.pbind, get_pending, set_pending, net_emit, Py.ret in Hrun'.
        destruct (status_code resp =? 429); cbn in Hrun';
          injection Hrun' as <- <-;
          (split; [discriminate|]; split; [|discriminate]);
          intros _; cbn [pending_messages]; eauto.
      * destruct (status_code resp =? 200) eqn:H200.
        -- unfold Py.pbind, set_pending, Py.ret. intros [= <- <-].
           split; [|split; discriminate].
           intros _. split; [reflexivity|]. exists req, resp, body. cbn [net_trace].
           split; [rewrite !in_app_iff; cbn; tauto|].
           split; [exact Hpost|]. split; [lia | exact Hjson].
        -- intros [= <- <-]. split; [discriminate|]. split; [|discriminate].
           intros _. left. reflexivity.
    + intros Hrun. apply Herr in Hrun as (Ht & Hf & He).
      split; [intros H; destruct (Ht H)|]. split; assumption.
  - intros Hrun. apply Herr in Hrun as (Ht & Hf & He).
    split; [intros H; destruct (Ht H)|]. split; assumption.
Qed.

End SendMessageProps.

(** A message that is taken leaves the queue empty. *)
Lemma send_message_outcome_example :
  exists st',
    Notification.send_message Samples.answers_ok Samples.bot (Some "hello") None
      true false (Notification.mkNetState [Some "held back"] [])
    = (Ok true, st')
    /\ Notification.pending_messages st' = [].
Proof.
  eexists. split; [vm_compute; reflexivity|].
  eapply (send_message_outcome Samples.answers_ok Samples.bot (Some "hello") None
            true false (Notification.mkNetState [Some "held back"] []) _ (Ok true));
    [vm_compute; reflexivity | reflexivity].
Defined.

Section SendMessageQueue.

Import Notification.

Variable post : request -> result response.

(** A message refused with status 429 is put in the queue, and the next
    message goes out behind it, on one request; when that one is taken the
    queue is empty again. *)
Theorem send_message_queue (bot : TelegramAPI) (first second : string)
  (use_session : bool) (st : net_state) (busy taken : response)
  (body1 body2 : string) :
  let text_request text :=
    mkRequest (api_url bot ++ "sendMessage")
      [("chat_id", Some (chat_id bot)); ("text", Some text)] None use_session in
  pending_messages st = [] ->
  first <> EmptyString ->
  post (text_request first) = Ok busy ->
  status_code busy = 429 -> json busy = Ok body1 ->
  post (text_request (first ++ newline ++ second)) = Ok taken ->
  status_code taken = 200 -> json taken = Ok body2 ->
  exists st1 st2,
    send_message post bot (Some first) None use_session false st = (Ok false, st1)
    /\ pending_messages st1 = [Some first]
    /\ send_message post bot (Some second) None use_session false st1 = (Ok true, st2)
    /\ pending_messages st2 = []
    /\ In (Posted (text_request (first ++ newline ++ second))) (net_trace st2).
Proof.
  intros text_request Hempty Hfirst Hbusy H429 Hjson1 Htaken H200 Hjson2.
  assert (Str.is_empty first = false) as Hne
    by (destruct first; [contradiction | reflexivity]).
  eexists _, _. split; [|split; [|split; [|split]]].
  - unfold send_message, Py.pbind at 1, get_pending. rewrite Hempty.
    unfold Py.pbind at 1, Py.lift. cbn [all_str join Str.is_empty app].
    unfold Py.pbind at 1, net_emit. cbn [pending_messages net_trace].
    fold (text_request first). rewrite Hbusy, Hjson1.
    unfold Py.pbind at 1, net_emit. cbn [pending_messages net_trace].
    unfold Py.pbind at 1, net_emit. cbn [pending_messages net_trace].
    rewrite H429. change (is_error_status 429) with true. cbv iota.
    unfold on_send_error.
    change (caught_by {| exn_class := HTTPError; exn_msg := _ |} SSLError
            || caught_by {| exn_class := HTTPError; exn_msg := _ |} HTTPError)
      with true.
    cbv iota. unfold Py.pbind, get_pending, set_pending, net_emit, Py.ret.
    change (429 =? 429) with true. cbn. reflexivity.
  - cbn [pending_messages]. rewrite Hempty. reflexivity.
  - unfold send_message, Py.pbind at 1, get_pending. cbn [pending_messages].
    rewrite Hempty.
    unfold Py.pbind at 1, Py.lift. cbn [all_str option_map join app].
    rewrite Hne. cbn [format_message default from_option]. unfold id.
    unfold Py.pbind at 1, net_emit. cbn [pending_messages net_trace].
    fold (text_request (first ++ newline ++ second)). rewrite Htaken, Hjson2.
    unfold Py.pbind at 1, net_emit. cbn [pending_messages net_trace].
    unfold Py.pbind at 1, net_emit. cbn [pending_messages net_trace].
    rewrite H200. change (is_error_status 200) with false. cbv iota.
    change (200 =? 200) with true. cbv iota.
    unfold Py.pbind, set_pending, Py.ret. reflexivity.
  - reflexivity.
  - cbn [net_trace]. rewrite !in_app_iff. cbn. tauto.
Qed.

End SendMessageQueue.

(** The server is busy for the first message and takes the second with
    the first in front of it. *)
Lemma send_message_queue_example :
  exists st1 st2,
    Notification.send_message MoreSamples.busy_for_first Samples.bot (Some "first")
      None true false Samples.quiet
    = (Ok false, st1)
    /\ Notification.pending_messages st1 = [Some "first"]
    /\ Notification.send_message MoreSamples.busy_for_first Samples.bot (Some "second")
         None true false st1
       = (Ok true, st2)
    /\ Notification.pending_messages st2 = []
    /\ In (Notification.Posted
             (Notification.mkRequest "https://api.telegram.org/botTOKEN/sendMessage"
                [("chat_id", Some "-100200300");
                 ("text", Some ("first" ++ Notification.newline ++ "second"))]
                None true))
         (Notification.net_trace st2).
Proof.
  apply (send_message_queue MoreSamples.busy_for_first Samples.bot "first" "second"
           true Samples.quiet (Notification.mkResponse 429 (Ok "{}"))
           (Notification.mkResponse 200 (Ok "{}")) "{}" "{}");
    solve [reflexivity | discriminate].
Defined.

(** ** send_with_retry *)

(** [send_with_retry] hands its session flag to [send_message] as the
    picture to send: the call raises before anything is posted, with an
    [AttributeError] when the pending messages are texts, and the loop does
    not catch it.  Nothing is sent, nothing is retried. *)
Theorem send_with_retry_never_sends (post : Notification.request -> result Notification.response)
  (bot : Notification.TelegramAPI) (message : string) (st : Retry.retry_state) :
  exists e,
    Retry.send_with_retry post bot message st = (Raise e, st)
    /\ (exn_class e = AttributeError \/ exn_class e = TypeError)
    /\ (Notification.all_str (Notification.pending_messages (Retry.net st)) <> None ->
        exn_class e = AttributeError).
Proof.
  unfold Retry.send_with_retry. cbn [Retry.retry_loop].
  unfold Retry.on_net, Retry.send_message_any, Py.pbind, Notification.get_pending,
    Py.lift, Py.raise.
  destruct (Notification.all_str (Notification.pending_messages (Retry.net st)))
    as [items|]; cbn.
  - eexists. split; [destruct st as [[p t] n w]; reflexivity|].
    split; [left; reflexivity | reflexivity].
  - eexists. split; [destruct st as [[p t] n w]; reflexivity|].
    split; [right; reflexivity | congruence].
Qed.

(** ** Splitting and joining *)

Lemma split_not_nil (sep : ascii) (s : string) : Str.split sep s <> [].
Proof.
  induction s as [|c rest IH]; cbn; [discriminate|].
  destruct (Ascii.eqb c sep); [discriminate|].
  destruct (Str.split sep rest); [contradiction | discriminate].
Qed.

Lemma split_no_sep (sep : ascii) (s : string) :
  Forall (fun piece => Text.has_char sep piece = false) (Str.split sep s).
Proof.
  induction s as [|c rest IH]; cbn.
  - repeat constructor.
  - destruct (Ascii.eqb c sep) eqn:Hc.
    + constructor; [reflexivity | exact IH].
    + destruct (Str.split sep rest) as [|piece pieces] eqn:Hsplit.
      * repeat constructor. cbn. rewrite Hc. reflexivity.
      * apply List.Forall_cons_iff in IH as [Hpiece Hpieces].
        constructor; [|exact Hpieces]. cbn. rewrite Hc, Hpiece. reflexivity.
Qed.

Lemma split_sep_free (sep : ascii) (s : string) :
  Text.has_char sep s = false -> Str.split sep s = [s].
Proof.
  induction s as [|c rest IH]; cbn; [reflexivity|].
  intros Hfree. apply orb_false_iff in Hfree as [Hc Hrest].
  rewrite Hc, (IH Hrest). reflexivity.
Qed.

Lemma split_app (sep : ascii) (a b : string) :
  Str.split sep (a ++ String sep b) = (Str.split sep a ++ Str.split sep b)%list.
Proof.
  induction a as [|c rest IH].
  - change ("" ++ String sep b) with (String sep b).
    cbn [Str.split app]. rewrite Ascii.eqb_refl. reflexivity.
  - change (String c rest ++ String sep b) with (String c (rest ++ String sep b)).
    cbn [Str.split]. rewrite IH.
    destruct (Ascii.eqb c sep); [reflexivity|].
    pose proof (split_not_nil sep rest) as Hne.
    destruct (Str.split sep rest) as [|piece pieces]; [contradiction|]. reflexivity.
Qed.

Lemma join_cons (sep item : string) (items : list string) :
  items <> [] ->
  Notification.join sep (item :: items) = item ++ sep ++ Notification.join sep items.
Proof. destruct items; [contradiction | reflexivity]. Qed.

Lemma string_app_nil_r (s : string) : s ++ "" = s.
Proof.
  induction s as [|c rest IH]; [reflexivity|].
  change (String c (rest ++ "") = String c rest). f_equal. exact IH.
Qed.

Lemma string_app_assoc' (a b c : string) : (a ++ b) ++ c = a ++ b ++ c.
Proof.
  induction a as [|x a IH]; [reflexivity|].
  change (String x ((a ++ b) ++ c) = String x (a ++ b ++ c)). f_equal. exact IH.
Qed.

(** Joining the pieces of a text with the separator gives the text back. *)
Lemma join_split (sep : ascii) (s : string) :
  Notification.join (String sep EmptyString) (Str.split sep s) = s.
Proof.
  induction s as [|c rest IH]; [reflexivity|].
  cbn [Str.split]. pose proof (split_not_nil sep rest) as Hne.
  destruct (Ascii.eqb_spec c sep) as [->|Hc].
  - rewrite join_cons by exact Hne. rewrite IH. reflexivity.
  - destruct (Str.split sep rest) as [|piece pieces]; [contradiction|].
    destruct pieces as [|next pieces].
    + cbn in IH. cbn. rewrite IH. reflexivity.
    + rewrite join_cons in IH by discriminate.
      rewrite join_cons by discriminate.
      change (String c piece ++ String sep "" ++ Notification.join (String sep "") (next :: pieces))
        with (String c (piece ++ String sep "" ++ Notification.join (String sep "") (next :: pieces))).
      rewrite IH. reflexivity.
Qed.

(** Splitting what was joined gives the pieces back, when there is one at
    least and none holds the separator. *)
Lemma split_join (sep : ascii) (items : list string) :
  items <> [] ->
  Forall (fun piece => Text.has_char sep piece = false) items ->
  Str.split sep (Notification.join (String sep EmptyString) items) = items.
Proof.
  induction items as [|item rest IH]; [contradiction|].
  intros _ Hfree. apply List.Forall_cons_iff in Hfree as [Hitem Hrest].
  destruct rest as [|next rest].
  - cbn. apply split_sep_free, Hitem.
  - rewrite join_cons by discriminate.
    change (item ++ String sep "" ++ Notification.join (String sep "") (next :: rest))
      with (item ++ String sep (Notification.join (String sep "") (next :: rest))).
    rewrite split_app, (split_sep_free sep item Hitem).
    rewrite IH by (auto; discriminate). reflexivity.
Qed.

(** ** The recipients of send_mail *)

Lemma filter_nonempty_id (items : list string) :
  Forall (fun r => r <> EmptyString) items ->
  List.filter (fun r => negb (Str.is_empty r)) items = items.
Proof.
  induction 1 as [|r rest Hr _ IH]; [reflexivity|].
  cbn. destruct r; [contradiction|]. cbn. rewrite IH. reflexivity.
Qed.

(** The list of recipients [send_mail] passes on holds no empty address
    and no address with a semicolon in it; it is [[]] for the empty text and
    the text itself for a single address; and it is a normal form: joining it
    with semicolons and reading it again changes nothing. *)
Theorem recipients_list_spec (recipients : string) :
  Forall (fun r => r <> EmptyString /\ Text.has_char ";" r = false)
    (Notification.recipients_list recipients)
  /\ Notification.recipients_list
       (Notification.join ";" (Notification.recipients_list recipients))
     = Notification.recipients_list recipients
  /\ (recipients <> EmptyString -> Text.has_char ";" recipients = false ->
      Notification.recipients_list recipients = [recipients])
  /\ Notification.recipients_list "" = [].
Proof.
  assert (Forall (fun r => r <> EmptyString /\ Text.has_char ";" r = false)
            (Notification.recipients_list recipients)) as Hall.
  { unfold Notification.recipients_list. apply List.Forall_forall.
    intros r Hin. apply List.filter_In in Hin as [Hin Hne].
    pose proof (split_no_sep Str.semicolon recipients) as Hfree.
    rewrite List.Forall_forall in Hfree. split; [|apply Hfree, Hin].
    destruct r; [discriminate | discriminate]. }
  split; [exact Hall|]. split; [|split].
  - destruct (Notification.recipients_list recipients) as [|r rest] eqn:Hlist;
      [reflexivity|].
    unfold Notification.recipients_list at 1.
    change (String ";" "") with (String Str.semicolon "").
    rewrite split_join.
    + apply filter_nonempty_id. eapply List.Forall_impl; [|exact Hall].
      intros a [Ha _]. exact Ha.
    + discriminate.
    + eapply List.Forall_impl; [|exact Hall]. intros a [_ Ha]. exact Ha.
  - intros Hne Hfree. unfold Notification.recipients_list.
    rewrite (split_sep_free Str.semicolon recipients Hfree). cbn.
    destruct recipients; [contradiction | reflexivity].
  - reflexivity.
Qed.

(** Two addresses with an empty piece between them and one at the end. *)
Lemma recipients_list_example :
  Notification.recipients_list "hr@bank.kz;;audit@bank.kz;"
  = ["hr@bank.kz"; "audit@bank.kz"]
  /\ Notification.recipients_list "hr@bank.kz" = ["hr@bank.kz"].
Proof.
  split; [reflexivity|].
  apply (proj1 (proj2 (proj2 (recipients_list_spec "hr@bank.kz"))));
    [discriminate | reflexivity].
Defined.

(** ** attach_file *)

Lemma path_name_join (folder name : string) :
  Text.has_char Notification.slash name = false ->
  Notification.path_name (Notification.path_join folder name) = name.
Proof.
  intros Hfree. unfold Notification.path_name, Notification.path_join.
  change (folder ++ "/" ++ name) with (folder ++ String Notification.slash name).
  rewrite split_app, (split_sep_free _ name Hfree).
  apply List.last_last.
Qed.

(** [attach_file] reads the file once and puts one attachment at the end
    of the message, under the name given, or, when no name or an empty one
    is given, under the last component of the path; when the file cannot be
    read, the error goes to the caller. *)
Theorem attach_file_spec (read_file : Notification.path -> result string)
  (msg : Notification.message) (file_path : Notification.path)
  (file_name : option string) (tr : list Notification.mail_event) :
  (forall content,
     read_file file_path = Ok content ->
     exists name,
       Notification.attach_file read_file msg file_path file_name tr
       = (Ok (Notification.mkMessage (Notification.msg_from msg)
                (Notification.msg_to msg) (Notification.msg_date msg)
                (Notification.msg_subject msg)
                (Notification.msg_parts msg ++ [Notification.Attachment name content])%list),
          (tr ++ [Notification.ReadFile file_path])%list)
       /\ (forall given, file_name = Some given -> given <> EmptyString -> name = given)
       /\ (file_name = None \/ file_name = Some EmptyString ->
           forall folder last,
             file_path = Notification.path_join folder last ->
             Text.has_char Notification.slash last = false ->
             name = last))
  /\ (forall e,
        read_file file_path = Raise e ->
        Notification.attach_file read_file msg file_path file_name tr
        = (Raise e, (tr ++ [Notification.ReadFile file_path])%list)).
Proof.
  split.
  - intros content Hread. eexists. split; [|split].
    + unfold Notification.attach_file, Py.pbind, Py.emit, Py.lift, Py.ret.
      rewrite Hread. reflexivity.
    + intros given -> Hne. destruct given; [contradiction | reflexivity].
    + intros Hnone folder last -> Hfree.
      destruct Hnone as [->| ->]; cbn; apply path_name_join, Hfree.
  - intros e Hread.
    unfold Notification.attach_file, Py.pbind, Py.emit, Py.lift.
    rewrite Hread. reflexivity.
Qed.

(** The report is attached under its file name. *)
Lemma attach_file_example :
  Notification.attach_file Samples.files
    (Notification.mkMessage "a" "b" "c" "d" []) "reports/trips.xlsx" None []
  = (Ok (Notification.mkMessage "a" "b" "c" "d"
           [Notification.Attachment "trips.xlsx" "REPORT"]),
     [Notification.ReadFile "reports/trips.xlsx"]).
Proof.
  destruct (proj1 (attach_file_spec Samples.files
                     (Notification.mkMessage "a" "b" "c" "d" [])
                     "reports/trips.xlsx" None []) "REPORT" eq_refl)
    as (name & Hrun & _ & Hlast).
  rewrite (Hlast (or_introl eq_refl) "reports" "trips.xlsx" eq_refl eq_refl) in Hrun.
  exact Hrun.
Defined.

(** ** validate_format *)

Lemma last_split_app (sep : ascii) (a b : string) :
  Text.has_char sep b = false ->
  List.last (Str.split sep (a ++ String sep b)) EmptyString = b.
Proof.
  intros Hfree. rewrite split_app, (split_sep_free sep b Hfree).
  apply List.last_last.
Qed.

Lemma join_snoc (sep : string) (items : list string) (x : string) :
  items <> [] ->
  Notification.join sep (items ++ [x]) = Notification.join sep items ++ sep ++ x.
Proof.
  induction items as [|item rest IH]; [contradiction|]. intros _.
  destruct rest as [|next rest].
  - reflexivity.
  - change ((item :: next :: rest) ++ [x])%list with (item :: ((next :: rest) ++ [x]))%list.
    rewrite (join_cons sep item ((next :: rest) ++ [x])%list) by (cbn; discriminate).
    rewrite IH by discriminate.
    rewrite (join_cons sep item (next :: rest)) by discriminate.
    rewrite !string_app_assoc'. reflexivity.
Qed.

(** A text whose last piece after a dot is [ext]: it is [ext] itself or
    it ends with a dot and [ext]. *)
Lemma last_piece_is (s ext : string) :
  Text.has_char Office.dot ext = false ->
  List.last (Str.split Office.dot s) EmptyString = ext
  <-> s = ext \/ exists stem, s = stem ++ "." ++ ext.
Proof.
  intros Hfree. split.
  - intros Hlast. pose proof (split_not_nil Office.dot s) as Hne.
    pose proof (join_split Office.dot s) as Hjoin.
    destruct (exists_last Hne) as (init & final & Hsplit).
    rewrite Hsplit in Hlast, Hjoin. rewrite List.last_last in Hlast. subst final.
    destruct init as [|first init].
    + left. symmetry. exact Hjoin.
    + right. rewrite join_snoc in Hjoin by discriminate.
      eexists. symmetry. exact Hjoin.
  - intros [->|[stem ->]].
    + rewrite (split_sep_free _ ext Hfree). reflexivity.
    + apply (last_split_app Office.dot stem ext Hfree).
Qed.

(** [validate_format] accepts exactly the paths that end with a dot and
    the extension of the format, in lower case, and the bare word of the
    extension itself. *)
Theorem validate_format_spec (file_path : string) :
  (Office.validate_format file_path Office.DOCX = true
   <-> file_path = "docx" \/ exists stem, file_path = stem ++ ".docx")
  /\ (Office.validate_format file_path Office.PDF = true
      <-> file_path = "pdf" \/ exists stem, file_path = stem ++ ".pdf").
Proof.
  unfold Office.validate_format. split.
  - rewrite String.eqb_eq. apply (last_piece_is file_path "docx"). reflexivity.
  - rewrite String.eqb_eq. apply (last_piece_is file_path "pdf"). reflexivity.
Qed.

(** A report with the right ending, one in capitals, and the bare word. *)
Lemma validate_format_examples :
  Office.validate_format "out/report.final.docx" Office.DOCX = true
  /\ Office.validate_format "out/report.DOCX" Office.DOCX = false
  /\ Office.validate_format "docx" Office.DOCX = true
  /\ Office.validate_format "report.docx" Office.PDF = false.
Proof.
  split; [|split; [|split]; reflexivity].
  apply (proj2 (proj1 (validate_format_spec "out/report.final.docx"))).
  right. exists "out/report.final". reflexivity.
Defined.

(** ** kill_all_processes *)

Lemma prefix_iff (a b : string) :
  String.prefix a b = true <-> exists post, b = a ++ post.
Proof.
  revert b. induction a as [|x a IH]; intros b.
  - split; [intros _; exists b; reflexivity | intros _; destruct b; reflexivity].
  - destruct b as [|y b]; cbn [String.prefix].
    + split; [discriminate | intros [post Hpost]; discriminate].
    + destruct (ascii_dec x y) as [->|Hne].
      * rewrite IH. split; intros [post Hpost]; exists post.
        -- change (String y b = String y (a ++ post)). f_equal. exact Hpost.
        -- change (String y b = String y (a ++ post)) in Hpost. congruence.
      * split; [discriminate|]. intros [post Hpost].
        change (String y b = String x (a ++ post)) in Hpost. congruence.
Qed.

(** [needle in hay] holds when [needle] is a piece of [hay]. *)
Lemma contains_iff (needle hay : string) :
  Text.contains needle hay = true
  <-> exists pre post, hay = pre ++ needle ++ post.
Proof.
  induction hay as [|c hay IH].
  - cbn [Text.contains]. rewrite orb_false_r, prefix_iff. split.
    + intros [post Hpost]. exists "", post. exact Hpost.
    + intros (pre & post & Hhay). destruct pre; [|discriminate].
      exists post. exact Hhay.
  - cbn [Text.contains]. rewrite orb_true_iff, prefix_iff, IH. split.
    + intros [[post Hpost]|(pre & post & Hhay)].
      * exists "", post. exact Hpost.
      * exists (String c pre), post.
        change (String c hay = String c (pre ++ needle ++ post)). f_equal. exact Hhay.
    + intros (pre & post & Hhay). destruct pre as [|x pre].
      * left. exists post. exact Hhay.
      * right. exists pre, post.
        change (String c hay = String x (pre ++ needle ++ post)) in Hhay. congruence.
Qed.

(** [kill_all_processes] never lets [AccessDenied] or [NoSuchProcess]
    out.  When no call raises anything else it returns, having terminated, in
    the order of the process table, exactly the processes whose name can be
    read and holds [proc_name] as a piece and whose [terminate()] goes through;
    for the empty [proc_name] that is every process with a readable name. *)
Theorem kill_all_processes_spec (proc_name : string) (procs : list Utils.process)
  (killed : list Z) :
  (forall e, fst (Utils.kill_all_processes proc_name procs killed) = Utils.Fails e ->
             Utils.suppressed e = false)
  /\ (forallb Utils.tame procs = true ->
      Utils.kill_all_processes proc_name procs killed
      = (Utils.Returns tt,
         (killed ++ map Utils.pid (List.filter (Utils.targeted proc_name) procs))%list))
  /\ (forall proc,
        Utils.targeted proc_name proc = true
        <-> exists n pre post,
              Utils.name proc = Utils.Returns n /\ n = pre ++ proc_name ++ post
              /\ Utils.terminate proc = Utils.Returns tt)
  /\ (proc_name = EmptyString -> forall proc n,
        Utils.name proc = Utils.Returns n ->
        Utils.terminate proc = Utils.Returns tt ->
        Utils.targeted proc_name proc = true).
Proof.
  assert (forall proc,
            Utils.targeted proc_name proc = true
            <-> exists n pre post,
                  Utils.name proc = Utils.Returns n /\ n = pre ++ proc_name ++ post
                  /\ Utils.terminate proc = Utils.Returns tt) as Htargeted.
  { intros proc. unfold Utils.targeted.
    destruct (Utils.name proc) as [n|e].
    - destruct (Utils.terminate proc) as [[]|e].
      + rewrite contains_iff. split.
        * intros (pre & post & Hn). exists n, pre, post. auto.
        * intros (n' & pre & post & Hn' & Hpiece & _).
          injection Hn' as <-. exists pre, post. exact Hpiece.
      + split; [discriminate|]. intros (? & ? & ? & _ & _ & ?). discriminate.
    - split; [discriminate|]. intros (? & ? & ? & ? & _). discriminate. }
  split; [|split; [|split; [exact Htargeted|]]].
  - revert killed. induction procs as [|proc rest IH]; intros killed e; cbn.
    + discriminate.
    + destruct (Utils.name proc) as [n|e1].
      * destruct (Text.contains proc_name n); [|apply IH].
        destruct (Utils.terminate proc) as [[]|e2]; [apply IH|].
        destruct (Utils.suppressed e2) eqn:He2; [apply IH|].
        cbn. intros [= <-]. exact He2.
      * destruct (Utils.suppressed e1) eqn:He1; [apply IH|].
        cbn. intros [= <-]. exact He1.
  - revert killed. induction procs as [|proc rest IH]; intros killed Htame.
    + cbn. rewrite app_nil_r. reflexivity.
    + cbn [forallb] in Htame. apply andb_true_iff in Htame as [Hproc Hrest].
      unfold Utils.tame in Hproc. apply andb_true_iff in Hproc as [Hname Hterm].
      cbn [Utils.kill_all_processes List.filter]. unfold Utils.targeted.
      destruct (Utils.name proc) as [n|e1].
      * destruct (Utils.terminate proc) as [[]|e2].
        -- destruct (Text.contains proc_name n).
           ++ rewrite (IH _ Hrest). cbn [map]. rewrite <- app_assoc. reflexivity.
           ++ apply (IH _ Hrest).
        -- rewrite Hterm. destruct (Text.contains proc_name n); apply (IH _ Hrest).
      * rewrite Hname. apply (IH _ Hrest).
  - intros -> proc n Hname Hterm. apply Htargeted.
    exists n, "", n. split; [exact Hname|]. split; [reflexivity | exact Hterm].
Qed.

(** Of the four sample processes the two of the client are terminated;
    with the empty name the search also reaches the system process, which
    refuses. *)
Lemma kill_all_processes_example :
  Utils.kill_all_processes "1cv8" MoreSamples.process_table []
  = (Utils.Returns tt, [812; 1404]).
Proof.
  apply (proj1 (proj2 (kill_all_processes_spec "1cv8" MoreSamples.process_table []))).
  reflexivity.
Defined.

(** ** contains_text and get_full_text *)

Section ElementTexts.

Local Open Scope list_scope.

Lemma lstrip_blank (s : Unicode.text) : Unicode.lstrip s = [] <-> Elements.blank s = true.
Proof.
  unfold Elements.blank.
  induction s as [|c rest IH]; cbn [Unicode.lstrip forallb]; [tauto|].
  destruct (Unicode.is_space c); cbn [andb]; [exact IH|]. split; discriminate.
Qed.

Lemma rstrip_blank (s : Unicode.text) : Unicode.rstrip s = [] <-> Elements.blank s = true.
Proof.
  unfold Elements.blank.
  induction s as [|c rest IH]; cbn [Unicode.rstrip forallb]; [tauto|].
  destruct (Unicode.rstrip rest) as [|k kept].
  - destruct (Unicode.is_space c); cbn [andb].
    + split; [intros _; apply IH; reflexivity | reflexivity].
    + split; discriminate.
  - split; [discriminate|]. intros Hb. apply andb_true_iff in Hb as [_ Hb].
    apply IH in Hb. discriminate.
Qed.

Lemma blank_lstrip (s : Unicode.text) :
  Elements.blank (Unicode.lstrip s) = Elements.blank s.
Proof.
  unfold Elements.blank.
  induction s as [|c rest IH]; [reflexivity|]. cbn [Unicode.lstrip forallb].
  destruct (Unicode.is_space c) eqn:Hc; cbn [andb]; [exact IH|].
  cbn [forallb]. rewrite Hc. reflexivity.
Qed.

(** A text is stripped to nothing exactly when it holds blanks only. *)
Lemma strip_blank (s : Unicode.text) : Unicode.strip s = [] <-> Elements.blank s = true.
Proof. unfold Unicode.strip. rewrite rstrip_blank, blank_lstrip. tauto. Qed.

Lemma rstrip_cons (c : N) (rest : Unicode.text) :
  Unicode.is_space c = false -> Unicode.rstrip (c :: rest) = c :: Unicode.rstrip rest.
Proof.
  intros Hc. cbn [Unicode.rstrip]. destruct (Unicode.rstrip rest); [|reflexivity].
  rewrite Hc. reflexivity.
Qed.

Lemma rstrip_idem (s : Unicode.text) : Unicode.rstrip (Unicode.rstrip s) = Unicode.rstrip s.
Proof.
  induction s as [|c rest IH]; [reflexivity|]. cbn [Unicode.rstrip].
  destruct (Unicode.rstrip rest) as [|k kept] eqn:Hrest.
  - destruct (Unicode.is_space c) eqn:Hc; [reflexivity|].
    cbn [Unicode.rstrip]. rewrite Hc. reflexivity.
  - change (Unicode.rstrip (c :: k :: kept)) with
      (match Unicode.rstrip (k :: kept) with
       | [] => if Unicode.is_space c then [] else [c]
       | kept' => c :: kept'
       end).
    rewrite IH. reflexivity.
Qed.

Lemma strip_trimmed_or_empty (s : Unicode.text) :
  Unicode.strip s = [] \/ Elements.trimmed (Unicode.strip s).
Proof.
  unfold Unicode.strip. induction s as [|c rest IH]; [left; reflexivity|].
  cbn [Unicode.lstrip]. destruct (Unicode.is_space c) eqn:Hc; [exact IH|].
  right. rewrite (rstrip_cons c rest Hc).
  exists c, (Unicode.rstrip rest). split; [reflexivity|].
  split; [exact Hc | apply rstrip_idem].
Qed.

Lemma trimmed_strip (s : Unicode.text) : Elements.trimmed s -> Unicode.strip s = s.
Proof.
  intros (c & rest & -> & Hc & Hrest). unfold Unicode.strip. cbn [Unicode.lstrip].
  rewrite Hc, (rstrip_cons c rest Hc), Hrest. reflexivity.
Qed.

Lemma trimmed_not_empty (s : Unicode.text) : Elements.trimmed s -> s <> [].
Proof. intros (c & rest & -> & _). discriminate. Qed.

Lemma trimmed_rstrip (s : Unicode.text) : Elements.trimmed s -> Unicode.rstrip s = s.
Proof.
  intros (c & rest & -> & Hc & Hrest). rewrite (rstrip_cons c rest Hc), Hrest. reflexivity.
Qed.

(** Stripping twice is stripping once. *)
Lemma strip_idem (s : Unicode.text) : Unicode.strip (Unicode.strip s) = Unicode.strip s.
Proof.
  destruct (strip_trimmed_or_empty s) as [->|Ht]; [reflexivity | apply trimmed_strip, Ht].
Qed.

Lemma rstrip_app_fixed (x b : Unicode.text) :
  b <> [] -> Unicode.rstrip b = b -> Unicode.rstrip (x ++ b) = (x ++ b)%list.
Proof.
  intros Hne Hb. induction x as [|c x IH]; [exact Hb|].
  change ((c :: x) ++ b)%list with (c :: (x ++ b))%list. cbn [Unicode.rstrip]. rewrite IH.
  destruct (x ++ b)%list as [|k kept] eqn:Hxb; [|reflexivity].
  destruct x; [|discriminate]. contradiction.
Qed.

Lemma trimmed_join (a b : Unicode.text) :
  Elements.trimmed a -> Elements.trimmed b ->
  Elements.trimmed (a ++ Unicode.space ++ b)%list.
Proof.
  intros (c & rest & -> & Hc & Hrest) Hb.
  exists c, (rest ++ Unicode.space ++ b)%list. split; [reflexivity|]. split; [exact Hc|].
  rewrite List.app_assoc. apply rstrip_app_fixed.
  - apply trimmed_not_empty, Hb.
  - apply trimmed_rstrip, Hb.
Qed.

Lemma strip_space_trimmed (b : Unicode.text) :
  Elements.trimmed b -> Unicode.strip (Unicode.space ++ b)%list = b.
Proof.
  intros Hb. change (Unicode.space ++ b)%list with (32%N :: b).
  unfold Unicode.strip. change (Unicode.lstrip (32%N :: b)) with (Unicode.lstrip b).
  apply (trimmed_strip b Hb).
Qed.

Lemma text_join_cons (sep item : Unicode.text) (items : list Unicode.text) :
  items <> [] ->
  Unicode.join sep (item :: items) = (item ++ sep ++ Unicode.join sep items)%list.
Proof. destruct items; [contradiction | reflexivity]. Qed.

Lemma join_trimmed (items : list Unicode.text) :
  items <> [] -> Forall Elements.trimmed items ->
  Elements.trimmed (Unicode.join Unicode.space items).
Proof.
  induction items as [|item rest IH]; [contradiction|]. intros _ Hall.
  apply List.Forall_cons_iff in Hall as [Hitem Hrest].
  destruct rest as [|next rest]; [exact Hitem|].
  rewrite text_join_cons by discriminate.
  apply trimmed_join; [exact Hitem | apply IH; [discriminate | exact Hrest]].
Qed.

Lemma join_appended (item : Unicode.text) (items : list Unicode.text) :
  (item ++ Elements.appended items)%list = Unicode.join Unicode.space (item :: items).
Proof.
  revert item. induction items as [|next rest IH]; intros item.
  - apply List.app_nil_r.
  - rewrite text_join_cons by discriminate. rewrite <- IH. reflexivity.
Qed.

Lemma get_full_text_unfold (e : Elements.element) :
  Elements.get_full_text e
  = Unicode.strip (Elements.own_text e
                   ++ Elements.appended
                        (List.filter Elements.truthy
                           (map Elements.get_full_text (Elements.children e))))%list.
Proof.
  destruct e as [wt ts kids]. cbn [Elements.get_full_text]. f_equal.
  unfold Elements.own_text. cbn [Elements.window_text Elements.children].
  assert ((match wt with
           | Some t => if Elements.truthy t then Unicode.strip t else []
           | None => []
           end) = match wt with Some t => Unicode.strip t | None => [] end) as ->.
  { destruct wt as [[|c t]|]; reflexivity. }
  generalize (match wt with Some t => Unicode.strip t | None => [] end) as txt.
  induction kids as [|child rest IH]; intros txt.
  - cbn. symmetry. apply List.app_nil_r.
  - cbn [map List.filter]. rewrite IH.
    destruct (Elements.truthy (Elements.get_full_text child)); [|reflexivity].
    cbn [Elements.appended]. rewrite <- !List.app_assoc. reflexivity.
Qed.

Lemma truthy_iff (s : Unicode.text) : Elements.truthy s = true <-> s <> [].
Proof. destruct s; cbn; split; congruence. Qed.

Lemma full_texts_trimmed (kids : list Elements.element) :
  Forall Elements.trimmed (List.filter Elements.truthy (map Elements.get_full_text kids)).
Proof.
  apply List.Forall_forall. intros t Hin. apply List.filter_In in Hin as [Hin Ht].
  apply List.in_map_iff in Hin as (kid & <- & _).
  apply truthy_iff in Ht. rewrite get_full_text_unfold in Ht |- *.
  destruct (strip_trimmed_or_empty
              (Elements.own_text kid
               ++ Elements.appended
                    (List.filter Elements.truthy
                       (map Elements.get_full_text (Elements.children kid))))%list)
    as [Hempty|Htrim]; [contradiction | exact Htrim].
Qed.

Lemma own_text_trimmed (e : Elements.element) :
  Elements.own_text e = [] \/ Elements.trimmed (Elements.own_text e).
Proof.
  unfold Elements.own_text. destruct (Elements.window_text e) as [t|];
    [apply strip_trimmed_or_empty | left; reflexivity].
Qed.

(** The full text as a sentence: the non-empty ones among the element's own
    stripped text and the full texts of its children, in their order, with
    one space between them. *)
Lemma get_full_text_join (e : Elements.element) :
  Elements.get_full_text e
  = Unicode.join Unicode.space
      (List.filter Elements.truthy
         (Elements.own_text e :: map Elements.get_full_text (Elements.children e))).
Proof.
  rewrite get_full_text_unfold. cbn [List.filter].
  pose proof (full_texts_trimmed (Elements.children e)) as Hkids.
  destruct (own_text_trimmed e) as [->|Hown].
  - cbn [Elements.truthy Unicode.is_empty negb].
    change ([] ++ ?x)%list with x.
    destruct (List.filter Elements.truthy
                (map Elements.get_full_text (Elements.children e))) as [|first rest];
      [reflexivity|].
    cbn [Elements.appended]. rewrite join_appended. apply strip_space_trimmed.
    apply join_trimmed; [discriminate | exact Hkids].
  - assert (Elements.truthy (Elements.own_text e) = true) as ->
        by (apply truthy_iff, trimmed_not_empty, Hown).
    rewrite join_appended. apply trimmed_strip, join_trimmed; [discriminate|].
    apply List.Forall_cons; [exact Hown | exact Hkids].
Qed.

Lemma element_tree_ind (P : Elements.element -> Prop) :
  (forall wt ts kids, Forall P kids -> P (Elements.Element wt ts kids)) ->
  forall e, P e.
Proof.
  intros Hstep. fix tree_ind 1. intros [wt ts kids]. apply Hstep.
  induction kids as [|kid rest IH]; constructor; [apply tree_ind | exact IH].
Qed.

(** [get_full_text] joins, with single spaces and in reading order, the
    texts of the element and of everything below it that are not blank, each
    without the blanks around it; the result has no blank at either end, and
    it is empty exactly when no text in the tree has anything but blanks.
    A blank is a character for which [isspace()] holds, the no-break space
    among them. *)
Theorem get_full_text_spec (e : Elements.element) :
  Elements.get_full_text e
  = Unicode.join Unicode.space
      (List.filter Elements.truthy
         (Elements.own_text e :: map Elements.get_full_text (Elements.children e)))
  /\ Unicode.strip (Elements.get_full_text e) = Elements.get_full_text e
  /\ (Elements.get_full_text e = [] <-> Elements.silent e = true).
Proof.
  split; [apply get_full_text_join|]. split.
  - rewrite get_full_text_unfold. apply strip_idem.
  - induction e as [wt ts kids IH] using element_tree_ind.
    rewrite get_full_text_join.
    cbn [Elements.children Elements.silent].
    set (all := fix all (kids : list Elements.element) : bool :=
                  match kids with
                  | [] => true
                  | child :: rest => Elements.silent child && all rest
                  end).
    assert (List.filter Elements.truthy (map Elements.get_full_text kids) = []
            <-> all kids = true) as Hkids.
    { induction IH as [|kid rest Hkid _ IHrest]; [cbn; tauto|].
      cbn [map List.filter all]. rewrite andb_true_iff, <- IHrest, <- Hkid.
      destruct (Elements.get_full_text kid); cbn [Elements.truthy Unicode.is_empty negb].
      - tauto.
      - split; [discriminate | intros [? _]; discriminate]. }
    assert (Elements.own_text (Elements.Element wt ts kids) = []
            <-> match wt with Some t => Elements.blank t | None => true end = true)
      as Hown.
    { unfold Elements.own_text. cbn [Elements.window_text].
      destruct wt as [t|]; [apply strip_blank | tauto]. }
    rewrite andb_true_iff, <- Hown, <- Hkids. split.
    + intros Hjoin.
      destruct (List.filter Elements.truthy
                  (Elements.own_text (Elements.Element wt ts kids)
                   :: map Elements.get_full_text kids)) as [|first rest] eqn:Hlist.
      * cbn [List.filter] in Hlist.
        destruct (Elements.own_text (Elements.Element wt ts kids));
          cbn [Elements.truthy Unicode.is_empty negb] in Hlist; [tauto | discriminate].
      * exfalso. apply (trimmed_not_empty _ (join_trimmed (first :: rest)
                          ltac:(discriminate)
                          ltac:(rewrite <- Hlist; cbn [List.filter];
                                pose proof (full_texts_trimmed kids);
                                destruct (own_text_trimmed (Elements.Element wt ts kids))
                                  as [->|Hown'];
                                [exact H
                                |rewrite (proj2 (truthy_iff _) (trimmed_not_empty _ Hown'));
                                 apply List.Forall_cons; assumption]))).
        exact Hjoin.
    + intros [Hown' Hkids']. cbn [List.filter]. rewrite Hown', Hkids'. reflexivity.
Qed.

(** The sample dialog reads as one sentence: the Cyrillic words without
    the space and the no-break space around them, the pane of blanks left
    out. *)
Lemma get_full_text_example :
  Elements.get_full_text MoreSamples.dialog_tree
  = (Samples.workshop ++ Unicode.space ++ Samples.bakery ++ Unicode.space
     ++ Unicode.of_string "was not found" ++ Unicode.space ++ Unicode.of_string "OK")%list
  /\ Unicode.strip (Elements.get_full_text MoreSamples.dialog_tree)
     = Elements.get_full_text MoreSamples.dialog_tree.
Proof.
  split; [vm_compute; reflexivity|].
  apply (proj1 (proj2 (get_full_text_spec MoreSamples.dialog_tree))).
Defined.

Lemma any_char_not_blank (s : Unicode.text) :
  existsb (fun inner => Elements.truthy (Unicode.strip [inner])) s
  = negb (Elements.blank s).
Proof.
  unfold Elements.blank.
  induction s as [|c rest IH]; [reflexivity|].
  cbn [existsb forallb]. rewrite IH.
  unfold Unicode.strip. cbn [Unicode.lstrip].
  destruct (Unicode.is_space c) eqn:Hc; cbn [Unicode.rstrip]; [reflexivity|].
  rewrite Hc. reflexivity.
Qed.

(** [contains_text] looks at the texts one character at a time, and yet it
    says what its name says: some text of the element is more than blanks.
    An element without texts has none. *)
Theorem contains_text_spec (e : Elements.element) :
  (Elements.contains_text e = true
   <-> exists t, In t (Elements.texts e) /\ Unicode.strip t <> [])
  /\ (Elements.texts e = [] -> Elements.contains_text e = false).
Proof.
  split.
  - unfold Elements.contains_text. rewrite List.existsb_exists.
    split; intros (t & Hin & Ht); exists t; (split; [exact Hin|]).
    + rewrite any_char_not_blank in Ht. rewrite strip_blank.
      destruct (Elements.blank t); [discriminate | discriminate].
    + rewrite any_char_not_blank. rewrite strip_blank in Ht.
      destruct (Elements.blank t); [|reflexivity]. exfalso. apply Ht. reflexivity.
  - unfold Elements.contains_text. intros ->. reflexivity.
Qed.

(** The title bar of the sample dialog has a text; an element whose texts
    are a space with a no-break space, and the empty text, has none. *)
Lemma contains_text_example :
  Elements.contains_text MoreSamples.dialog_tree = true
  /\ Elements.contains_text (Elements.Element None [[32%N; Samples.nbsp]; []] []) = false.
Proof.
  split; [|reflexivity].
  apply (proj2 (proj1 (contains_text_spec MoreSamples.dialog_tree))).
  exists Samples.workshop. split; [left; reflexivity | discriminate].
Defined.

End ElementTexts.

(** ** iterate_datetime *)

Lemma steps_zero (start end_ step : Z) :
  0 < step -> Utils.steps start end_ step = O -> end_ < start.
Proof.
  unfold Utils.steps. intros Hstep. destruct (Z.leb_spec start end_) as [Hle|Hgt]; [|lia].
  pose proof (Z.div_pos (end_ - start) step ltac:(lia) Hstep). lia.
Qed.

Lemma steps_succ (start end_ step : Z) (m : nat) :
  0 < step -> Utils.steps start end_ step = S m ->
  start <= end_ /\ Utils.steps (start + step) end_ step = m.
Proof.
  unfold Utils.steps. intros Hstep.
  destruct (Z.leb_spec start end_) as [Hle|Hgt]; [|discriminate].
  intros Hsteps. split; [exact Hle|].
  destruct (Z.leb_spec (start + step) end_) as [Hnext|Hnext].
  - replace (end_ - start) with (end_ - (start + step) + 1 * step) in Hsteps by lia.
    rewrite Z.div_add in Hsteps by lia.
    pose proof (Z.div_pos (end_ - (start + step)) step ltac:(lia) Hstep). lia.
  - rewrite Z.div_small in Hsteps by lia. cbn in Hsteps. lia.
Qed.

Lemma ladder_succ (m : nat) (start step : Z) :
  Utils.ladder (S m) start step = start :: Utils.ladder m (start + step) step.
Proof.
  unfold Utils.ladder. cbn [seq map]. f_equal; [lia|].
  rewrite <- seq_shift, map_map. apply map_ext. intros k. lia.
Qed.

Lemma iterate_loop_forward (end_ step : Z) :
  0 < step -> end_ <= Utils.max_datetime ->
  forall (n fuel : nat) (current : Z),
    0 <= current ->
    Utils.steps current end_ step = n -> (n < fuel)%nat ->
    Utils.iterate_loop fuel current end_ step
    = (Utils.ladder n current step,
       if (n =? 0)%nat || (current + Z.of_nat n * step <=? Utils.max_datetime)
       then Utils.Returned else Utils.Overflow).
Proof.
  intros Hstep Hend. induction n as [|m IH]; intros fuel current Hcur Hsteps Hfuel;
    (destruct fuel as [|fuel]; [lia|]); cbn [Utils.iterate_loop].
  - apply steps_zero in Hsteps; [|exact Hstep].
    destruct (Z.leb_spec current end_); [lia | reflexivity].
  - apply steps_succ in Hsteps as [Hle Hnext]; [|exact Hstep].
    destruct (Z.leb_spec current end_) as [_|?]; [|lia].
    unfold Utils.add. cbn [Nat.eqb orb].
    destruct (Z.leb_spec 0 (current + step)) as [_|?]; [|lia]. cbn [andb].
    destruct (Z.leb_spec (current + step) Utils.max_datetime) as [Hin|Hout].
    + rewrite (IH fuel (current + step) ltac:(lia) Hnext ltac:(lia)).
      rewrite ladder_succ. f_equal.
      replace (current + step + Z.of_nat m * step) with (current + Z.of_nat (S m) * step)
        by lia.
      destruct m as [|m]; [|reflexivity]. cbn [Nat.eqb orb].
      destruct (Z.leb_spec (current + Z.of_nat 1 * step) Utils.max_datetime);
        [reflexivity | lia].
    + assert (m = O) as ->.
      { unfold Utils.steps in Hnext.
        destruct (Z.leb_spec (current + step) end_); [lia | congruence]. }
      destruct (Z.leb_spec (current + Z.of_nat 1 * step) Utils.max_datetime); [lia|].
      unfold Utils.ladder. cbn. repeat f_equal. lia.
Qed.

Lemma iterate_loop_still (fuel : nat) (current end_ : Z) :
  0 <= current <= Utils.max_datetime -> current <= end_ ->
  Utils.iterate_loop fuel current end_ 0 = (List.repeat current fuel, Utils.Running).
Proof.
  intros Hcur Hle. induction fuel as [|fuel IH]; [reflexivity|].
  cbn [Utils.iterate_loop List.repeat]. unfold Utils.add.
  destruct (Z.leb_spec current end_); [|lia].
  rewrite Z.add_0_r.
  destruct (Z.leb_spec 0 current); [|lia].
  destruct (Z.leb_spec current Utils.max_datetime); [|lia].
  cbn [andb]. rewrite IH. reflexivity.
Qed.

Lemma iterate_loop_backward (step end_ : Z) (fuel : nat) :
  step < 0 ->
  forall current, current <= end_ ->
    snd (Utils.iterate_loop fuel current end_ step) <> Utils.Returned.
Proof.
  intros Hstep. induction fuel as [|fuel IH]; intros current Hle; [discriminate|].
  cbn [Utils.iterate_loop]. destruct (Z.leb_spec current end_); [|lia].
  unfold Utils.add.
  destruct ((0 <=? current + step) && (current + step <=? Utils.max_datetime));
    [|discriminate].
  specialize (IH (current + step) ltac:(lia)).
  destruct (Utils.iterate_loop fuel (current + step) end_ step). exact IH.
Qed.

(** [iterate_datetime] from [start] to [end_], both naive datetimes.  With
    a positive step (a day when none is given) it yields [start],
    [start + step], ... up to the last one that is not after [end_], which is
    one value more than the whole steps that fit in between, and none at all
    when [start] is after [end_]; it then returns, unless the step after the
    last value leaves the range of [datetime], where [OverflowError] follows
    the last value.  With a step of zero and [start] not after [end_] it yields
    [start] for ever; with a negative step it never returns normally. *)
Theorem iterate_datetime_spec (start end_ : Z) (step : option Z) :
  0 <= start <= Utils.max_datetime ->
  0 <= end_ <= Utils.max_datetime ->
  let delta := match step with None => Utils.one_day | Some d => d end in
  let n := Utils.steps start end_ delta in
  (0 < delta ->
   forall fuel, (n < fuel)%nat ->
     Utils.iterate_datetime fuel start end_ step
     = (Utils.ladder n start delta,
        if (n =? 0)%nat || (start + Z.of_nat n * delta <=? Utils.max_datetime)
        then Utils.Returned else Utils.Overflow))
  /\ (0 < delta -> start <= end_ ->
      Z.of_nat n = (end_ - start) / delta + 1
      /\ Forall (fun dt => start <= dt <= end_) (Utils.ladder n start delta))
  /\ (delta = 0 -> start <= end_ ->
      forall fuel,
        Utils.iterate_datetime fuel start end_ step
        = (List.repeat start fuel, Utils.Running))
  /\ (delta < 0 -> start <= end_ ->
      forall fuel,
        snd (Utils.iterate_datetime fuel start end_ step) <> Utils.Returned).
Proof.
  intros Hstart Hend delta n. split; [|split; [|split]].
  - intros Hdelta fuel Hfuel. unfold Utils.iterate_datetime. fold delta.
    apply iterate_loop_forward; [exact Hdelta | lia | lia | reflexivity | exact Hfuel].
  - intros Hdelta Hle.
    assert (Z.of_nat n = (end_ - start) / delta + 1) as Hn.
    { unfold n, Utils.steps. destruct (Z.leb_spec start end_); [|lia].
      pose proof (Z.div_pos (end_ - start) delta ltac:(lia) Hdelta). lia. }
    split; [exact Hn|].
    unfold Utils.ladder. apply List.Forall_forall. intros dt Hin.
    apply List.in_map_iff in Hin as (k & <- & Hk). apply List.in_seq in Hk.
    pose proof (Z.mul_div_le (end_ - start) delta Hdelta). nia.
  - intros Hdelta Hle fuel. unfold Utils.iterate_datetime. fold delta. rewrite Hdelta.
    apply iterate_loop_still; [exact Hstart | exact Hle].
  - intros Hdelta Hle fuel. unfold Utils.iterate_datetime. fold delta.
    apply iterate_loop_backward; [exact Hdelta | exact Hle].
Qed.

(** From the first of March 2025 to noon of the third, by days: the three
    midnights. *)
Lemma iterate_datetime_example :
  Utils.iterate_datetime 4 (MoreSamples.midnight 739311)
    (MoreSamples.midnight 739313 + Utils.one_day / 2) None
  = ([MoreSamples.midnight 739311; MoreSamples.midnight 739312;
      MoreSamples.midnight 739313],
     Utils.Returned).
Proof.
  assert (0 <= MoreSamples.midnight 739311 <= Utils.max_datetime) as Hstart
      by (vm_compute; split; discriminate).
  assert (0 <= MoreSamples.midnight 739313 + Utils.one_day / 2 <= Utils.max_datetime)
    as Hend by (vm_compute; split; discriminate).
  exact (proj1 (iterate_datetime_spec _ _ None Hstart Hend) eq_refl 4%nat
           ltac:(vm_compute; lia)).
Defined.

(** ** App.dialog_text *)

Lemma split_breaks_free (s : string) (in_break : bool) :
  Dialog.break_free s = true -> Dialog.split_breaks s in_break = [s].
Proof.
  revert in_break. induction s as [|c rest IH]; intros in_break; [reflexivity|].
  cbn [Dialog.break_free Dialog.split_breaks].
  intros Hfree. apply andb_true_iff in Hfree as [Hc Hrest].
  apply negb_true_iff in Hc. rewrite Hc, (IH false Hrest). reflexivity.
Qed.

Lemma split_breaks_not_nil (s : string) (in_break : bool) :
  Dialog.split_breaks s in_break <> [].
Proof.
  revert in_break. induction s as [|c rest IH]; intros in_break; cbn; [discriminate|].
  destruct (Dialog.is_break c).
  - destruct in_break; [apply IH | discriminate].
  - destruct (Dialog.split_breaks rest false); discriminate.
Qed.

(** A run of line breaks is passed over. *)
Lemma split_breaks_run (run rest : string) :
  Dialog.break_run run = true ->
  Dialog.split_breaks (run ++ rest) true = Dialog.split_breaks rest true
  /\ Dialog.split_breaks (run ++ rest) false
     = EmptyString :: Dialog.split_breaks rest true.
Proof.
  induction run as [|c run IH]; [discriminate|]. intros Hrun.
  change (String c run ++ rest) with (String c (run ++ rest)).
  cbn [Dialog.split_breaks]. destruct run as [|c' run].
  - cbn [Dialog.break_run] in Hrun. rewrite Hrun. split; reflexivity.
  - change (Dialog.break_run (String c (String c' run)))
      with (Dialog.is_break c && Dialog.break_run (String c' run)) in Hrun.
    apply andb_true_iff in Hrun as [Hc Hrun]. rewrite Hc.
    destruct (IH Hrun) as [IHtrue _]. rewrite IHtrue. split; reflexivity.
Qed.

(** A line goes in front of the first piece of what follows it. *)
Lemma split_breaks_line (line rest : string) (in_break : bool) :
  Dialog.break_free line = true ->
  line <> EmptyString \/ in_break = false ->
  Dialog.split_breaks (line ++ rest) in_break
  = match Dialog.split_breaks rest false with
    | piece :: pieces => (line ++ piece) :: pieces
    | [] => [line]
    end.
Proof.
  revert in_break. induction line as [|c line IH]; intros in_break Hfree Hstate.
  - destruct Hstate as [?| ->]; [contradiction|].
    change ("" ++ rest) with rest.
    destruct (Dialog.split_breaks rest false) eqn:Hsplit; [|reflexivity].
    exfalso. exact (split_breaks_not_nil rest false Hsplit).
  - cbn [Dialog.break_free] in Hfree. apply andb_true_iff in Hfree as [Hc Hline].
    apply negb_true_iff in Hc.
    change (String c line ++ rest) with (String c (line ++ rest)).
    cbn [Dialog.split_breaks]. rewrite Hc, (IH false Hline (or_intror eq_refl)).
    destruct (Dialog.split_breaks rest false); reflexivity.
Qed.

(** Whatever comes before a line break closes a piece there. *)
Lemma split_breaks_after_break (before : string) (brk : ascii) :
  Dialog.is_break brk = true ->
  forall in_break, exists init,
    (in_break = false -> init <> [])
    /\ forall rest,
         Dialog.split_breaks (before ++ String brk rest) in_break
         = (init ++ Dialog.split_breaks rest true)%list.
Proof.
  intros Hbrk. induction before as [|c before IH]; intros in_break.
  - change ("" ++ String brk ?r) with (String brk r). cbn [Dialog.split_breaks].
    rewrite Hbrk. destruct in_break.
    + exists []. split; [discriminate | reflexivity].
    + exists [EmptyString]. split; [discriminate | reflexivity].
  - change (String c before ++ String brk ?r) with (String c (before ++ String brk r)).
    cbn [Dialog.split_breaks]. destruct (Dialog.is_break c).
    + destruct (IH true) as (init & _ & Hinit). destruct in_break.
      * exists init. split; [discriminate | exact Hinit].
      * exists (EmptyString :: init). split; [discriminate|].
        intros rest. rewrite Hinit. reflexivity.
    + destruct (IH false) as (init & Hne & Hinit).
      destruct init as [|piece pieces]; [exfalso; apply Hne; reflexivity|].
      exists (String c piece :: pieces). split; [discriminate|].
      intros rest. rewrite Hinit. reflexivity.
Qed.

Lemma split_breaks_tail (line run last : string) (in_break : bool) :
  Dialog.break_free line = true -> Dialog.break_run run = true ->
  Dialog.break_free last = true ->
  line <> EmptyString \/ in_break = false ->
  Dialog.split_breaks (line ++ run ++ last) in_break = [line; last].
Proof.
  intros Hline Hrun Hlast Hstate.
  rewrite (split_breaks_line line (run ++ last) in_break Hline Hstate).
  rewrite (proj2 (split_breaks_run run last Hrun)), (split_breaks_free last true Hlast).
  rewrite string_app_nil_r. reflexivity.
Qed.

Lemma from_end_snoc2 (init : list string) (line last : string) :
  Dialog.from_end 1 (init ++ [line; last]) = Ok line.
Proof.
  unfold Dialog.from_end. rewrite rev_app_distr. reflexivity.
Qed.

(** [dialog_text] returns the empty text, touching nothing, for a dialog
    that is not there or not enabled.  Otherwise it types Ctrl+C and reads
    the clipboard, which it leaves empty, and: for an empty clipboard it
    returns the empty text; for a text without a line break it raises
    [IndexError]; for a text that ends with [line], a run of line breaks and
    a last piece without line breaks, which may be empty, it returns
    [line]. *)
Theorem dialog_text_spec (app_dialog dialog_win : option Dialog.window)
  (win : Dialog.window) (st : Dialog.dialog_state) :
  match dialog_win with Some w => Some w | None => app_dialog end = Some win ->
  (Dialog.win_exists win && Dialog.win_enabled win = false ->
   Dialog.dialog_text app_dialog dialog_win st = (Ok EmptyString, st))
  /\ (forall copied,
        Dialog.win_exists win && Dialog.win_enabled win = true ->
        Dialog.on_copy win = Ok copied ->
        let text := match copied with Some t => t | None => EmptyString end in
        exists r st',
          Dialog.dialog_text app_dialog dialog_win st = (r, st')
          /\ Dialog.clipboard st' = EmptyString
          /\ Dialog.events st'
             = (Dialog.events st
                ++ [Dialog.ClipboardSet ""; Dialog.Typed "^C"; Dialog.Slept 2;
                    Dialog.ClipboardSet ""; Dialog.LoggedText text])%list
          /\ (text = EmptyString -> r = Ok EmptyString)
          /\ (text <> EmptyString -> Dialog.break_free text = true ->
              r = Raise (mkExn IndexError "list index out of range"))
          /\ (forall before line run last,
                text = before ++ line ++ run ++ last ->
                Dialog.break_free line = true -> Dialog.break_run run = true ->
                Dialog.break_free last = true ->
                before = EmptyString
                \/ (line <> EmptyString
                    /\ exists pre brk,
                         before = pre ++ String brk EmptyString
                         /\ Dialog.is_break brk = true) ->
                r = Ok line)).
Proof.
  intros Hwin.
  assert (forall k : Dialog.window -> prog Dialog.dialog_state string,
            (let* w :=
               match dialog_win with
               | Some w => ret w
               | None =>
                   match app_dialog with
                   | Some w => ret w
                   | None =>
                       raise (mkExn AttributeError
                                "'NoneType' object has no attribute 'Dialog'")
                   end
               end in k w) st = k win st) as Hresolve.
  { intros k. destruct dialog_win as [w|]; [|destruct app_dialog as [w|]];
      try discriminate; injection Hwin as ->; reflexivity. }
  split.
  - intros Hoff. unfold Dialog.dialog_text. rewrite Hresolve.
    rewrite <- negb_andb, Hoff. reflexivity.
  - intros copied Hon Hcopy text.
    unfold Dialog.dialog_text. rewrite Hresolve. rewrite <- negb_andb, Hon.
    cbn [negb]. unfold Py.pbind, Dialog.copy, Dialog.type_keys, Dialog.sleep,
      Dialog.paste, Dialog.info. rewrite Hcopy.
    assert (Dialog.clipboard
              (match copied with
               | Some t =>
                   Dialog.mkDialogState t
                     (Dialog.events st ++ [Dialog.ClipboardSet ""; Dialog.Typed "^C"])%list
               | None =>
                   Dialog.mkDialogState ""
                     (Dialog.events st ++ [Dialog.ClipboardSet ""; Dialog.Typed "^C"])%list
               end) = text) as Hclip by (destruct copied; reflexivity).
    destruct copied as [t|]; cbn [Dialog.clipboard Dialog.events] in *; subst text;
      cbn zeta.
    + destruct (Str.is_empty t) eqn:Hempty.
      * eexists _, _. split; [reflexivity|]. cbn [Dialog.clipboard Dialog.events].
        split; [reflexivity|]. split; [rewrite <- !app_assoc; reflexivity|].
        destruct t; [|discriminate].
        split; [reflexivity|]. split; [intros Hne; contradiction|].
        intros before line run last Htext Hline Hrun _ _.
        destruct before; [|discriminate]. destruct line; [|discriminate].
        destruct run; discriminate.
      * eexists _, _. split; [reflexivity|]. cbn [Dialog.clipboard Dialog.events].
        split; [reflexivity|]. split; [rewrite <- !app_assoc; reflexivity|].
        split; [intros ->; discriminate|]. split.
        -- intros _ Hfree. unfold Py.lift, Dialog.re_split.
           rewrite (split_breaks_free t false Hfree). reflexivity.
        -- intros before line run last -> Hline Hrun Hlast Hbefore.
           unfold Py.lift, Dialog.re_split.
           destruct Hbefore as [->|(Hne & pre & brk & -> & Hbrk)].
           ++ change ("" ++ ?x) with x.
              rewrite (split_breaks_tail line run last false Hline Hrun Hlast
                         (or_intror eq_refl)).
              apply (from_end_snoc2 []).
           ++ destruct (split_breaks_after_break pre brk Hbrk false) as (init & _ & Hinit).
              rewrite string_app_assoc'.
              change (String brk "" ++ ?x) with (String brk x).
              rewrite Hinit.
              rewrite (split_breaks_tail line run last true Hline Hrun Hlast
                         (or_introl Hne)).
              apply from_end_snoc2.
    + eexists _, _. split; [reflexivity|]. cbn [Dialog.clipboard Dialog.events].
      split; [reflexivity|]. split; [rewrite <- !app_assoc; reflexivity|].
      split; [reflexivity|]. split; [intros Hne; contradiction|].
      intros before line run last Htext Hline Hrun _ _.
      destruct before; [|discriminate]. destruct line; [|discriminate].
      destruct run; discriminate.
Qed.

(** The message box gives the caption of its button, which is the last
    line of what it copies; the window that copies one line makes the call
    fail. *)
Lemma dialog_text_examples :
  fst (Dialog.dialog_text None (Some MoreSamples.message_box) (Dialog.mkDialogState "x" []))
  = Ok "OK"
  /\ fst (Dialog.dialog_text (Some MoreSamples.one_liner) None (Dialog.mkDialogState "x" []))
     = Raise (mkExn IndexError "list index out of range").
Proof.
  split.
  - destruct (proj2 (dialog_text_spec None (Some MoreSamples.message_box)
                       MoreSamples.message_box (Dialog.mkDialogState "x" []) eq_refl)
                _ eq_refl eq_refl)
      as (r & st' & Hrun & _ & _ & _ & _ & Hline).
    rewrite Hrun. cbn [fst].
    apply (Hline ("1C:Enterprise" ++ MoreSamples.crlf ++ "The contract was not found"
                  ++ MoreSamples.crlf) "OK" MoreSamples.crlf "");
      try reflexivity.
    right. split; [discriminate|].
    exists ("1C:Enterprise" ++ MoreSamples.crlf ++ "The contract was not found"
            ++ String (ascii_of_nat 13) ""), (ascii_of_nat 10).
    split; reflexivity.
  - destruct (proj2 (dialog_text_spec (Some MoreSamples.one_liner) None
                       MoreSamples.one_liner (Dialog.mkDialogState "x" []) eq_refl)
                _ eq_refl eq_refl)
      as (r & st' & Hrun & _ & _ & _ & Hone & _).
    rewrite Hrun. cbn [fst]. apply Hone; [discriminate | reflexivity].
Defined.

(** ** The statements of main.py against the tables of prepare_tables *)

Lemma missing_none (defs : list DbManager.table_def) (names : list string) (name : string) :
  Queries.missing defs names = None -> In name names ->
  existsb (fun def => Queries.has_column def name) defs = true.
Proof.
  intros Hnone Hin. pose proof (List.find_none _ _ Hnone name Hin) as Hname.
  cbn beta in Hname. apply negb_false_iff in Hname. exact Hname.
Qed.

Lemma enter_tables (db : DbManager.db_state) :
  DbManager.enter db
  = (Ok tt,
     DbManager.mkDb
       (DbManager.ensure DbManager.errors (DbManager.ensure DbManager.macros
          (DbManager.ensure DbManager.interest_rates
             (DbManager.ensure DbManager.contracts
                (DbManager.ensure DbManager.banks (DbManager.tables db))))))
       "WAL" (DbManager.db_log db)).
Proof.
  unfold DbManager.enter, Py.pbind. rewrite prepare_tables_runs. reflexivity.
Qed.

Lemma enter_makes (db : DbManager.db_state) (def : DbManager.table_def) :
  In def [DbManager.contracts; DbManager.interest_rates; DbManager.errors] ->
  DbManager.tables db !! DbManager.t_name def = None ->
  DbManager.tables (snd (DbManager.enter db)) !! DbManager.t_name def
  = Some (DbManager.mkTable def []).
Proof.
  intros Hin Hnone. rewrite enter_tables. cbn [snd DbManager.tables].
  rewrite !lookup_ensure, Hnone.
  destruct Hin as [<-|[<-|[<-|[]]]];
    repeat (destruct (decide _) as [Heq|Hne];
            [try discriminate Heq | try (exfalso; apply Hne; reflexivity)]);
    reflexivity.
Qed.

Lemma enter_has_errors (db : DbManager.db_state) :
  is_Some (DbManager.tables (snd (DbManager.enter db)) !! "errors").
Proof.
  rewrite enter_tables. cbn [snd DbManager.tables]. rewrite lookup_ensure.
  destruct (_ !! "errors"); [eexists; reflexivity|].
  destruct (decide _) as [_|Hne]; [eexists; reflexivity|].
  exfalso. apply Hne. reflexivity.
Qed.

(** The statement of [Contract.iter_contracts] names a column
    [decision_date], and the table [contracts] that [prepare_tables] declares
    has none.  So the statement is accepted only by a database whose
    [contracts] table was declared elsewhere, with that column; on a database
    that had no [contracts] table before [__enter__], [iter_contracts] yields
    nothing and raises the engine's error, which [execute] logs.  The
    statement of [InterestRate.load] names columns of [interest_rates] that
    are all declared, and is accepted. *)
Theorem iter_contracts_needs_decision_date {C : Type}
  (fetch : Queries.select -> DbManager.db_state -> list (list value))
  (make : list value -> result C) (db : DbManager.db_state) :
  (forall rows db',
     Queries.execute_select fetch Queries.contracts_select db = (Ok rows, db') ->
     exists t,
       DbManager.tables db !! "contracts" = Some t
       /\ Queries.has_column (DbManager.declared t) "decision_date" = true)
  /\ Queries.has_column DbManager.contracts "decision_date" = false
  /\ (DbManager.tables db !! "contracts" = None ->
      let db1 := snd (DbManager.enter db) in
      DbManager.enter db = (Ok tt, db1)
      /\ Queries.iter_contracts fetch make db1
         = (([], Some (Queries.no_column "decision_date")),
            DbManager.mkDb (DbManager.tables db1) (DbManager.journal_mode db1)
              (DbManager.db_log db
               ++ ["Database error: no such column: decision_date"])%list))
  /\ (DbManager.tables db !! "interest_rates" = None ->
      let db1 := snd (DbManager.enter db) in
      Queries.execute_select fetch Queries.rate_select db1
      = (Ok (fetch Queries.rate_select db1), db1)).
Proof.
  split; [|split; [reflexivity|split]].
  - intros rows db' Hrun. unfold Queries.execute_select, Queries.prepare in Hrun.
    cbn [Queries.sel_from Queries.sel_inner Queries.sel_columns Queries.contracts_select]
      in Hrun.
    destruct (DbManager.tables db !! "contracts") as [t|]; [|discriminate].
    exists t. split; [reflexivity|].
    destruct (DbManager.tables db !! "errors") as [e|]; [|discriminate].
    destruct (Queries.missing [DbManager.declared t] _) as [name|] eqn:Hmissing;
      [discriminate|].
    pose proof (missing_none _ _ "decision_date" Hmissing) as Hcol.
    cbn [existsb] in Hcol. rewrite orb_false_r in Hcol. apply Hcol.
    cbn. tauto.
  - intros Hnone db1. split; [unfold db1; rewrite enter_tables; reflexivity|].
    pose proof (enter_makes db DbManager.contracts ltac:(cbn; tauto) Hnone) as Hcontracts.
    destruct (enter_has_errors db) as [e He].
    fold db1 in Hcontracts, He.
    unfold Queries.iter_contracts, Queries.execute_select, Queries.prepare.
    cbn [Queries.sel_from Queries.sel_inner Queries.sel_columns Queries.contracts_select].
    change (DbManager.t_name DbManager.contracts) with "contracts" in Hcontracts.
    rewrite Hcontracts, He. cbn [DbManager.declared].
    assert (Queries.missing [DbManager.contracts]
              (Queries.sel_columns Queries.contracts_select)
            = Some "decision_date") as Hmissing by (vm_compute; reflexivity).
    cbn [Queries.sel_columns Queries.contracts_select] in Hmissing. rewrite Hmissing.
    unfold db1 at 3. rewrite enter_tables. reflexivity.
  - intros Hnone db1.
    pose proof (enter_makes db DbManager.interest_rates ltac:(cbn; tauto) Hnone) as Hrates.
    fold db1 in Hrates.
    unfold Queries.execute_select, Queries.prepare.
    cbn [Queries.sel_from Queries.sel_inner Queries.sel_columns Queries.rate_select].
    change (DbManager.t_name DbManager.interest_rates) with "interest_rates" in Hrates.
    rewrite Hrates. cbn [DbManager.declared].
    assert (Queries.missing [DbManager.interest_rates]
              (Queries.sel_columns Queries.rate_select)
            = None) as Hmissing by (vm_compute; reflexivity).
    cbn [Queries.sel_columns Queries.rate_select] in Hmissing. rewrite Hmissing.
    reflexivity.
Qed.

(** The database with one bank and no other table: after [__enter__] the
    contracts cannot be read. *)
Lemma iter_contracts_example :
  fst (Queries.iter_contracts (fun _ _ => []) (fun _ => Ok tt)
         (snd (DbManager.enter Samples.bank_db)))
  = ([], Some (mkExn SqliteError "no such column: decision_date")).
Proof.
  destruct (proj1 (proj2 (proj2 (iter_contracts_needs_decision_date
                                   (fun _ _ => []) (fun _ => Ok tt) Samples.bank_db)))
              ltac:(vm_compute; reflexivity)) as [_ Hrun].
  rewrite Hrun. reflexivity.
Defined.

(** ** App.find_and_click_button *)

Lemma text_eqb_eq (a b : Unicode.text) : Unicode.eqb a b = true <-> a = b.
Proof.
  revert b. induction a as [|x a IH]; intros [|y b]; cbn [Unicode.eqb];
    try (split; [discriminate | discriminate]); [tauto|].
  rewrite andb_true_iff, N.eqb_eq, IH. split; [intros [-> ->]; reflexivity|].
  intros [= -> ->]. tauto.
Qed.

Lemma text_eqb_refl (a : Unicode.text) : Unicode.eqb a a = true.
Proof. apply text_eqb_eq. reflexivity. Qed.

Lemma text_eqb_neq (a b : Unicode.text) : Unicode.eqb a b = false <-> a <> b.
Proof.
  rewrite <- text_eqb_eq. destruct (Unicode.eqb a b); split; congruence.
Qed.

Section FindAndClickButtonProps.

Import Toolbar.

Variable status : list event -> result Unicode.text.
Variable target : Unicode.text.
Variable horizontal : bool.
Variable start_point end_point : Z.

Abbreviation scan_loop := (Toolbar.scan status target horizontal).

(** The status bar never shows the name of the button. *)
Hypothesis never_shown :
  forall tr, exists shown, status tr = Ok shown /\ Unicode.strip shown <> target.

Lemma scan_poll (tr : list event) :
  exists shown,
    status tr = Ok shown /\ Unicode.eqb (Unicode.strip shown) target = false.
Proof.
  destruct (never_shown tr) as (shown & Hshown & Hne).
  exists shown. split; [exact Hshown | apply text_eqb_neq, Hne].
Qed.

Lemma count_app (f : event -> bool) (a b : list event) :
  count f (a ++ b) = (count f a + count f b)%nat.
Proof. unfold count. rewrite List.filter_app, length_app. reflexivity. Qed.

(** [n] more moves of a pass: the last of them passes the end point. *)
Lemma scan_moves (n : nat) :
  forall st tr,
    0 < step st -> 0 <= i st -> (n <> O -> point st <= end_point) ->
    (forall j, (S j < n)%nat ->
       start_point + (i st + Z.of_nat j) * step st <= end_point) ->
    exists st' tr',
      (forall fuel,
         scan_loop (n + fuel) start_point end_point st tr
         = scan_loop fuel start_point end_point st' tr')
      /\ step st' = step st /\ error_count st' = error_count st
      /\ i st' = i st + Z.of_nat n
      /\ (n <> O -> point st' = start_point + (i st + Z.of_nat n - 1) * step st)
      /\ (n = O -> st' = st)
      /\ count is_move tr' = (count is_move tr + n)%nat
      /\ count is_click tr' = count is_click tr
      /\ count is_logged_point tr' = count is_logged_point tr.
Proof.
  induction n as [|n IH]; intros st tr Hstep Hi Hpoint Hbelow.
  - exists st, tr. repeat split; try reflexivity; lia.
  - destruct (scan_poll tr) as (shown & Hshown & Hne).
    set (p := start_point + i st * step st).
    set (st1 := mkScan p (i st + 1) (step st) (error_count st)
                  (if horizontal then p else x st) (if horizontal then y st else p)).
    assert (n <> O -> p <= end_point) as Hp.
    { intros Hn. specialize (Hbelow O ltac:(lia)). unfold p.
      replace (i st) with (i st + Z.of_nat 0) by lia. exact Hbelow. }
    specialize (Hpoint ltac:(discriminate)).
    destruct (IH st1 (tr ++ [MouseMove (x st1) (y st1)])%list) as
      (st' & tr' & Hrun & Hstep' & Hec & Hi' & Hpoint' & Hsame & Hmoves & Hclicks & Hlogs).
    + exact Hstep.
    + cbn [i st1]. lia.
    + exact Hp.
    + intros j Hj. cbn [i step st1]. specialize (Hbelow (S j) ltac:(lia)).
      replace (i st + 1 + Z.of_nat j) with (i st + Z.of_nat (S j)) by lia. exact Hbelow.
    + exists st', tr'. split; [|repeat split].
      * intros fuel. cbn [Nat.add scan]. rewrite Hshown, Hne.
        destruct (Z.ltb_spec end_point (point st)) as [?|_]; [lia|].
        apply Hrun.
      * exact Hstep'.
      * exact Hec.
      * rewrite Hi'. cbn [i st1]. lia.
      * intros _. destruct n as [|n].
        -- rewrite (Hsame eq_refl). cbn [point st1]. unfold p. f_equal. lia.
        -- rewrite Hpoint' by discriminate. cbn [i step st1]. f_equal. lia.
      * discriminate.
      * rewrite Hmoves, count_app. cbn. lia.
      * rewrite Hclicks, count_app. cbn. lia.
      * rewrite Hlogs, count_app. cbn. lia.
Qed.

(** One pass from its start to the error that ends it. *)
Lemma scan_sweep (st : scan_state) (tr : list event) :
  0 < step st -> point st = 0 -> i st = 0 ->
  exists st' tr',
    (forall fuel,
       scan_loop (sweep_moves start_point end_point (step st) + S fuel)
         start_point end_point st tr
       = if 3 <=? error_count st + 1
         then Some (Raise (mkExn ElementNotFoundError ""), tr')
         else scan_loop fuel start_point end_point st' tr')
    /\ point st' = 0 /\ i st' = 0 /\ step st' = clamp (step st)
    /\ error_count st' = error_count st + 1
    /\ count is_move tr'
       = (count is_move tr + sweep_moves start_point end_point (step st))%nat
    /\ count is_click tr' = count is_click tr
    /\ count is_logged_point tr' = S (count is_logged_point tr).
Proof.
  intros Hstep Hpoint Hi.
  set (n := sweep_moves start_point end_point (step st)).
  assert (forall j, (S j < n)%nat ->
            start_point + (i st + Z.of_nat j) * step st <= end_point) as Hbelow.
  { intros j Hj. unfold n, sweep_moves in Hj. rewrite Hi.
    destruct (Z.ltb_spec end_point 0); [lia|].
    destruct (Z.ltb_spec end_point start_point); [lia|].
    pose proof (Z.mul_div_le (end_point - start_point) (step st) Hstep).
    pose proof (Z.div_pos (end_point - start_point) (step st) ltac:(lia) Hstep).
    assert (Z.of_nat j <= (end_point - start_point) / step st) by lia. nia. }
  assert (n <> O -> end_point < start_point + (Z.of_nat n - 1) * step st) as Hpast.
  { intros Hn. unfold n, sweep_moves in *.
    destruct (Z.ltb_spec end_point 0); [contradiction|].
    destruct (Z.ltb_spec end_point start_point); [cbn; lia|].
    pose proof (Z.div_pos (end_point - start_point) (step st) ltac:(lia) Hstep).
    pose proof (Z.mod_pos_bound (end_point - start_point) (step st) Hstep).
    pose proof (Z.div_mod (end_point - start_point) (step st) ltac:(lia)). nia. }
  assert (n = O -> end_point < 0) as Hnone.
  { unfold n, sweep_moves. destruct (Z.ltb_spec end_point 0); [lia|].
    destruct (Z.ltb_spec end_point start_point); [discriminate|].
    pose proof (Z.div_pos (end_point - start_point) (step st) ltac:(lia) Hstep). lia. }
  assert (n <> O -> point st <= end_point) as Hstart.
  { intros Hn. rewrite Hpoint. unfold n, sweep_moves in Hn.
    destruct (Z.ltb_spec end_point 0); [contradiction | lia]. }
  assert (exists st1 tr1,
            (forall fuel,
               scan_loop (n + fuel) start_point end_point st tr
               = scan_loop fuel start_point end_point st1 tr1)
            /\ step st1 = step st /\ error_count st1 = error_count st
            /\ end_point < point st1
            /\ count is_move tr1 = (count is_move tr + n)%nat
            /\ count is_click tr1 = count is_click tr
            /\ count is_logged_point tr1 = count is_logged_point tr)
    as (st1 & tr1 & Hrun & Hstep1 & Hec1 & Hpoint1 & Hmoves & Hclicks & Hlogs).
  { destruct n as [|m] eqn:Hn.
    - exists st, tr. repeat split; try reflexivity.
      + rewrite Hpoint. apply Hnone. reflexivity.
      + unfold count. lia.
    - destruct (scan_moves (S m) st tr Hstep ltac:(lia) Hstart Hbelow)
        as (st1 & tr1 & Hrun & Hstep1 & Hec1 & Hi1 & Hpoint1 & _ & Hmoves & Hclicks & Hlogs).
      exists st1, tr1. repeat split; try assumption.
      rewrite Hpoint1 by discriminate. rewrite Hi.
      specialize (Hpast ltac:(discriminate)). lia. }
  destruct (scan_poll tr1) as (shown & Hshown & Hne).
  exists (mkScan 0 0 (clamp (step st1)) (error_count st1 + 1) (x st1) (y st1)),
    (tr1 ++ [LoggedPoint (point st1) end_point; LoggedButton (Unicode.strip shown) target])%list.
  split; [|repeat split].
  - intros fuel.
    replace (n + S fuel)%nat with (n + S fuel)%nat by reflexivity.
    rewrite Hrun. cbn [scan]. rewrite Hshown, Hne.
    destruct (Z.ltb_spec end_point (point st1)) as [_|?]; [|lia].
    cbn [error_count]. rewrite Hec1. reflexivity.
  - cbn. rewrite Hstep1. reflexivity.
  - cbn. rewrite Hec1. reflexivity.
  - rewrite count_app, Hmoves. cbn. lia.
  - rewrite count_app, Hclicks. cbn. lia.
  - rewrite count_app, Hlogs. cbn. lia.
Qed.

Lemma clamp_pos (s : Z) : 0 < s -> 0 < clamp s.
Proof. unfold clamp. destruct (Z.ltb_spec 5 s); lia. Qed.

Lemma clamp_clamp (s : Z) : clamp (clamp s) = clamp s.
Proof. unfold clamp. destruct (Z.ltb_spec 5 s); [reflexivity|].
  destruct (Z.ltb_spec 5 s); [lia | reflexivity]. Qed.

(** Three passes and the loop gives up. *)
Lemma scan_gives_up (st : scan_state) (tr : list event) :
  0 < step st -> point st = 0 -> i st = 0 -> error_count st = 0 ->
  exists fuel tr',
    (forall more,
       scan_loop (fuel + more) start_point end_point st tr
       = Some (Raise (mkExn ElementNotFoundError ""), tr'))
    /\ count is_move tr'
       = (count is_move tr + sweep_moves start_point end_point (step st)
          + 2 * sweep_moves start_point end_point (clamp (step st)))%nat
    /\ count is_click tr' = count is_click tr
    /\ count is_logged_point tr' = (count is_logged_point tr + 3)%nat.
Proof.
  intros Hstep Hpoint Hi Hec.
  destruct (scan_sweep st tr Hstep Hpoint Hi)
    as (st1 & tr1 & Hrun1 & Hp1 & Hi1 & Hs1 & Hec1 & Hm1 & Hc1 & Hl1).
  destruct (scan_sweep st1 tr1 ltac:(rewrite Hs1; apply clamp_pos, Hstep) Hp1 Hi1)
    as (st2 & tr2 & Hrun2 & Hp2 & Hi2 & Hs2 & Hec2 & Hm2 & Hc2 & Hl2).
  destruct (scan_sweep st2 tr2
              ltac:(rewrite Hs2, Hs1; apply clamp_pos, clamp_pos, Hstep) Hp2 Hi2)
    as (st3 & tr3 & Hrun3 & _ & _ & _ & _ & Hm3 & Hc3 & Hl3).
  rewrite Hs2, Hs1, clamp_clamp in Hm3, Hrun3. rewrite Hs1 in Hm2, Hrun2.
  rewrite Hec in Hrun1. rewrite Hec1, Hec in Hrun2. rewrite Hec2, Hec1, Hec in Hrun3.
  cbn [Z.leb Z.add Z.compare Pos.compare Pos.add Pos.compare_cont Pos.succ] in Hrun1, Hrun2, Hrun3.
  set (m1 := sweep_moves start_point end_point (step st)) in *.
  set (m2 := sweep_moves start_point end_point (clamp (step st))) in *.
  exists (m1 + S (m2 + S (m2 + 1)))%nat, tr3. split; [|repeat split].
  - intros more.
    replace (m1 + S (m2 + S (m2 + 1)) + more)%nat
      with (m1 + S (m2 + S (m2 + S more)))%nat by lia.
    rewrite Hrun1, Hrun2, Hrun3. reflexivity.
  - lia.
  - lia.
  - lia.
Qed.

(** With a step that is not positive the mouse never gets past the end
    point, and the loop goes on. *)
Lemma scan_never_ends (fuel : nat) :
  forall st tr,
    step st <= 0 -> 0 <= i st -> point st <= end_point -> start_point <= end_point ->
    scan_loop fuel start_point end_point st tr = None.
Proof.
  induction fuel as [|fuel IH]; intros st tr Hstep Hi Hpoint Hstart; [reflexivity|].
  cbn [scan]. destruct (scan_poll tr) as (shown & Hshown & Hne). rewrite Hshown, Hne.
  destruct (Z.ltb_spec end_point (point st)) as [?|_]; [lia|].
  apply IH; cbn; try lia; nia.
Qed.

End FindAndClickButtonProps.

(** [find_and_click_button] with the window focused, an application at
    hand and a toolbar that has a rectangle.  When the status bar shows the
    name of the button at once, the mouse goes to the middle of the toolbar
    and clicks [offset] pixels further; nothing is scanned.  When the status
    bar never shows the name and the step is positive, the call passes over
    the toolbar three times, the second and third time with a step of at most
    five, logs the three failures and raises [ElementNotFoundError] without a
    click.  When the step is not positive, with the end point not before the
    start point and not negative, it never comes back. *)
Theorem find_and_click_button_scan (status : list Toolbar.event -> result Unicode.text)
  (target : Unicode.text) (horizontal : bool) (offset step : Z) (r : Toolbar.rect) :
  let run fuel :=
    Toolbar.find_and_click_button (Ok tt) true (Ok r) status target horizontal offset
      fuel step in
  let start_point := Toolbar.start_of horizontal r in
  let end_point := Toolbar.end_of horizontal r in
  (forall shown fuel,
     status [Toolbar.MouseMove (Toolbar.mid_x r) (Toolbar.mid_y r)] = Ok shown ->
     Unicode.strip shown = target ->
     let x := Toolbar.mid_x r + (if horizontal then offset else 0) in
     let y := Toolbar.mid_y r + (if horizontal then 0 else offset) in
     run (S fuel)
     = Some (Ok (x, y),
             [Toolbar.MouseMove (Toolbar.mid_x r) (Toolbar.mid_y r);
              Toolbar.MouseClick x y]))
  /\ ((forall tr, exists shown, status tr = Ok shown /\ Unicode.strip shown <> target) ->
      0 < step ->
      exists fuel tr,
        (forall more,
           run (fuel + more)%nat = Some (Raise (mkExn ElementNotFoundError ""), tr))
        /\ Toolbar.count Toolbar.is_move tr
           = (1 + Toolbar.sweep_moves start_point end_point step
              + 2 * Toolbar.sweep_moves start_point end_point (Toolbar.clamp step))%nat
        /\ Toolbar.count Toolbar.is_click tr = O
        /\ Toolbar.count Toolbar.is_logged_point tr = 3%nat)
  /\ ((forall tr, exists shown, status tr = Ok shown /\ Unicode.strip shown <> target) ->
      step <= 0 -> 0 <= end_point -> start_point <= end_point ->
      forall fuel, run fuel = None).
Proof.
  intros run start_point end_point. split; [|split].
  - intros shown fuel Hshown Hstrip x y. unfold run, Toolbar.find_and_click_button.
    cbn [negb Toolbar.scan]. rewrite Hshown, Hstrip, text_eqb_refl.
    cbn [Toolbar.x Toolbar.y app]. unfold x, y. destruct horizontal; reflexivity.
  - intros Hnever Hstep.
    destruct (scan_gives_up status target horizontal start_point end_point Hnever
                (Toolbar.mkScan 0 0 step 0 (Toolbar.mid_x r) (Toolbar.mid_y r))
                [Toolbar.MouseMove (Toolbar.mid_x r) (Toolbar.mid_y r)]
                Hstep eq_refl eq_refl eq_refl)
      as (fuel & tr & Hrun & Hmoves & Hclicks & Hlogs).
    exists fuel, tr. split; [|repeat split].
    + intros more. unfold run, Toolbar.find_and_click_button. cbn [negb].
      fold start_point end_point. rewrite Hrun. reflexivity.
    + rewrite Hmoves. cbn [Toolbar.step]. reflexivity.
    + rewrite Hclicks. reflexivity.
    + rewrite Hlogs. reflexivity.
  - intros Hnever Hstep Hend Hstart fuel. unfold run, Toolbar.find_and_click_button.
    cbn [negb]. fold start_point end_point.
    rewrite (scan_never_ends status target horizontal start_point end_point Hnever fuel);
      [reflexivity | exact Hstep | cbn; lia | exact Hend | exact Hstart].
Qed.

(** A toolbar from 100 with its middle at 130, scanned in steps of ten for
    a button that is not there: five moves, then twice eight in steps of
    five, after the move to the middle.  When the status bar shows the
    Cyrillic name of the button between a space and a no-break space, the
    button is clicked at once. *)
Lemma find_and_click_button_example :
  (exists fuel tr,
     Toolbar.find_and_click_button (Ok tt) true (Ok MoreSamples.toolbar)
       MoreSamples.shows_file (Unicode.of_string "Save") true 5 fuel 10
     = Some (Raise (mkExn ElementNotFoundError ""), tr)
     /\ Toolbar.count Toolbar.is_move tr = 22%nat
     /\ Toolbar.count Toolbar.is_click tr = O)
  /\ Toolbar.find_and_click_button (Ok tt) true (Ok MoreSamples.toolbar)
       MoreSamples.shows_workshop Samples.workshop true 5 1 10
     = Some (Ok (135, 12), [Toolbar.MouseMove 130 12; Toolbar.MouseClick 135 12]).
Proof.
  split.
  - destruct (proj1 (proj2 (find_and_click_button_scan MoreSamples.shows_file
                              (Unicode.of_string "Save") true 5 10 MoreSamples.toolbar)))
      as (fuel & tr & Hrun & Hmoves & Hclicks & _).
    + intros tr. exists (Unicode.of_string " File ").
      split; [reflexivity | vm_compute; discriminate].
    + reflexivity.
    + exists fuel, tr. split; [|split].
      * rewrite <- (Hrun O). f_equal. lia.
      * exact Hmoves.
      * exact Hclicks.
  - apply (proj1 (find_and_click_button_scan MoreSamples.shows_workshop Samples.workshop
                    true 5 10 MoreSamples.toolbar)
             (32%N :: Samples.workshop ++ [Samples.nbsp])%list 0%nat);
      reflexivity.
Defined.

(** ** click_type_keys *)

Lemma replace_char_app (old : ascii) (new a b : string) :
  Keys.replace_char old new (a ++ b)
  = Keys.replace_char old new a ++ Keys.replace_char old new b.
Proof.
  induction a as [|c a IH]; [reflexivity|].
  change (String c a ++ b) with (String c (a ++ b)). cbn [Keys.replace_char].
  rewrite IH, string_app_assoc'. reflexivity.
Qed.

Lemma replace_char_single (old : ascii) (new : string) (c : ascii) :
  Keys.replace_char old new (String c EmptyString)
  = if Ascii.eqb c old then new else String c EmptyString.
Proof. cbn [Keys.replace_char]. apply string_app_nil_r. Qed.

(** The three replacements in a row come to one pass over the text: what
    an earlier one puts in is not touched by a later one. *)
Lemma replace_chars_escape (s : string) :
  Keys.replace_char ")" "{)}"
    (Keys.replace_char "(" "{(}" (Keys.replace_char Keys.newline "{ENTER}" s))
  = Keys.escape s.
Proof.
  induction s as [|c rest IH]; [reflexivity|].
  cbn [Keys.replace_char Keys.escape]. rewrite !replace_char_app, IH. f_equal.
  unfold Keys.escape_char.
  destruct (Ascii.eqb c Keys.newline) eqn:Hnl; [reflexivity|].
  rewrite replace_char_single. destruct (Ascii.eqb c "(") eqn:Hopen; [reflexivity|].
  apply replace_char_single.
Qed.

Lemma sleep_arg_negative (q : Q) :
  (q < 0)%Q ->
  exists e,
    Automation.sleep_arg (Automation.Finite q) = Raise e
    /\ (exn_class e = ValueError \/ exn_class e = OverflowError).
Proof.
  intros Hneg. cbn [Automation.sleep_arg].
  destruct (Automation.sleepable q); [|eexists; split; [reflexivity | right; reflexivity]].
  destruct (Qle_bool 0 q) eqn:Hle.
  - apply Qle_bool_iff in Hle. exfalso. apply (Qlt_not_le _ _ Hneg Hle).
  - eexists. split; [reflexivity | left; reflexivity].
Qed.

(** [click_type_keys] clicks once (twice on [double]), sleeps [delay] and
    sends one sequence of keys: [{DELETE}] first when [cls] is set, then the
    text, then [{ENTER}+{TAB}] when [ent] is set.  With [escape_chars] every
    line break of the text is sent as [{ENTER}] and every parenthesis in
    braces, and every other character as it is.  When the click fails nothing
    is slept and nothing is sent; when [sleep] refuses the delay, as it does
    a negative one, the click has been made and nothing is sent. *)
Theorem click_type_keys_spec (py_str : value -> string)
  (click_input double_click_input : result unit)
  (send_keys : string -> Q -> bool -> result unit)
  (text : string) (delay : Automation.seconds) (pause : Q)
  (double cls ent spaces escape_chars : bool)
  (tr : list Keys.key_event) :
  let keys :=
    ((if cls then "{DELETE}" else "")
     ++ (if escape_chars then Keys.escape text else text)
     ++ (if ent then "{ENTER}+{TAB}" else ""))%string in
  let click := if double then double_click_input else click_input in
  let clicked := if double then Keys.DoubleClicked else Keys.Clicked in
  let run :=
    Keys.click_type_keys py_str click_input double_click_input send_keys (VStr text)
      delay pause double cls ent spaces escape_chars tr in
  (forall q,
     click = Ok tt ->
     Automation.sleep_arg delay = Ok q ->
     run = (send_keys keys pause spaces,
            (tr ++ [clicked; Keys.Slept q; Keys.SentKeys keys pause spaces])%list))
  /\ (forall e,
        click = Ok tt ->
        Automation.sleep_arg delay = Raise e ->
        run = (Raise e, (tr ++ [clicked])%list))
  /\ (forall q,
        click = Ok tt ->
        delay = Automation.Finite q ->
        (q < 0)%Q ->
        exists e,
          run = (Raise e, (tr ++ [clicked])%list)
          /\ (exn_class e = ValueError \/ exn_class e = OverflowError))
  /\ (forall e, click = Raise e -> run = (Raise e, (tr ++ [clicked])%list)).
Proof.
  intros keys click clicked run.
  assert ((let k0 := if escape_chars
                     then Keys.replace_char ")" "{)}"
                            (Keys.replace_char "(" "{(}"
                               (Keys.replace_char Keys.newline "{ENTER}" text))
                     else text in
           let k1 := if cls then "{DELETE}" ++ k0 else k0 in
           if ent then k1 ++ "{ENTER}+{TAB}" else k1) = keys) as Hkeys.
  { unfold keys. rewrite replace_chars_escape.
    destruct escape_chars, cls, ent; cbn zeta;
      rewrite ?string_app_nil_r, ?string_app_assoc'; reflexivity. }
  assert (forall e,
            click = Ok tt ->
            Automation.sleep_arg delay = Raise e ->
            run = (Raise e, (tr ++ [clicked])%list)) as Hrefused.
  { intros e Hclick Hsleep. unfold run, Keys.click_type_keys, Keys.py_sleep.
    cbn zeta. rewrite Hsleep. unfold click, clicked in *.
    unfold Py.pbind, Py.emit, Py.lift, Py.raise.
    destruct double; rewrite Hclick; reflexivity. }
  split; [|split; [|split]].
  - intros q Hclick Hsleep. unfold run, Keys.click_type_keys, Keys.py_sleep.
    cbn zeta in Hkeys |- *. rewrite Hkeys, Hsleep. unfold click, clicked in *.
    unfold Py.pbind, Py.emit, Py.lift.
    destruct double; rewrite Hclick; rewrite <- !app_assoc; reflexivity.
  - exact Hrefused.
  - intros q Hclick -> Hneg.
    destruct (sleep_arg_negative q Hneg) as (e & Hsleep & Hclass).
    exists e. split; [apply Hrefused; assumption | exact Hclass].
  - intros e Hclick. unfold run, Keys.click_type_keys. cbn zeta.
    unfold click, clicked in *. unfold Py.pbind, Py.emit, Py.lift.
    destruct double; rewrite Hclick; reflexivity.
Qed.

(** A purpose with a parenthesis and a line break, typed into a field that
    is cleared first; and the same with a delay of minus a tenth of a second,
    where the field is clicked and nothing is typed. *)
Lemma click_type_keys_example :
  Keys.click_type_keys (fun _ => "") (Ok tt) (Ok tt) (fun _ _ _ => Ok tt)
    (VStr ("POS (2025)" ++ String Keys.newline "new")) (Automation.Finite (1 # 10))
    (1 # 20) false true false false true []
  = (Ok tt,
     [Keys.Clicked; Keys.Slept (1 # 10);
      Keys.SentKeys "{DELETE}POS {(}2025{)}{ENTER}new" (1 # 20) false])
  /\ Keys.click_type_keys (fun _ => "") (Ok tt) (Ok tt) (fun _ _ _ => Ok tt)
       (VStr ("POS (2025)" ++ String Keys.newline "new")) (Automation.Finite (- 1 # 10))
       (1 # 20) false true false false true []
     = (Raise (mkExn ValueError "sleep length must be non-negative"), [Keys.Clicked]).
Proof.
  split.
  - exact (proj1 (click_type_keys_spec (fun _ => "") (Ok tt) (Ok tt) (fun _ _ _ => Ok tt)
                    ("POS (2025)" ++ String Keys.newline "new")
                    (Automation.Finite (1 # 10)) (1 # 20)
                    false true false false true [])
             (1 # 10)%Q eq_refl eq_refl).
  - exact (proj1 (proj2 (click_type_keys_spec (fun _ => "") (Ok tt) (Ok tt)
                           (fun _ _ _ => Ok tt)
                           ("POS (2025)" ++ String Keys.newline "new")
                           (Automation.Finite (- 1 # 10)) (1 # 20)
                           false true false false true []))
             (mkExn ValueError "sleep length must be non-negative") eq_refl eq_refl).
Defined.

(** ** print_element_tree *)

Lemma numbered_ext (lines : list Tree.line) :
  forall f g, (forall c, f c = g c) -> Tree.numbered f lines -> Tree.numbered g lines.
Proof.
  induction lines as [|l rest IH]; intros f g Hfg; [trivial|].
  cbn [Tree.numbered]. intros [Hidx Hrest]. split; [rewrite <- Hfg; exact Hidx|].
  eapply IH; [|exact Hrest]. intros c. cbn beta. rewrite Hfg. reflexivity.
Qed.

Lemma seen_cons (c : string) (l : Tree.line) (rest : list Tree.line) :
  Tree.seen c (l :: rest)
  = (if String.eqb c (Tree.l_ctrl l) then 1 else 0) + Tree.seen c rest.
Proof.
  unfold Tree.seen. cbn [List.filter]. rewrite (String.eqb_sym c).
  destruct (String.eqb (Tree.l_ctrl l) c); cbn [length]; lia.
Qed.

Lemma seen_app (c : string) (a b : list Tree.line) :
  Tree.seen c (a ++ b) = Tree.seen c a + Tree.seen c b.
Proof. unfold Tree.seen. rewrite List.filter_app, length_app. lia. Qed.

Lemma numbered_app (a b : list Tree.line) :
  forall f,
    Tree.numbered f a -> Tree.numbered (fun c => f c + Tree.seen c a) b ->
    Tree.numbered f (a ++ b).
Proof.
  induction a as [|l rest IH]; intros f Ha Hb.
  - eapply numbered_ext; [|exact Hb]. intros c. unfold Tree.seen. cbn. lia.
  - destruct Ha as [Hidx Hrest]. cbn [app Tree.numbered]. split; [exact Hidx|].
    apply IH; [exact Hrest|]. eapply numbered_ext; [|exact Hb].
    intros c. cbn beta. rewrite seen_cons.
    destruct (String.eqb c (Tree.l_ctrl l)); lia.
Qed.

Lemma node_tree_ind (P : Tree.node -> Prop) :
  (forall ctrl text rectangle kids,
     Forall P kids -> P (Tree.Node ctrl text rectangle kids)) ->
  forall e, P e.
Proof.
  intros Hstep. fix tree_ind 1. intros [ctrl text rectangle kids]. apply Hstep.
  induction kids as [|kid rest IH]; constructor; [apply tree_ind | exact IH].
Qed.

Lemma next_index_insert (counters : gmap string Z) (ctrl c : string) (n : Z) :
  Tree.next_index (<[ctrl := n]> counters) c
  = if String.eqb c ctrl then n else Tree.next_index counters c.
Proof.
  unfold Tree.next_index. destruct (String.eqb_spec c ctrl) as [->|Hne].
  - rewrite lookup_insert_eq. reflexivity.
  - rewrite lookup_insert_ne by congruence. reflexivity.
Qed.

(** The walk appends to what is printed, and numbers what it appends. *)
Lemma walk_numbers (e : Tree.node) :
  forall limit depth counters out,
  exists counters' more,
    Tree.walk limit depth e (counters, out)
    = (counters',
       (out ++ Tree.mkLine (depth + 1)
                 (match e with Tree.Node ctrl _ _ _ => ctrl end)
                 (Tree.next_index counters (match e with Tree.Node ctrl _ _ _ => ctrl end))
                 (match e with Tree.Node _ text _ _ => text end)
                 (match e with Tree.Node _ _ rectangle _ => rectangle end)
               :: more)%list)
    /\ Tree.numbered
         (fun c =>
            if String.eqb c (match e with Tree.Node ctrl _ _ _ => ctrl end)
            then Tree.next_index counters c + 1 else Tree.next_index counters c) more
    /\ (forall c,
          Tree.next_index counters' c
          = (if String.eqb c (match e with Tree.Node ctrl _ _ _ => ctrl end)
             then Tree.next_index counters c + 1 else Tree.next_index counters c)
            + Tree.seen c more)
    /\ ((match e with Tree.Node _ _ rectangle _ => rectangle end) = None -> more = [])
    /\ (forall max_depth, limit = Some max_depth -> max_depth <= depth -> more = []).
Proof.
  induction e as [ctrl text rectangle kids IH] using node_tree_ind.
  intros limit depth counters out. cbn [Tree.walk].
  set (counters1 := <[ctrl := default 0 (counters !! ctrl) + 1]> counters).
  assert (default 0 (counters1 !! ctrl) - 1 = Tree.next_index counters ctrl) as ->.
  { unfold counters1. rewrite lookup_insert_eq. unfold Tree.next_index. cbn. lia. }
  assert (forall c, Tree.next_index counters1 c
                    = if String.eqb c ctrl then Tree.next_index counters c + 1
                      else Tree.next_index counters c) as Hnext.
  { intros c. unfold counters1. rewrite next_index_insert.
    destruct (String.eqb_spec c ctrl) as [->|_]; reflexivity. }
  set (l0 := Tree.mkLine (depth + 1) ctrl (Tree.next_index counters ctrl) text rectangle).
  assert (exists more,
            (counters1, (out ++ [l0])%list) = (counters1, (out ++ l0 :: more)%list)
            /\ more = []) as Hstop by (exists []; split; reflexivity).
  assert (forall c, Tree.next_index counters1 c
                    = (if String.eqb c ctrl then Tree.next_index counters c + 1
                       else Tree.next_index counters c) + Tree.seen c []) as Hnext0.
  { intros c. rewrite Hnext. unfold Tree.seen. cbn. lia. }
  destruct rectangle as [r|].
  2:{ exists counters1, []. repeat split; apply Hnext0. }
  destruct (match limit with None => true | Some m => depth <? m end) eqn:Hdeep.
  2:{ exists counters1, []. repeat split; apply Hnext0. }
  assert (forall cs o,
            exists cs' more,
              (fix each (children : list Tree.node) (st : gmap string Z * list Tree.line) :=
                 match children with
                 | [] => st
                 | child :: rest => each rest (Tree.walk limit (depth + 1) child st)
                 end) kids (cs, o)
              = (cs', (o ++ more)%list)
              /\ Tree.numbered (Tree.next_index cs) more
              /\ forall c, Tree.next_index cs' c = Tree.next_index cs c + Tree.seen c more)
    as Heach.
  { induction IH as [|kid rest Hkid _ IHrest]; intros cs o.
    - exists cs, []. rewrite app_nil_r. repeat split. intros c. unfold Tree.seen. cbn. lia.
    - destruct (Hkid limit (depth + 1) cs o)
        as (cs1 & more1 & Hrun1 & Hnum1 & Hcount1 & _).
      rewrite Hrun1.
      match type of Hrun1 with
      | _ = (_, (_ ++ ?l :: _)%list) => set (lk := l) in *
      end.
      destruct (IHrest cs1 (o ++ lk :: more1)%list) as (cs2 & more2 & Hrun2 & Hnum2 & Hcount2).
      rewrite Hrun2. exists cs2, (lk :: more1 ++ more2)%list.
      split; [rewrite <- app_assoc; reflexivity|]. split.
      + cbn [Tree.numbered]. split; [reflexivity|]. cbn [Tree.l_ctrl lk].
        apply numbered_app; [exact Hnum1|].
        eapply numbered_ext; [|exact Hnum2].
        intros c. cbn beta. rewrite Hcount1. reflexivity.
      + intros c. rewrite Hcount2, Hcount1, seen_cons, seen_app. cbn [Tree.l_ctrl lk].
        destruct (String.eqb c _); lia. }
  destruct (Heach counters1 (out ++ [l0])%list) as (cs' & more & Hrun & Hnum & Hcount).
  rewrite Hrun. exists cs', more. split; [rewrite <- app_assoc; reflexivity|].
  split; [apply (numbered_ext more _ _ Hnext Hnum)|]. split.
  - intros c. rewrite Hcount, Hnext. reflexivity.
  - split; [discriminate|]. intros m -> Hm.
    destruct (Z.ltb_spec depth m); [lia | discriminate].
Qed.

(** [print_element_tree] refuses a [max_depth] that is a negative number
    or no [int] at all, and prints nothing then.  Otherwise it prints the
    element first, and numbers the lines it prints: each carries the index
    that is next for its class in the dictionary of counters, zero for a class
    that is new, so that the indices of one class run up by one through the
    whole tree; the dictionary ends with the counts of what was printed added.
    An element whose rectangle cannot be read is printed without what is
    below it, and so is an element at the depth [max_depth]. *)
Theorem print_element_tree_spec (ctrl text : string) (rectangle : option string)
  (kids : list Tree.node) (max_depth : value) (counters : option (gmap string Z))
  (depth : Z) (out : list Tree.line) :
  let e := Tree.Node ctrl text rectangle kids in
  let start := default ∅ counters in
  ((match max_depth with
    | VNone | VBool _ => False
    | VInt n => n < 0
    | _ => True
    end) ->
   Tree.print_element_tree e max_depth counters depth out
   = (Raise (mkExn ValueError "max_depth must be a non-negative integer or None"), out))
  /\ (forall limit,
        Tree.depth_limit max_depth = Ok limit ->
        exists counters' more,
          Tree.print_element_tree e max_depth counters depth out
          = (Ok counters',
             (out ++ Tree.mkLine (depth + 1) ctrl (Tree.next_index start ctrl) text rectangle
                     :: more)%list)
          /\ Tree.numbered (Tree.next_index start)
               (Tree.mkLine (depth + 1) ctrl (Tree.next_index start ctrl) text rectangle
                :: more)
          /\ (forall c,
                Tree.next_index counters' c
                = Tree.next_index start c
                  + Tree.seen c
                      (Tree.mkLine (depth + 1) ctrl (Tree.next_index start ctrl) text
                         rectangle :: more))
          /\ (rectangle = None -> more = [])
          /\ (forall m, limit = Some m -> m <= depth -> more = [])).
Proof.
  intros e start. split.
  - intros Hbad. unfold Tree.print_element_tree, Tree.depth_limit.
    destruct max_depth as [|b|n|f|t|b]; try contradiction; try reflexivity.
    destruct (Z.ltb_spec n 0); [reflexivity | lia].
  - intros limit Hlimit. unfold Tree.print_element_tree. rewrite Hlimit.
    subst e start.
    destruct (walk_numbers (Tree.Node ctrl text rectangle kids) limit depth
                (default ∅ counters) out)
      as (counters' & more & Hrun & Hnum & Hcount & Hrect & Hdepth).
    rewrite Hrun.
    exists counters', more. split; [reflexivity|]. split.
    + cbn [Tree.numbered Tree.l_idx Tree.l_ctrl]. split; [reflexivity | exact Hnum].
    + split; [|split; [exact Hrect | exact Hdepth]].
      intros c. rewrite Hcount, seen_cons. cbn [Tree.l_ctrl].
      destruct (String.eqb c ctrl); lia.
Qed.

(** The sample form: the buttons are numbered 0, 1 and 2 across the tree,
    and what is below the button without a rectangle is left out. *)
Lemma print_element_tree_example :
  exists counters',
    Tree.print_element_tree MoreSamples.form_tree VNone None 0 []
    = (Ok counters',
       [Tree.mkLine 1 "Pane" 0 "Card" (Some "(L0, T0, R400, B300)");
        Tree.mkLine 2 "Button" 0 "OK" (Some "(L10, T10, R60, B30)");
        Tree.mkLine 2 "Button" 1 "Cancel" None;
        Tree.mkLine 2 "Edit" 0 "" (Some "(L10, T40, R200, B60)");
        Tree.mkLine 3 "Button" 2 "..." (Some "(L180, T40, R200, B60)")])
    /\ Tree.next_index counters' "Button" = 3.
Proof.
  destruct (proj2 (print_element_tree_spec "Pane" "Card" (Some "(L0, T0, R400, B300)")
                     (match MoreSamples.form_tree with Tree.Node _ _ _ kids => kids end)
                     VNone None 0 []) None eq_refl)
    as (counters' & more & Hrun & _ & Hcount & _).
  exists counters'. split.
  - etransitivity; [exact Hrun|]. f_equal.
    assert (snd (Tree.print_element_tree MoreSamples.form_tree VNone None 0 [])
            = [Tree.mkLine 1 "Pane" 0 "Card" (Some "(L0, T0, R400, B300)");
               Tree.mkLine 2 "Button" 0 "OK" (Some "(L10, T10, R60, B30)");
               Tree.mkLine 2 "Button" 1 "Cancel" None;
               Tree.mkLine 2 "Edit" 0 "" (Some "(L10, T40, R200, B60)");
               Tree.mkLine 3 "Button" 2 "..." (Some "(L180, T40, R200, B60)")])
      as Hout by (vm_compute; reflexivity).
    change (Tree.print_element_tree MoreSamples.form_tree VNone None 0 [])
      with (Tree.print_element_tree
              (Tree.Node "Pane" "Card" (Some "(L0, T0, R400, B300)")
                 (match MoreSamples.form_tree with Tree.Node _ _ _ kids => kids end))
              VNone None 0 []) in Hout.
    rewrite Hrun in Hout. exact Hout.
  - rewrite Hcount.
    assert (more = [Tree.mkLine 2 "Button" 0 "OK" (Some "(L10, T10, R60, B30)");
                    Tree.mkLine 2 "Button" 1 "Cancel" None;
                    Tree.mkLine 2 "Edit" 0 "" (Some "(L10, T40, R200, B60)");
                    Tree.mkLine 3 "Button" 2 "..." (Some "(L180, T40, R200, B60)")])
      as ->.
    { assert (snd (Tree.print_element_tree MoreSamples.form_tree VNone None 0 [])
              = [Tree.mkLine 1 "Pane" 0 "Card" (Some "(L0, T0, R400, B300)");
                 Tree.mkLine 2 "Button" 0 "OK" (Some "(L10, T10, R60, B30)");
                 Tree.mkLine 2 "Button" 1 "Cancel" None;
                 Tree.mkLine 2 "Edit" 0 "" (Some "(L10, T40, R200, B60)");
                 Tree.mkLine 3 "Button" 2 "..." (Some "(L180, T40, R200, B60)")])
        as Hout by (vm_compute; reflexivity).
      change (Tree.print_element_tree MoreSamples.form_tree VNone None 0 [])
        with (Tree.print_element_tree
                (Tree.Node "Pane" "Card" (Some "(L0, T0, R400, B300)")
                   (match MoreSamples.form_tree with Tree.Node _ _ _ kids => kids end))
                VNone None 0 []) in Hout.
      rewrite Hrun in Hout. cbn [snd app] in Hout. congruence. }
    vm_compute. reflexivity.
Defined.
